(** * ArticleHub backend: the reaction routes

    A shallow embedding of the reaction endpoints of the ArticleHub REST
    backend (routes/reactions.js, the reaction summary of routes/articles.js
    and routes/comments.js, middleware/auth.js, middleware/validation.js and
    database/schema.sql).

    Every [await db.query(sql, params)] of a handler is one node of a small
    program tree ([prog]); the tables of schema.sql are lists of rows in
    insertion order, and each SQL statement the handlers send is given its
    meaning on those lists by [exec].  A handler runs alone with [run]; two
    handlers are interleaved, statement by statement, with [interleave]: the
    pool sends every statement in a transaction of its own, and a handler
    gives up control exactly at its [await]s.

    Identifiers (ids of users, articles, comments and reaction kinds) are
    integers, the route parameter included; the range of the INTEGER
    columns is not modelled.  Timestamps ([created_at]) are left out, as no
    route below branches on them.

    [exec] gives a statement its meaning once PostgreSQL has taken its
    parameters; [pg_exec] adds what PostgreSQL refuses before that (an id
    outside INTEGER, a sequence without a value left, a text with the
    character of code 0), which a handler answers with 500.

    The routes that write articles and comments (routes/articles.js,
    routes/comments.js, with [checkAuthor] and the string schemas of the
    middleware) run on [site], the store with the columns of those tables,
    of which the store of the reaction routes is a view; the earlier
    revision of routes/reactions.js runs there as well. *)

From Stdlib Require Import ZArith List String Bool Lia Permutation.
Import ListNotations.
Local Open Scope string_scope.
Local Open Scope list_scope.
Local Open Scope Z_scope.

(** ** The store (database/schema.sql) *)

(** The two kinds of subject a reaction is attached to: the handlers for
    comments repeat those for articles over [comments] and
    [comment_reactions]. *)
Inductive subject_type : Set := Article | Comment.

(** A row of [reactions]: id, emoji, name. *)
Record reaction_kind : Set := mk_kind { r_id : Z; r_emoji : string; r_name : string }.

(** A row of [users], with the columns the reaction routes read. *)
Record user_row : Set := mk_user { u_id : Z; u_username : string }.

(** A row of [article_reactions] or of [comment_reactions]:
    id, article_id (resp. comment_id), user_id, reaction_id. *)
Record reaction_row : Set :=
  mk_row { ar_id : Z; ar_subject : Z; ar_user : Z; ar_reaction : Z }.

(** The tables.  [articles] and [comments] keep the primary keys only; the
    two [_id_seq] fields are the sequences behind the SERIAL columns. *)
Record database : Set := mk_db {
  users : list user_row;
  articles : list Z;
  comments : list Z;
  reactions : list reaction_kind;
  article_reactions : list reaction_row;
  article_reactions_id_seq : Z;
  comment_reactions : list reaction_row;
  comment_reactions_id_seq : Z
}.

Definition subjects (t : subject_type) (d : database) : list Z :=
  match t with Article => articles d | Comment => comments d end.

Definition assignments (t : subject_type) (d : database) : list reaction_row :=
  match t with Article => article_reactions d | Comment => comment_reactions d end.

Definition id_seq (t : subject_type) (d : database) : Z :=
  match t with
  | Article => article_reactions_id_seq d
  | Comment => comment_reactions_id_seq d
  end.

Definition set_assignments (t : subject_type) (rows : list reaction_row)
    (d : database) : database :=
  match t with
  | Article =>
      mk_db (users d) (articles d) (comments d) (reactions d)
            rows (article_reactions_id_seq d)
            (comment_reactions d) (comment_reactions_id_seq d)
  | Comment =>
      mk_db (users d) (articles d) (comments d) (reactions d)
            (article_reactions d) (article_reactions_id_seq d)
            rows (comment_reactions_id_seq d)
  end.

Definition set_id_seq (t : subject_type) (n : Z) (d : database) : database :=
  match t with
  | Article =>
      mk_db (users d) (articles d) (comments d) (reactions d)
            (article_reactions d) n
            (comment_reactions d) (comment_reactions_id_seq d)
  | Comment =>
      mk_db (users d) (articles d) (comments d) (reactions d)
            (article_reactions d) (article_reactions_id_seq d)
            (comment_reactions d) n
  end.

(** [WHERE article_id = $1 AND user_id = $2] *)
Definition of_pair (subject user : Z) (row : reaction_row) : bool :=
  (ar_subject row =? subject) && (ar_user row =? user).

(** [UNIQUE(article_id, user_id, reaction_id)] *)
Definition same_triple (subject user reaction : Z) (row : reaction_row) : bool :=
  (ar_subject row =? subject) && (ar_user row =? user) && (ar_reaction row =? reaction).

(** ** Relational operators used by the summary queries *)

Section Relational.
Context {A B : Type}.

(** [l LEFT JOIN r ON on]: a left row without a partner is kept once,
    with NULL on the right. *)
Definition left_join (on : A -> B -> bool) (l : list A) (r : list B)
    : list (A * option B) :=
  flat_map (fun a =>
              match filter (on a) r with
              | [] => [(a, None)]
              | m => map (fun b => (a, Some b)) m
              end) l.

Variable eqb : A -> A -> bool.

(** The distinct values of a list, in order of first occurrence. *)
Fixpoint distinct (l : list A) : list A :=
  match l with
  | [] => []
  | a :: l' => a :: filter (fun b => negb (eqb a b)) (distinct l')
  end.

(** [GROUP BY key]: one group per distinct key, with its rows. *)
Definition group_by {X : Type} (key : X -> A) (l : list X) : list (A * list X) :=
  map (fun k => (k, filter (fun x => eqb k (key x)) l)) (distinct (map key l)).

Variable leb : A -> A -> bool.

Fixpoint insert_sorted (a : A) (l : list A) : list A :=
  match l with
  | [] => [a]
  | b :: l' => if leb a b then a :: l else b :: insert_sorted a l'
  end.

(** [ORDER BY]: a stable sort. *)
Fixpoint order_by (l : list A) : list A :=
  match l with
  | [] => []
  | a :: l' => insert_sorted a (order_by l')
  end.
End Relational.

Definition kind_eqb (a b : reaction_kind) : bool :=
  (r_id a =? r_id b) && String.eqb (r_emoji a) (r_emoji b)
  && String.eqb (r_name a) (r_name b).

(** [COUNT(ar.id)]: the joined rows whose right side is not NULL. *)
Definition count_some {X Y : Type} (g : list (X * option Y)) : Z :=
  Z.of_nat (List.length (filter (fun p => match snd p with Some _ => true | None => false end) g)).

(** [MAX(CASE WHEN ar.user_id = $1 THEN 1 ELSE 0 END)] over the rows of a
    group; a NULL [ar.user_id] takes the ELSE branch. *)
Definition max_case_user {X : Type} (requester : Z) (g : list (X * option reaction_row)) : Z :=
  fold_right Z.max 0
    (map (fun p => match snd p with
                   | Some row => if ar_user row =? requester then 1 else 0
                   | None => 0
                   end) g).

(** A row of the summary of routes/articles.js and routes/comments.js:
    r.id, r.emoji, r.name, count, user_reacted. *)
Record count_row : Set :=
  mk_count_row { cr_kind : reaction_kind; cr_count : Z; cr_user_reacted : Z }.

(** A row of the summary of routes/reactions.js: r.id, r.emoji, r.name,
    count, users ([None] is SQL's NULL). *)
Record users_row : Set :=
  mk_users_row { ur_kind : reaction_kind; ur_count : Z; ur_users : option (list string) }.

(** <<
      SELECT r.id, r.emoji, r.name, COUNT(ar.id) as count,
        MAX(CASE WHEN ar.user_id = $1 THEN 1 ELSE 0 END) as user_reacted   -- req.user
        0 as user_reacted                                                  -- no req.user
      FROM reactions r
      LEFT JOIN article_reactions ar ON r.id = ar.reaction_id AND ar.article_id = $2
      GROUP BY r.id, r.emoji, r.name
      ORDER BY r.id
    >> *)
Definition reactions_with_counts (t : subject_type) (requester : option Z) (subject : Z)
    (d : database) : list count_row :=
  let joined :=
    left_join (fun r ar => (r_id r =? ar_reaction ar) && (ar_subject ar =? subject))
              (reactions d) (assignments t d) in
  let groups := group_by kind_eqb fst joined in
  let rows :=
    map (fun g => mk_count_row (fst g) (count_some (snd g))
                    match requester with
                    | Some u => max_case_user u (snd g)
                    | None => 0
                    end) groups in
  order_by (fun a b => r_id (cr_kind a) <=? r_id (cr_kind b)) rows.

(** <<
      SELECT r.id, r.emoji, r.name, COUNT(ar.id) as count,
        ARRAY_AGG(DISTINCT u.username) FILTER (WHERE u.username IS NOT NULL) as users
      FROM reactions r
      LEFT JOIN article_reactions ar ON r.id = ar.reaction_id AND ar.article_id = $1
      LEFT JOIN users u ON ar.user_id = u.id
      GROUP BY r.id, r.emoji, r.name
      ORDER BY r.id
    >>
    PostgreSQL sorts the values of a DISTINCT aggregate to tell them apart:
    the usernames of a group come in ascending order, here that of their
    characters' codes. *)
Definition reactions_with_users (t : subject_type) (subject : Z) (d : database)
    : list users_row :=
  let joined :=
    left_join (fun (p : reaction_kind * option reaction_row) u =>
                 match snd p with
                 | Some ar => ar_user ar =? u_id u
                 | None => false
                 end)
      (left_join (fun r ar => (r_id r =? ar_reaction ar) && (ar_subject ar =? subject))
                 (reactions d) (assignments t d))
      (users d) in
  let groups := group_by kind_eqb (fun x => fst (fst x)) joined in
  let usernames (g : list (reaction_kind * option reaction_row * option user_row)) :=
    order_by String.leb
      (distinct String.eqb
         (flat_map (fun x => match snd x with Some u => [u_username u] | None => [] end) g)) in
  let rows :=
    map (fun g => mk_users_row (fst g) (count_some (map fst (snd g)))
                    match usernames (snd g) with
                    | [] => None
                    | names => Some names
                    end) groups in
  order_by (fun a b => r_id (ur_kind a) <=? r_id (ur_kind b)) rows.

(** ** Statements and their results *)

(** The statements the routes send through [db.query]. *)
Inductive statement : Set :=
| select_user (id : Z)
    (* SELECT id, username, email, avatar_url FROM users WHERE id = $1 *)
| select_subject (t : subject_type) (id : Z)
    (* SELECT id FROM articles WHERE id = $1 *)
| select_reaction (id : Z)
    (* SELECT id, emoji, name FROM reactions WHERE id = $1 *)
| select_assignment (t : subject_type) (subject user : Z)
    (* SELECT id, reaction_id FROM article_reactions WHERE article_id = $1 AND user_id = $2 *)
| delete_assignment (t : subject_type) (subject user : Z)
    (* DELETE FROM article_reactions WHERE article_id = $1 AND user_id = $2 [RETURNING id] *)
| insert_assignment (t : subject_type) (subject user reaction : Z)
    (* INSERT INTO article_reactions (article_id, user_id, reaction_id)
       VALUES ($1, $2, $3) RETURNING id, created_at *)
| select_counts (t : subject_type) (requester : option Z) (subject : Z)
| select_users (t : subject_type) (subject : Z).

(** The type of a row of [result.rows]. *)
Definition row_of (q : statement) : Set :=
  match q with
  | select_user _ => user_row
  | select_subject _ _ => Z
  | select_reaction _ => reaction_kind
  | select_assignment _ _ _ => (Z * Z)%type          (* id, reaction_id *)
  | delete_assignment _ _ _ => Z                     (* id *)
  | insert_assignment _ _ _ _ => Z                   (* id *)
  | select_counts _ _ _ => count_row
  | select_users _ _ => users_row
  end.

(** The errors a statement can be rejected with. *)
Inductive sql_error : Set :=
| unique_violation
| foreign_key_violation
| numeric_value_out_of_range     (* value "..." is out of range for type integer *)
| sequence_limit_exceeded        (* nextval: reached maximum value of sequence *)
| invalid_byte_sequence.         (* invalid byte sequence for encoding "UTF8": 0x00 *)

Definition result (q : statement) : Set := (sql_error + list (row_of q))%type.

(** The meaning of a statement whose parameters PostgreSQL takes (what it
    refuses before that is in [refused], below): its result and the store
    after it.  An
    INSERT takes its id from the sequence, which stays advanced when the row
    is refused; the row is refused when its (subject, user, kind) triple is
    already there (the UNIQUE constraint) or when one of its three foreign
    keys points to no row. *)
Definition exec (q : statement) (d : database) : result q * database :=
  match q return result q * database with
  | select_user id =>
      (inr (filter (fun u => u_id u =? id) (users d)), d)
  | select_subject t id =>
      (inr (filter (fun s => s =? id) (subjects t d)), d)
  | select_reaction id =>
      (inr (filter (fun r => r_id r =? id) (reactions d)), d)
  | select_assignment t subject user =>
      (inr (map (fun row => (ar_id row, ar_reaction row))
                (filter (of_pair subject user) (assignments t d))), d)
  | delete_assignment t subject user =>
      (inr (map ar_id (filter (of_pair subject user) (assignments t d))),
       set_assignments t (filter (fun row => negb (of_pair subject user row)) (assignments t d)) d)
  | insert_assignment t subject user reaction =>
      let id := id_seq t d in
      let d' := set_id_seq t (id + 1) d in
      if existsb (same_triple subject user reaction) (assignments t d) then
        (inl unique_violation, d')
      else if existsb (fun s => s =? subject) (subjects t d)
              && existsb (fun u => u_id u =? user) (users d)
              && existsb (fun r => r_id r =? reaction) (reactions d) then
        (inr [id], set_assignments t (assignments t d ++ [mk_row id subject user reaction]) d')
      else
        (inl foreign_key_violation, d')
  | select_counts t requester subject =>
      (inr (reactions_with_counts t requester subject d), d)
  | select_users t subject =>
      (inr (reactions_with_users t subject d), d)
  end.

(** ** Handlers as programs over the store *)

(** A handler: it answers ([Ret]) or awaits a statement and goes on with
    its outcome, the rows or the error [db.query] rejects with. *)
Inductive prog (R : Type) : Type :=
| Ret (r : R)
| Await (q : statement) (k : result q -> prog R).
Arguments Ret {R} r.
Arguments Await {R} q k.

(** A handler run alone, from its first statement to its answer. *)
Fixpoint run {R : Type} (p : prog R) (d : database) : R * database :=
  match p with
  | Ret r => (r, d)
  | Await q k => let (x, d') := exec q d in run (k x) d'
  end.

(** The statements a handler sends when run alone, in order. *)
Fixpoint sent {R : Type} (p : prog R) (d : database) : list statement :=
  match p with
  | Ret _ => []
  | Await q k => let (x, d') := exec q d in q :: sent (k x) d'
  end.

(** The stores other requests can see while a handler runs alone: the
    store after each of its statements. *)
Fixpoint stores {R : Type} (p : prog R) (d : database) : list database :=
  match p with
  | Ret _ => []
  | Await q k => let (x, d') := exec q d in d' :: stores (k x) d'
  end.

(** One statement of a handler. *)
Definition step {R : Type} (p : prog R) (d : database) : prog R * database :=
  match p with
  | Ret r => (Ret r, d)
  | Await q k => let (x, d') := exec q d in (k x, d')
  end.

(** Two handlers in flight: [turns] says whose statement the store
    receives next. *)
Inductive turn : Set := first | second.

Fixpoint interleave {R S : Type} (turns : list turn) (p1 : prog R) (p2 : prog S)
    (d : database) : prog R * prog S * database :=
  match turns with
  | [] => (p1, p2, d)
  | first :: turns' => let (p1', d') := step p1 d in interleave turns' p1' p2 d'
  | second :: turns' => let (p2', d') := step p2 d in interleave turns' p1 p2' d'
  end.

(** [try { rows = await db.query(q); k rows } catch { caught }] *)
Definition try_await {R : Type} (caught : R) (q : statement)
    (k : list (row_of q) -> prog R) : prog R :=
  Await q (fun x => match x with inl _ => Ret caught | inr rows => k rows end).

Notation "rows <- 'await' q 'or' caught ;; k" :=
  (try_await caught q (fun rows => k))
  (at level 61, q at next level, caught at next level, right associativity).

(** ** What PostgreSQL refuses

    [exec] is the meaning of a statement whose parameters PostgreSQL takes.
    Before a statement runs, PostgreSQL refuses an id parameter that lies
    outside the INTEGER type of the column it is compared with or stored
    in, and at an INSERT the SERIAL sequence of the table may have no value
    left; the [catch] of the handler then answers 500.  [pg_exec], [pg_run]
    and [pg_sent] are [exec], [run] and [sent] with these refusals. *)

Definition in_integer (n : Z) : Prop := -2147483648 <= n <= 2147483647.

Definition is_integer (n : Z) : bool := (-2147483648 <=? n) && (n <=? 2147483647).

(** The id parameters of a statement. *)
Definition parameters (q : statement) : list Z :=
  match q with
  | select_user id => [id]
  | select_subject _ id => [id]
  | select_reaction id => [id]
  | select_assignment _ subject user => [subject; user]
  | delete_assignment _ subject user => [subject; user]
  | insert_assignment _ subject user reaction => [subject; user; reaction]
  | select_counts _ (Some requester) subject => [requester; subject]
  | select_counts _ None subject => [subject]
  | select_users _ subject => [subject]
  end.

Definition refused (q : statement) (d : database) : option sql_error :=
  if negb (forallb is_integer (parameters q)) then Some numeric_value_out_of_range
  else match q with
       | insert_assignment t _ _ _ =>
           if is_integer (id_seq t d) then None else Some sequence_limit_exceeded
       | _ => None
       end.

(** A refused statement changes nothing, the sequence included. *)
Definition pg_exec (q : statement) (d : database) : result q * database :=
  match refused q d with
  | Some e => (inl e, d)
  | None => exec q d
  end.

Fixpoint pg_run {R : Type} (p : prog R) (d : database) : R * database :=
  match p with
  | Ret r => (r, d)
  | Await q k => let (x, d') := pg_exec q d in pg_run (k x) d'
  end.


(** No statement of the run of [p] from [d] is refused. *)
Fixpoint unrefused {R : Type} (p : prog R) (d : database) : Prop :=
  match p with
  | Ret _ => True
  | Await q k => refused q d = None /\ unrefused (k (fst (exec q d))) (snd (exec q d))
  end.

(** ** Requests and responses *)

(** What [jwt.verify] makes of the Authorization header. *)
Inductive bearer : Set :=
| no_token                 (* no header, or no token after the scheme *)
| token_expired            (* TokenExpiredError *)
| token_invalid            (* JsonWebTokenError *)
| token_failure            (* any other error *)
| token_of (userId : Z).   (* decoded.userId *)

(** The [reaction_id] member of the request body.  [integer n] is an
    integer that JavaScript holds exactly (Number.isSafeInteger); for a
    larger number Joi answers 'number.unsafe' where the schema below goes
    on, so the statements that depend on it bound [n]. *)
Inductive body_value : Set :=
| absent
| not_a_number
| fraction
| integer (n : Z).

Record request : Set := mk_request {
  authorization : bearer;
  params_id : Z;               (* req.params.articleId, req.params.commentId *)
  body_reaction_id : body_value
}.

(** An entry of the [reactions] array of routes/reactions.js. *)
Record users_view : Set :=
  mk_users_view { uv_kind : reaction_kind; uv_count : Z; uv_users : list string }.

(** An entry of the [reactions] array of routes/articles.js and
    routes/comments.js. *)
Record count_view : Set :=
  mk_count_view { cv_kind : reaction_kind; cv_count : Z; cv_user_reacted : bool }.

Inductive json : Set :=
| msg (message : string)
| invalid (message : string) (errors : list (string * string))
| saved (message : string) (id subject_id user_id reaction_id : Z) (emoji name : string)
| listing (reactions : list users_view).

Record response : Set := mk_response { status : Z; body : json }.

(** [res.status(code).json(body)]; [res.json(body)] answers 200. *)
Definition res_status (code : Z) (b : json) : response := mk_response code b.
Definition res_json (b : json) : response := mk_response 200 b.

(** ** middleware/auth.js *)

Definition authenticateToken (req : request) : prog (response + user_row) :=
  match authorization req with
  | no_token => Ret (inl (res_status 401 (msg "Токен доступа не предоставлен")))
  | token_expired => Ret (inl (res_status 401 (msg "Токен истек")))
  | token_invalid => Ret (inl (res_status 401 (msg "Неверный токен")))
  | token_failure => Ret (inl (res_status 500 (msg "Ошибка сервера при проверке токена")))
  | token_of userId =>
      userResult <- await select_user userId
                    or inl (res_status 500 (msg "Ошибка сервера при проверке токена")) ;;
      match userResult with
      | [] => Ret (inl (res_status 401 (msg "Пользователь не найден")))
      | user :: _ => Ret (inr user)
      end
  end.

(** [optionalAuth]: the value of [req.user] for the handler. *)
Definition optionalAuth (req : request) : prog (option user_row) :=
  match authorization req with
  | token_of userId =>
      userResult <- await select_user userId or None ;;
      match userResult with
      | [] => Ret None
      | user :: _ => Ret (Some user)
      end
  | _ => Ret None
  end.

(** ** middleware/validation.js *)

(** [reactionSchemas.create]: a required positive integer.  The answer is
    the first failing rule's message, or the accepted number. *)
Definition reactionSchemas_create (v : body_value) : string + Z :=
  match v with
  | absent => inl "ID реакции обязательно"
  | not_a_number => inl "ID реакции должно быть числом"
  | fraction => inl "ID реакции должно быть целым числом"
  | integer n =>
      if 0 <? n then inr n else inl "ID реакции должно быть положительным числом"
  end.

Definition validate (schema : body_value -> string + Z) (req : request) : response + Z :=
  match schema (body_reaction_id req) with
  | inl message =>
      inl (res_status 400 (invalid "Ошибка валидации данных" [("reaction_id", message)]))
  | inr reaction_id => inr reaction_id
  end.

(** [next()]: the rest of the chain runs on what the middleware found. *)
Fixpoint and_then {A R : Type} (p : prog (R + A)) (next : A -> prog R) : prog R :=
  match p with
  | Ret (inl answered) => Ret answered
  | Ret (inr a) => next a
  | Await q k => Await q (fun x => and_then (k x) next)
  end.

(** [router.METHOD(path, authenticateToken, validate(schema), handler)]:
    the handler is given the route parameter, the validated [reaction_id]
    and [req.user.id]. *)
Definition route (schema : body_value -> string + Z)
    (handler : Z -> Z -> Z -> prog response) (req : request) : prog response :=
  and_then (authenticateToken req) (fun user =>
    match validate schema req with
    | inl answered => Ret answered
    | inr reaction_id => handler (params_id req) reaction_id (u_id user)
    end).

(** ** routes/reactions.js *)

Definition server_error : response := res_status 500 (msg "Ошибка сервера").

(** The handlers for comments are those for articles with the tables
    [comments] and [comment_reactions] in place of [articles] and
    [article_reactions]; the message of the first 404 is the one difference
    in what they answer. *)
Definition subject_not_found (t : subject_type) : string :=
  match t with
  | Article => "Статья не найдена"
  | Comment => "Комментарий не найден"
  end.

Definition rows_length {X : Type} (rows : list X) : Z := Z.of_nat (List.length rows).

(** [router.post('/article/:articleId', ...)] and
    [router.post('/comment/:commentId', ...)] *)
Definition post_reaction (t : subject_type) (subjectId reaction_id userId : Z)
    : prog response :=
  subjectExists <- await select_subject t subjectId or server_error ;;
  if rows_length subjectExists =? 0 then
    Ret (res_status 404 (msg (subject_not_found t)))
  else
  reactionExists <- await select_reaction reaction_id or server_error ;;
  if rows_length reactionExists =? 0 then
    Ret (res_status 404 (msg "Реакция не найдена"))
  else
  existingReaction <- await select_assignment t subjectId userId or server_error ;;
  if (0 <? rows_length existingReaction)
     && match existingReaction with
        | (_, existing_reaction_id) :: _ => existing_reaction_id =? reaction_id
        | [] => false
        end
  then
    Ret (res_status 400 (msg "Вы уже поставили эту реакцию"))
  else
  let insert_and_answer :=
    inserted <- await insert_assignment t subjectId userId reaction_id or server_error ;;
    match inserted, reactionExists with
    | id :: _, reaction :: _ =>
        Ret (res_status 201
               (saved (if 0 <? rows_length existingReaction
                       then "Реакция успешно изменена"
                       else "Реакция успешно добавлена")
                      id subjectId userId reaction_id
                      (r_emoji reaction) (r_name reaction)))
    | _, _ => Ret server_error
    end in
  if 0 <? rows_length existingReaction then
    _ <- await delete_assignment t subjectId userId or server_error ;;
    insert_and_answer
  else
    insert_and_answer.

(** [router.delete('/article/:articleId', ...)] and
    [router.delete('/comment/:commentId', ...)]: the validated
    [reaction_id] is not read. *)
Definition delete_reaction (t : subject_type) (subjectId reaction_id userId : Z)
    : prog response :=
  subjectExists <- await select_subject t subjectId or server_error ;;
  if rows_length subjectExists =? 0 then
    Ret (res_status 404 (msg (subject_not_found t)))
  else
  deleted <- await delete_assignment t subjectId userId or server_error ;;
  if rows_length deleted =? 0 then
    Ret (res_status 404 (msg "Реакция не найдена"))
  else
    Ret (res_json (msg "Реакция успешно удалена")).

(** [r.users || []] *)
Definition users_or_empty (users : option (list string)) : list string :=
  match users with Some names => names | None => [] end.

(** [router.get('/article/:articleId', ...)] and
    [router.get('/comment/:commentId', ...)] *)
Definition get_reactions (t : subject_type) (subjectId : Z) : prog response :=
  subjectExists <- await select_subject t subjectId or server_error ;;
  if rows_length subjectExists =? 0 then
    Ret (res_status 404 (msg (subject_not_found t)))
  else
  rows <- await select_users t subjectId or server_error ;;
  Ret (res_json (listing
         (map (fun r => mk_users_view (ur_kind r) (ur_count r) (users_or_empty (ur_users r)))
              rows))).

(** The four reaction routes with their middleware. *)
Definition post_article_reaction : request -> prog response :=
  route reactionSchemas_create (post_reaction Article).
Definition delete_article_reaction : request -> prog response :=
  route reactionSchemas_create (delete_reaction Article).
Definition post_comment_reaction : request -> prog response :=
  route reactionSchemas_create (post_reaction Comment).
Definition delete_comment_reaction : request -> prog response :=
  route reactionSchemas_create (delete_reaction Comment).

(** ** routes/articles.js and routes/comments.js: the reaction summary *)

(** [Boolean(parseInt(r.user_reacted))] *)
Definition to_boolean (n : Z) : bool := negb (n =? 0).

(** The reactions query of [router.get('/:id', optionalAuth, ...)] in
    routes/articles.js (the list route sends the same for each article, and
    routes/comments.js for each comment), with the array built from its
    rows: for the subject, every kind with its count and the requester's
    flag.  [user] is [req.user]; [None] as answer stands for the handler's
    catch. *)
Definition subject_reactions (t : subject_type) (user : option user_row) (subjectId : Z)
    : prog (option (list count_view)) :=
  rows <- await select_counts t (option_map u_id user) subjectId or None ;;
  Ret (Some (map (fun r => mk_count_view (cr_kind r) (cr_count r)
                             (to_boolean (cr_user_reacted r))) rows)).

(** ** The seed of schema.sql and a small store to run examples on *)

Definition seed : list reaction_kind :=
  [ mk_kind 1 "👍" "like"; mk_kind 2 "👎" "dislike"; mk_kind 3 "❤️" "love";
    mk_kind 4 "😂" "laugh"; mk_kind 5 "😮" "wow"; mk_kind 6 "😢" "sad";
    mk_kind 7 "😡" "angry" ].

Definition demo : database :=
  mk_db [mk_user 1 "ann"; mk_user 2 "bob"; mk_user 3 "eve"] [10; 11] [20] seed [] 1 [] 1.

Definition as_user (userId subjectId reaction_id : Z) : request :=
  mk_request (token_of userId) subjectId (integer reaction_id).

(** ** Vocabulary of the statements below *)

(** The rows a user holds on a subject: what the handler's own lookup
    ([select_assignment]) reads. *)
Definition held (t : subject_type) (subject user : Z) (d : database) : list reaction_row :=
  filter (of_pair subject user) (assignments t d).

(** The invariant of the reaction tables: at most one row for each
    (subject type, subject, user). *)
Definition single_assignment (d : database) : Prop :=
  forall t subject user, (List.length (held t subject user d) <= 1)%nat.

(** The same, as a test on the rows of the store. *)
Definition single_assignmentb (d : database) : bool :=
  forallb (fun t =>
             forallb (fun row =>
                        (List.length (held t (ar_subject row) (ar_user row) d) <=? 1)%nat)
                     (assignments t d))
          [Article; Comment].

Definition is_user (d : database) (userId : Z) : Prop :=
  exists u, In u (users d) /\ u_id u = userId.

Definition is_subject (t : subject_type) (d : database) (subject : Z) : Prop :=
  In subject (subjects t d).

Definition is_kind (d : database) (reaction_id : Z) : Prop :=
  exists r, In r (reactions d) /\ r_id r = reaction_id.

(** A request that passes [authenticateToken] and
    [validate(reactionSchemas.create)]: a token of a registered user and a
    positive integer [reaction_id]. *)
Definition accepted (d : database) (req : request) (userId reaction_id : Z) : Prop :=
  authorization req = token_of userId /\ is_user d userId
  /\ body_reaction_id req = integer reaction_id /\ 0 < reaction_id.

(** The reaction operations of the specification, as requests to the four
    routes. *)
Inductive operation : Set :=
| assignReaction (t : subject_type) (req : request)
| removeReaction (t : subject_type) (req : request).

Definition handler_of (op : operation) : prog response :=
  match op with
  | assignReaction Article req => post_article_reaction req
  | assignReaction Comment req => post_comment_reaction req
  | removeReaction Article req => delete_article_reaction req
  | removeReaction Comment req => delete_comment_reaction req
  end.

(** Requests served one after the other. *)
Fixpoint serve (ops : list operation) (d : database) : list response * database :=
  match ops with
  | [] => ([], d)
  | op :: ops' =>
      let (answer, d') := run (handler_of op) d in
      let (answers, d'') := serve ops' d' in
      (answer :: answers, d'')
  end.

Definition is_write (q : statement) : bool :=
  match q with
  | delete_assignment _ _ _ | insert_assignment _ _ _ _ => true
  | _ => false
  end.

(** A reader that runs while a writer is in flight sees the store as it
    was before the writer or as it is after it: what it means for the
    writer's statements to be one atomic unit. *)
Definition atomic_for {R S : Type} (writer : prog R) (reader : prog S) (d : database) : Prop :=
  forall turns w r d',
    interleave turns writer reader d = (Ret w, Ret r, d') ->
    r = fst (run reader d) \/ r = fst (run reader (snd (run writer d))).

(** The store after [DELETE ... WHERE article_id = $1 AND user_id = $2]. *)
Definition without_pair (t : subject_type) (subject user : Z) (d : database) : database :=
  set_assignments t (filter (fun row => negb (of_pair subject user row)) (assignments t d)) d.

(** The store after an accepted INSERT. *)
Definition with_new_row (t : subject_type) (subject user reaction : Z) (d : database)
    : database :=
  set_assignments t (assignments t d ++ [mk_row (id_seq t d) subject user reaction])
    (set_id_seq t (id_seq t d + 1) d).

(** The number of rows of a kind on a subject, and whether a user holds
    one: what the summaries are to report. *)
Definition on_kind (subject reaction_id : Z) (ar : reaction_row) : bool :=
  (reaction_id =? ar_reaction ar) && (ar_subject ar =? subject).

Definition count_of (t : subject_type) (subject reaction_id : Z) (d : database) : Z :=
  Z.of_nat (List.length (filter (on_kind subject reaction_id) (assignments t d))).

Definition holds_kind (t : subject_type) (subject user reaction_id : Z) (d : database)
    : bool :=
  existsb (fun ar => on_kind subject reaction_id ar && (ar_user ar =? user)) (assignments t d).

Definition expected_view (t : subject_type) (user : option user_row) (subject : Z)
    (d : database) (kind : reaction_kind) : count_view :=
  mk_count_view kind (count_of t subject (r_id kind) d)
    match user with
    | Some u => holds_kind t subject (u_id u) (r_id kind) d
    | None => false
    end.

(** Three users put three different kinds on article 10. *)
Definition three_reactions : database :=
  snd (serve [assignReaction Article (as_user 1 10 1);
              assignReaction Article (as_user 2 10 2);
              assignReaction Article (as_user 3 10 3)] demo).

(** Two requests of ann for article 10 in flight at once, for kinds 1 and
    2: each has looked the user, the article, the kind and the held rows up
    before either inserts. *)
Definition race : list turn :=
  [first; first; first; first; second; second; second; second; first; second].

(** Ann holds kind 1 on article 10. *)
Definition ann_likes : database :=
  snd (run (post_article_reaction (as_user 1 10 1)) demo).

(** A reader served between the DELETE and the INSERT of a writer: the
    writer's five first statements, the reader's two, the writer's last. *)
Definition read_in_between : list turn :=
  [first; first; first; first; first; second; second; first].


(** The catalog row a request for a kind is answered with: the first
    row of the handler's [select_reaction]. *)
Definition kind_row (d : database) (reaction_id : Z) : reaction_kind :=
  hd (mk_kind 0 EmptyString EmptyString) (filter (fun r => r_id r =? reaction_id) (reactions d)).

(** The rows the first LEFT JOIN of a summary gives for one kind. *)
Definition joined_rows (subject : Z) (rows : list reaction_row) (r : reaction_kind)
    : list (reaction_kind * option reaction_row) :=
  match filter (fun ar => (r_id r =? ar_reaction ar) && (ar_subject ar =? subject)) rows with
  | [] => [(r, None)]
  | m => map (fun b => (r, Some b)) m
  end.

(** The rows the LEFT JOIN with [users] gives for one row of the first. *)
Definition user_rows (people : list user_row) (p : reaction_kind * option reaction_row)
    : list (reaction_kind * option reaction_row * option user_row) :=
  match filter (fun u => match snd p with
                         | Some ar => ar_user ar =? u_id u
                         | None => false
                         end) people with
  | [] => [(p, None)]
  | m => map (fun u => (p, Some u)) m
  end.

(** The ids of a request that passed the middleware are INTEGERs, and the
    sequence of the table has a value left. *)
Definition in_range (t : subject_type) (d : database) (req : request)
    (userId reaction_id : Z) : Prop :=
  in_integer userId /\ in_integer (params_id req) /\ in_integer reaction_id
  /\ in_integer (id_seq t d).

(** ** Further vocabulary: what a request may touch *)

Definition op_type (op : operation) : subject_type :=
  match op with assignReaction t _ | removeReaction t _ => t end.

Definition op_request (op : operation) : request :=
  match op with assignReaction _ req | removeReaction _ req => req end.

(** A handler that only sends SELECTs, whatever it is answered. *)
Inductive reads_only {R : Type} : prog R -> Prop :=
| reads_ret (r : R) : reads_only (Ret r)
| reads_await (q : statement) (k : result q -> prog R) :
    is_write q = false -> (forall x, reads_only (k x)) -> reads_only (Await q k).

(** The constraints schema.sql puts on the two reaction tables: ids are
    primary keys handed out by the sequence, (subject, user, kind) is
    unique, and the three foreign keys point to rows. *)
Definition primary_keys (d : database) : Prop :=
  forall t, NoDup (map ar_id (assignments t d))
            /\ forall row, In row (assignments t d) -> ar_id row < id_seq t d.

Definition unique_triples (d : database) : Prop :=
  forall t subject user reaction,
    (List.length (filter (same_triple subject user reaction) (assignments t d)) <= 1)%nat.

Definition foreign_keys (d : database) : Prop :=
  forall t row, In row (assignments t d) ->
    is_subject t d (ar_subject row) /\ is_user d (ar_user row) /\ is_kind d (ar_reaction row).

Definition schema_constraints (d : database) : Prop :=
  primary_keys d /\ unique_triples d /\ foreign_keys d.

(** What a request of user [u] for subject [s] can make of a store [d]:
    nothing, the rows of the pair deleted, or a row added for the pair, to
    the store as it is when the pair has none, else after the deletion. *)
Definition effect (t : subject_type) (s u : Z) (d d' : database) : Prop :=
  d' = d
  \/ d' = without_pair t s u d
  \/ exists k,
       is_subject t d s /\ is_user d u /\ is_kind d k
       /\ ((held t s u d = [] /\ d' = with_new_row t s u k d)
           \/ d' = with_new_row t s u k (without_pair t s u d)).

(** ** routes/articles.js and routes/comments.js: the pages of a list *)

(** [parseInt(req.query.x) || fallback]: the argument is what [parseInt]
    gives, [None] for NaN; NaN and 0 are falsy. *)
Definition parsed_or (parsed : option Z) (fallback : Z) : Z :=
  match parsed with
  | None | Some 0 => fallback
  | Some n => n
  end.

(** [parseInt(req.query.page)] and [parseInt(req.query.limit)]. *)
Record page_query : Set := mk_page_query { query_page : option Z; query_limit : option Z }.

(** The [pagination] member of the answer. *)
Record pagination : Set := mk_pagination {
  pg_page : Z;
  pg_limit : Z;
  pg_total : Z;
  pg_totalPages : Z;
  pg_hasNext : bool;
  pg_hasPrev : bool
}.

(** [Math.ceil(a / b)] on integers, for a positive [b]. *)
Definition ceil_div (a b : Z) : Z := - ((- a) / b).

(** [LIMIT n OFFSET m] on the rows of a query, taken in its order; the
    store refuses a negative limit or offset. *)
Definition limit_offset {A : Type} (rows : list A) (n m : Z) : option (list A) :=
  if (n <? 0) || (m <? 0) then None
  else Some (firstn (Z.to_nat n) (skipn (Z.to_nat m) rows)).

(** The paging of [router.get('/', ...)] in routes/articles.js ([fallback]
    10, [cap] 50) and of [router.get('/article/:articleId', ...)] in
    routes/comments.js ([fallback] 20, [cap] 100).  [matching] stands for
    the rows the list query selects before LIMIT and OFFSET, in its order;
    the count query counts the same rows.  [None] is the handler's catch,
    answered 500. *)
Definition list_page {A : Type} (fallback cap : Z) (q : page_query) (matching : list A)
    : option (list A * pagination) :=
  let page := parsed_or (query_page q) 1 in
  let limit := parsed_or (query_limit q) fallback in
  let offset := (page - 1) * limit in
  let validLimit := Z.min (Z.max limit 1) cap in
  match limit_offset matching validLimit offset with
  | None => None
  | Some rows =>
      let totalCount := Z.of_nat (List.length matching) in
      let totalPages := ceil_div totalCount validLimit in
      Some (rows,
            mk_pagination page validLimit totalCount totalPages
                          (page <? totalPages) (1 <? page))
  end.

(** The rows of page [p] when [limit] rows are asked for per page. *)
Definition page_rows {A : Type} (fallback cap limit : Z) (matching : list A) (p : nat)
    : list A :=
  match list_page fallback cap (mk_page_query (Some (Z.of_nat p)) (Some limit)) matching with
  | Some (rows, _) => rows
  | None => []
  end.

(** ** Articles and comments with their columns

    routes/articles.js and routes/comments.js write the tables of which the
    reaction routes only read the ids.  [site] holds those tables with the
    columns their routes use; the store of the reaction routes is the view
    [db_of] of it.  Strings stand for JavaScript strings with one character
    per code unit. *)

(** A row of [articles]: id, title, content, author_id. *)
Record article_row : Set :=
  mk_article { a_id : Z; a_title : string; a_content : string; a_author : Z }.

(** A row of [comments]: id, content, article_id, author_id. *)
Record comment_row : Set :=
  mk_comment { c_id : Z; c_content : string; c_article : Z; c_author : Z }.

Record site : Set := mk_site {
  site_users : list user_row;
  site_kinds : list reaction_kind;
  article_rows : list article_row;
  articles_id_seq : Z;
  comment_rows : list comment_row;
  comments_id_seq : Z;
  site_article_reactions : list reaction_row;
  site_article_reactions_seq : Z;
  site_comment_reactions : list reaction_row;
  site_comment_reactions_seq : Z
}.

(** The store as the reaction routes and [authenticateToken] see it. *)
Definition db_of (s : site) : database :=
  mk_db (site_users s) (map a_id (article_rows s)) (map c_id (comment_rows s)) (site_kinds s)
        (site_article_reactions s) (site_article_reactions_seq s)
        (site_comment_reactions s) (site_comment_reactions_seq s).

(** The site after a statement of the reaction routes: those statements
    change the reaction tables and their sequences only. *)
Definition absorb (d : database) (s : site) : site :=
  mk_site (site_users s) (site_kinds s)
          (article_rows s) (articles_id_seq s) (comment_rows s) (comments_id_seq s)
          (article_reactions d) (article_reactions_id_seq d)
          (comment_reactions d) (comment_reactions_id_seq d).

Definition set_articles (rows : list article_row) (next : Z) (s : site) : site :=
  mk_site (site_users s) (site_kinds s) rows next (comment_rows s) (comments_id_seq s)
          (site_article_reactions s) (site_article_reactions_seq s)
          (site_comment_reactions s) (site_comment_reactions_seq s).

Definition set_comments (rows : list comment_row) (next : Z) (s : site) : site :=
  mk_site (site_users s) (site_kinds s) (article_rows s) (articles_id_seq s) rows next
          (site_article_reactions s) (site_article_reactions_seq s)
          (site_comment_reactions s) (site_comment_reactions_seq s).

(** [UPDATE articles SET title = .., content = .. WHERE id = ..], with the
    columns the handler put in the statement. *)
Definition change_article (title content : option string) (a : article_row) : article_row :=
  mk_article (a_id a)
             (match title with Some x => x | None => a_title a end)
             (match content with Some x => x | None => a_content a end)
             (a_author a).

Definition change_comment (content : string) (c : comment_row) : comment_row :=
  mk_comment (c_id c) content (c_article c) (c_author c).

(** [DELETE FROM articles WHERE id = ..] with the ON DELETE CASCADE of
    schema.sql: the comments of the article and the reactions to the
    article go with it, and with each comment the reactions to it. *)
Definition without_article (id : Z) (s : site) : site :=
  let gone := filter (fun c => c_article c =? id) (comment_rows s) in
  mk_site (site_users s) (site_kinds s)
          (filter (fun a => negb (a_id a =? id)) (article_rows s)) (articles_id_seq s)
          (filter (fun c => negb (c_article c =? id)) (comment_rows s)) (comments_id_seq s)
          (filter (fun r => negb (ar_subject r =? id)) (site_article_reactions s))
          (site_article_reactions_seq s)
          (filter (fun r => negb (existsb (fun c => c_id c =? ar_subject r) gone))
                  (site_comment_reactions s))
          (site_comment_reactions_seq s).

(** [DELETE FROM comments WHERE id = ..], the reactions to the comment
    going with it. *)
Definition without_comment (id : Z) (s : site) : site :=
  mk_site (site_users s) (site_kinds s)
          (article_rows s) (articles_id_seq s)
          (filter (fun c => negb (c_id c =? id)) (comment_rows s)) (comments_id_seq s)
          (site_article_reactions s) (site_article_reactions_seq s)
          (filter (fun r => negb (ar_subject r =? id)) (site_comment_reactions s))
          (site_comment_reactions_seq s).

(** The store after [DELETE ... WHERE article_id = $1 AND user_id = $2 AND
    reaction_id = $3]. *)
Definition without_triple (t : subject_type) (subject user reaction : Z) (d : database)
    : database :=
  set_assignments t
    (filter (fun row => negb (same_triple subject user reaction row)) (assignments t d)) d.

(** The statements of the article and comment routes; [on_db] are those of
    the reaction routes and of [authenticateToken]; the last two are sent
    by the earlier revision of routes/reactions.js only. *)
Inductive site_statement : Set :=
| on_db (q : statement)
| select_author (t : subject_type) (id : Z)
    (* SELECT author_id FROM articles WHERE id = $1, resp. FROM comments *)
| select_author_data (id : Z)
    (* SELECT username, avatar_url FROM users WHERE id = $1 *)
| insert_article (title content : string) (author : Z)
    (* INSERT INTO articles (title, content, author_id) VALUES ($1, $2, $3) RETURNING ... *)
| update_article (title content : option string) (id : Z)
    (* UPDATE articles SET ..., updated_at = CURRENT_TIMESTAMP WHERE id = $n RETURNING ... *)
| delete_article (id : Z)
    (* DELETE FROM articles WHERE id = $1 RETURNING title *)
| insert_comment (content : string) (article author : Z)
    (* INSERT INTO comments (content, article_id, author_id) VALUES ($1, $2, $3) RETURNING ... *)
| update_comment (content : string) (id : Z)
    (* UPDATE comments SET content = $1, updated_at = CURRENT_TIMESTAMP WHERE id = $2 RETURNING ... *)
| delete_comment (id : Z)
    (* DELETE FROM comments WHERE id = $1 RETURNING content *)
| select_triple (t : subject_type) (subject user reaction : Z)
    (* SELECT id FROM article_reactions
       WHERE article_id = $1 AND user_id = $2 AND reaction_id = $3 *)
| delete_triple (t : subject_type) (subject user reaction : Z).
    (* DELETE FROM article_reactions
       WHERE article_id = $1 AND user_id = $2 AND reaction_id = $3 RETURNING id *)

Definition site_row_of (q : site_statement) : Set :=
  match q with
  | on_db q => row_of q
  | select_author _ _ => Z
  | select_author_data _ => user_row
  | insert_article _ _ _ => article_row
  | update_article _ _ _ => article_row
  | delete_article _ => string
  | insert_comment _ _ _ => comment_row
  | update_comment _ _ => comment_row
  | delete_comment _ => string
  | select_triple _ _ _ _ => Z
  | delete_triple _ _ _ _ => Z
  end.

Definition site_result (q : site_statement) : Set := (sql_error + list (site_row_of q))%type.

(** The meaning of the statements whose parameters PostgreSQL takes (what
    it refuses before that is in [site_refused], below).  An INSERT takes
    its id from the sequence of the table and is refused when a foreign key
    of the new row points to no row. *)
Definition site_exec (q : site_statement) (s : site) : site_result q * site :=
  match q return site_result q * site with
  | on_db q => let (x, d) := exec q (db_of s) in (x, absorb d s)
  | select_author t id =>
      (inr match t with
           | Article => map a_author (filter (fun a => a_id a =? id) (article_rows s))
           | Comment => map c_author (filter (fun c => c_id c =? id) (comment_rows s))
           end, s)
  | select_author_data id =>
      (inr (filter (fun u => u_id u =? id) (site_users s)), s)
  | insert_article title content author =>
      let id := articles_id_seq s in
      if existsb (fun u => u_id u =? author) (site_users s) then
        (inr [mk_article id title content author],
         set_articles (article_rows s ++ [mk_article id title content author]) (id + 1) s)
      else
        (inl foreign_key_violation, set_articles (article_rows s) (id + 1) s)
  | update_article title content id =>
      (inr (map (change_article title content)
                (filter (fun a => a_id a =? id) (article_rows s))),
       set_articles (map (fun a => if a_id a =? id then change_article title content a else a)
                         (article_rows s))
                    (articles_id_seq s) s)
  | delete_article id =>
      (inr (map a_title (filter (fun a => a_id a =? id) (article_rows s))),
       without_article id s)
  | insert_comment content article author =>
      let id := comments_id_seq s in
      if existsb (fun a => a_id a =? article) (article_rows s)
         && existsb (fun u => u_id u =? author) (site_users s) then
        (inr [mk_comment id content article author],
         set_comments (comment_rows s ++ [mk_comment id content article author]) (id + 1) s)
      else
        (inl foreign_key_violation, set_comments (comment_rows s) (id + 1) s)
  | update_comment content id =>
      (inr (map (change_comment content) (filter (fun c => c_id c =? id) (comment_rows s))),
       set_comments (map (fun c => if c_id c =? id then change_comment content c else c)
                         (comment_rows s))
                    (comments_id_seq s) s)
  | delete_comment id =>
      (inr (map c_content (filter (fun c => c_id c =? id) (comment_rows s))),
       without_comment id s)
  | select_triple t subject user reaction =>
      (inr (map ar_id (filter (same_triple subject user reaction) (assignments t (db_of s)))),
       s)
  | delete_triple t subject user reaction =>
      (inr (map ar_id (filter (same_triple subject user reaction) (assignments t (db_of s)))),
       absorb (without_triple t subject user reaction (db_of s)) s)
  end.

(** Handlers over the site. *)
Inductive site_prog (R : Type) : Type :=
| Done (r : R)
| Then (q : site_statement) (k : site_result q -> site_prog R).
Arguments Done {R} r.
Arguments Then {R} q k.

Fixpoint site_run {R : Type} (p : site_prog R) (s : site) : R * site :=
  match p with
  | Done r => (r, s)
  | Then q k => let (x, s') := site_exec q s in site_run (k x) s'
  end.

Fixpoint site_sent {R : Type} (p : site_prog R) (s : site) : list site_statement :=
  match p with
  | Done _ => []
  | Then q k => let (x, s') := site_exec q s in q :: site_sent (k x) s'
  end.

Definition site_try {R : Type} (caught : R) (q : site_statement)
    (k : list (site_row_of q) -> site_prog R) : site_prog R :=
  Then q (fun x => match x with inl _ => Done caught | inr rows => k rows end).

Notation "rows <-- q 'or' caught ;; k" :=
  (site_try caught q (fun rows => k))
  (at level 61, q at next level, caught at next level, right associativity).

Fixpoint site_next {A R : Type} (p : site_prog (R + A)) (next : A -> site_prog R)
    : site_prog R :=
  match p with
  | Done (inl answered) => Done answered
  | Done (inr a) => next a
  | Then q k => Then q (fun x => site_next (k x) next)
  end.

(** [p] of the reaction routes or of middleware/auth.js run on the site,
    its answer passed through [f]. *)
Fixpoint lift {R S : Type} (f : R -> S) (p : prog R) : site_prog S :=
  match p with
  | Ret r => Done (f r)
  | Await q k => Then (on_db q) (fun x => lift f (k x))
  end.

(** *** What PostgreSQL refuses of these statements

    [site_exec] is the meaning of a statement whose parameters PostgreSQL
    takes.  Besides an id outside INTEGER and an INSERT when the sequence of
    the table has no value left, it refuses a text that holds the character
    of code 0; a refused statement changes nothing and the [catch] of the
    handler answers 500. *)

Definition no_nul (s : string) : bool :=
  negb (existsb (Ascii.eqb Ascii.zero) (list_ascii_of_string s)).

(** The text parameters of a statement. *)
Definition site_texts (q : site_statement) : list string :=
  match q with
  | insert_article title content _ => [title; content]
  | update_article title content _ =>
      match title with Some x => [x] | None => [] end
      ++ match content with Some x => [x] | None => [] end
  | insert_comment content _ _ => [content]
  | update_comment content _ => [content]
  | _ => []
  end.

(** The id parameters of a statement. *)
Definition site_parameters (q : site_statement) : list Z :=
  match q with
  | on_db q => parameters q
  | select_author _ id => [id]
  | select_author_data id => [id]
  | insert_article _ _ author => [author]
  | update_article _ _ id => [id]
  | delete_article id => [id]
  | insert_comment _ article author => [article; author]
  | update_comment _ id => [id]
  | delete_comment id => [id]
  | select_triple _ subject user reaction => [subject; user; reaction]
  | delete_triple _ subject user reaction => [subject; user; reaction]
  end.

(** For an INSERT: the sequence of the table has a value left. *)
Definition value_left (q : site_statement) (s : site) : bool :=
  match q with
  | on_db (insert_assignment t _ _ _) => is_integer (id_seq t (db_of s))
  | insert_article _ _ _ => is_integer (articles_id_seq s)
  | insert_comment _ _ _ => is_integer (comments_id_seq s)
  | _ => true
  end.

Definition site_refused (q : site_statement) (s : site) : option sql_error :=
  if negb (forallb no_nul (site_texts q)) then Some invalid_byte_sequence
  else if negb (forallb is_integer (site_parameters q)) then Some numeric_value_out_of_range
  else if value_left q s then None else Some sequence_limit_exceeded.

Definition site_pg_exec (q : site_statement) (s : site) : site_result q * site :=
  match site_refused q s with
  | Some e => (inl e, s)
  | None => site_exec q s
  end.

Fixpoint site_pg_run {R : Type} (p : site_prog R) (s : site) : R * site :=
  match p with
  | Done r => (r, s)
  | Then q k => let (x, s') := site_pg_exec q s in site_pg_run (k x) s'
  end.

(** No statement of the run of [p] from [s] is refused. *)
Fixpoint site_unrefused {R : Type} (p : site_prog R) (s : site) : Prop :=
  match p with
  | Done _ => True
  | Then q k =>
      site_refused q s = None
      /\ site_unrefused (k (fst (site_exec q s))) (snd (site_exec q s))
  end.

(** *** Requests and responses *)

(** A member of the request body that is to be a string. *)
Inductive field : Set :=
| missing                  (* undefined *)
| not_text                 (* any value that is no string *)
| text (s : string).

(** The body of a request to routes/articles.js: title and content. *)
Record article_body : Set := mk_article_body { body_title : field; body_content : field }.

(** A request with the body [B], as the chain of a route receives it from
    the middleware of server.js: the token, [req.params.id] (for a new
    comment [req.params.articleId]) and [req.body]. *)
Record site_request (B : Set) : Set := mk_site_request {
  sr_authorization : bearer;
  sr_params_id : Z;
  sr_body : B
}.
Arguments mk_site_request {B} _ _ _.
Arguments sr_authorization {B} _.
Arguments sr_params_id {B} _.
Arguments sr_body {B} _.

(** [detail.message]: a message the schema gives with [.messages], or the
    one Joi has for the error code. *)
Inductive joi_message : Set :=
| written (message : string)
| built_in (code : string).

Inductive site_json : Set :=
| of_json (j : json)
| not_valid (message : string) (errors : list (string * joi_message))
| article_json (message : string) (article : option article_row) (author_username : string)
| comment_json (message : string) (comment : option comment_row) (author_username : string)
| deleted_json (message : string) (deleted : string).

Record site_response : Set := mk_site_response { site_status : Z; site_body : site_json }.

Definition of_response (r : response) : site_response :=
  mk_site_response (status r) (of_json (body r)).

(** [res.status(code).json({ message })]. *)
Definition reply (code : Z) (message : string) : site_response :=
  mk_site_response code (of_json (msg message)).

(** *** middleware/validation.js: the string schemas *)

(** [Joi.string().min(min).max(max)] on a member of the body: the message
    of the first failing rule, or the string, if there is one. *)
Definition joi_string (min : nat) (short : joi_message) (max : option (nat * joi_message))
    (v : field) : joi_message + option string :=
  match v with
  | missing => inr None
  | not_text => inl (built_in "string.base")
  | text s =>
      if (String.length s =? 0)%nat then inl (built_in "string.empty")
      else if (String.length s <? min)%nat then inl short
      else match max with
           | Some (n, long) => if (n <? String.length s)%nat then inl long else inr (Some s)
           | None => inr (Some s)
           end
  end.

(** [.required()] with the message for 'any.required'. *)
Definition joi_required (message : string) (r : joi_message + option string)
    : joi_message + string :=
  match r with
  | inl m => inl m
  | inr None => inl (written message)
  | inr (Some s) => inr s
  end.

Definition title_rules : field -> joi_message + option string :=
  joi_string 3 (written "Заголовок должен содержать минимум 3 символа")
             (Some (255%nat, written "Заголовок не должен превышать 255 символов")).

Definition content_rules : field -> joi_message + option string :=
  joi_string 10 (written "Содержание должно содержать минимум 10 символов") None.

Definition comment_rules : field -> joi_message + option string :=
  joi_string 1 (written "Комментарий не может быть пустым")
             (Some (1000%nat, written "Комментарий не должен превышать 1000 символов")).

(** The members are checked in the order of the schema and the first error
    ends the check. *)
Definition articleSchemas_create (b : article_body) : (string * joi_message) + (string * string) :=
  match joi_required "Заголовок обязателен" (title_rules (body_title b)) with
  | inl m => inl ("title", m)
  | inr title =>
      match joi_required "Содержание обязательно" (content_rules (body_content b)) with
      | inl m => inl ("content", m)
      | inr content => inr (title, content)
      end
  end.

Definition articleSchemas_update (b : article_body)
    : (string * joi_message) + (option string * option string) :=
  match title_rules (body_title b) with
  | inl m => inl ("title", m)
  | inr title =>
      match content_rules (body_content b) with
      | inl m => inl ("content", m)
      | inr content => inr (title, content)
      end
  end.

(** [commentSchemas.create] and [commentSchemas.update] are the same
    schema. *)
Definition commentSchemas_create (content : field) : (string * joi_message) + string :=
  match joi_required "Содержание комментария обязательно" (comment_rules content) with
  | inl m => inl ("content", m)
  | inr content => inr content
  end.

Definition commentSchemas_update : field -> (string * joi_message) + string :=
  commentSchemas_create.

(** [validate(schema)]: 400 with the error, or the body as the handler
    reads it. *)
Definition validate_body {B V : Set} (schema : B -> (string * joi_message) + V)
    (req : site_request B) : site_response + V :=
  match schema (sr_body req) with
  | inl error => inl (mk_site_response 400 (not_valid "Ошибка валидации данных" [error]))
  | inr v => inr v
  end.

(** *** middleware/auth.js on the site *)

Definition site_authenticate {B : Set} (req : site_request B)
    : site_prog (site_response + user_row) :=
  lift (fun r => match r with inl answered => inl (of_response answered) | inr user => inr user end)
       (authenticateToken (mk_request (sr_authorization req) (sr_params_id req) absent)).

(** The table [checkAuthor(resourceType)] looks in. *)
Definition resource_table (resourceType : string) : option subject_type :=
  if String.eqb resourceType "article" then Some Article
  else if String.eqb resourceType "comment" then Some Comment
  else None.

Definition checkAuthor {B : Set} (resourceType : string) (req : site_request B)
    (user : user_row) : site_prog (site_response + unit) :=
  match resource_table resourceType with
  | None => Done (inl (reply 400 "Неверный тип ресурса"))
  | Some t =>
      result <-- select_author t (sr_params_id req) or inl (reply 500 "Ошибка сервера") ;;
      match result with
      | [] => Done (inl (reply 404 "Ресурс не найден"))
      | author_id :: _ =>
          if author_id =? u_id user then Done (inr tt)
          else Done (inl (reply 403 "Нет прав доступа"))
      end
  end.

(** [router.METHOD('/:id', authenticateToken, checkAuthor(resourceType), ...)]. *)
Definition guarded {B : Set} (resourceType : string)
    (rest : user_row -> site_prog site_response) (req : site_request B)
    : site_prog site_response :=
  site_next (site_authenticate req) (fun user =>
    site_next (checkAuthor resourceType req user) (fun _ => rest user)).

(** *** routes/articles.js *)

Definition site_server_error : site_response := reply 500 "Ошибка сервера".

(** [router.post('/')].  [author.username] of no row throws, which the
    handler catches. *)
Definition post_article (req : site_request article_body) : site_prog site_response :=
  site_next (site_authenticate req) (fun user =>
    match validate_body articleSchemas_create req with
    | inl answered => Done answered
    | inr (title, content) =>
        result <-- insert_article title content (u_id user) or site_server_error ;;
        authorResult <-- select_author_data (u_id user) or site_server_error ;;
        match authorResult with
        | [] => Done site_server_error
        | author :: _ =>
            Done (mk_site_response 201
                    (article_json "Статья успешно создана" (hd_error result)
                                  (u_username author)))
        end
    end).

(** [router.put('/:id')]. *)
Definition put_article (req : site_request article_body) : site_prog site_response :=
  guarded "article" (fun user =>
    match validate_body articleSchemas_update req with
    | inl answered => Done answered
    | inr (None, None) => Done (reply 400 "Нет данных для обновления")
    | inr (title, content) =>
        result <-- update_article title content (sr_params_id req) or site_server_error ;;
        authorResult <-- select_author_data (u_id user) or site_server_error ;;
        match authorResult with
        | [] => Done site_server_error
        | author :: _ =>
            Done (mk_site_response 200
                    (article_json "Статья успешно обновлена" (hd_error result)
                                  (u_username author)))
        end
    end) req.

(** [router.delete('/:id')].  [result.rows[0].title] of no row throws. *)
Definition delete_article_route {B : Set} (req : site_request B) : site_prog site_response :=
  guarded "article" (fun _ =>
    result <-- delete_article (sr_params_id req) or site_server_error ;;
    match result with
    | [] => Done site_server_error
    | title :: _ =>
        Done (mk_site_response 200 (deleted_json "Статья успешно удалена" title))
    end) req.

(** *** routes/comments.js *)

(** [router.post('/article/:articleId')]. *)
Definition post_comment (req : site_request field) : site_prog site_response :=
  site_next (site_authenticate req) (fun user =>
    match validate_body commentSchemas_create req with
    | inl answered => Done answered
    | inr content =>
        articleExists <-- on_db (select_subject Article (sr_params_id req))
                          or site_server_error ;;
        match articleExists with
        | [] => Done (reply 404 "Статья не найдена")
        | _ :: _ =>
            result <-- insert_comment content (sr_params_id req) (u_id user)
                       or site_server_error ;;
            authorResult <-- select_author_data (u_id user) or site_server_error ;;
            match authorResult with
            | [] => Done site_server_error
            | author :: _ =>
                Done (mk_site_response 201
                        (comment_json "Комментарий успешно добавлен" (hd_error result)
                                      (u_username author)))
            end
        end
    end).

(** [router.put('/:id')]. *)
Definition put_comment (req : site_request field) : site_prog site_response :=
  guarded "comment" (fun user =>
    match validate_body commentSchemas_update req with
    | inl answered => Done answered
    | inr content =>
        result <-- update_comment content (sr_params_id req) or site_server_error ;;
        authorResult <-- select_author_data (u_id user) or site_server_error ;;
        match authorResult with
        | [] => Done site_server_error
        | author :: _ =>
            Done (mk_site_response 200
                    (comment_json "Комментарий успешно обновлен" (hd_error result)
                                  (u_username author)))
        end
    end) req.

(** [router.delete('/:id')]. *)
Definition delete_comment_route {B : Set} (req : site_request B) : site_prog site_response :=
  guarded "comment" (fun _ =>
    result <-- delete_comment (sr_params_id req) or site_server_error ;;
    match result with
    | [] => Done site_server_error
    | content :: _ =>
        Done (mk_site_response 200 (deleted_json "Комментарий успешно удален" content))
    end) req.

(** *** routes/reactions.js, the earlier revision

    The revision of the file in which a user may put several kinds on one
    subject: its POST looks for the row of the user with the kind asked
    for and inserts when there is none, its DELETE deletes the rows of the
    user with the kind of the body.  Middleware and GET routes are those
    of the later revision. *)

Definition earlier_route (handler : Z -> Z -> Z -> site_prog response) (req : request)
    : site_prog response :=
  site_next (lift (fun r => r) (authenticateToken req)) (fun user =>
    match validate reactionSchemas_create req with
    | inl answered => Done answered
    | inr reaction_id => handler (params_id req) reaction_id (u_id user)
    end).

(** [router.post('/article/:articleId', ...)] and
    [router.post('/comment/:commentId', ...)] *)
Definition earlier_post_reaction (t : subject_type) (subjectId reaction_id userId : Z)
    : site_prog response :=
  subjectExists <-- on_db (select_subject t subjectId) or server_error ;;
  if rows_length subjectExists =? 0 then
    Done (res_status 404 (msg (subject_not_found t)))
  else
  reactionExists <-- on_db (select_reaction reaction_id) or server_error ;;
  if rows_length reactionExists =? 0 then
    Done (res_status 404 (msg "Реакция не найдена"))
  else
  existingReaction <-- select_triple t subjectId userId reaction_id or server_error ;;
  if 0 <? rows_length existingReaction then
    Done (res_status 400 (msg "Вы уже поставили эту реакцию"))
  else
  result <-- on_db (insert_assignment t subjectId userId reaction_id) or server_error ;;
  match result, reactionExists with
  | id :: _, reaction :: _ =>
      Done (res_status 201
              (saved "Реакция успешно добавлена" id subjectId userId reaction_id
                     (r_emoji reaction) (r_name reaction)))
  | _, _ => Done server_error
  end.

(** [router.delete('/article/:articleId', ...)] and
    [router.delete('/comment/:commentId', ...)] *)
Definition earlier_delete_reaction (t : subject_type) (subjectId reaction_id userId : Z)
    : site_prog response :=
  subjectExists <-- on_db (select_subject t subjectId) or server_error ;;
  if rows_length subjectExists =? 0 then
    Done (res_status 404 (msg (subject_not_found t)))
  else
  result <-- delete_triple t subjectId userId reaction_id or server_error ;;
  if rows_length result =? 0 then
    Done (res_status 404 (msg "Реакция не найдена"))
  else
    Done (res_json (msg "Реакция успешно удалена")).

(** *** Vocabulary for the article and comment routes *)

(** The [author_id] that [checkAuthor] compares with [req.user.id]: that
    of the first row with the id. *)
Definition author_of (t : subject_type) (s : site) (id : Z) : option Z :=
  match t with
  | Article => hd_error (map a_author (filter (fun a => a_id a =? id) (article_rows s)))
  | Comment => hd_error (map c_author (filter (fun c => c_id c =? id) (comment_rows s)))
  end.

(** The request carries the token of the registered user [userId], who is
    the author of the resource it names. *)
Definition by_author {B : Set} (resourceType : string) (s : site) (req : site_request B)
    (userId : Z) : Prop :=
  sr_authorization req = token_of userId /\ is_user (db_of s) userId
  /\ exists t, resource_table resourceType = Some t
               /\ author_of t s (sr_params_id req) = Some userId.

(** The constraints schema.sql puts on [articles] and [comments]: ids are
    primary keys handed out by the sequence and the foreign keys point to
    rows. *)
Definition article_keys (s : site) : Prop :=
  NoDup (map a_id (article_rows s))
  /\ forall a, In a (article_rows s) -> a_id a < articles_id_seq s.

Definition comment_keys (s : site) : Prop :=
  NoDup (map c_id (comment_rows s))
  /\ forall c, In c (comment_rows s) -> c_id c < comments_id_seq s.

Definition site_foreign_keys (s : site) : Prop :=
  (forall a, In a (article_rows s) -> is_user (db_of s) (a_author a))
  /\ (forall c, In c (comment_rows s) ->
        is_subject Article (db_of s) (c_article c) /\ is_user (db_of s) (c_author c)).

Definition site_constraints (s : site) : Prop :=
  article_keys s /\ comment_keys s /\ site_foreign_keys s /\ schema_constraints (db_of s).

(** The lengths the schemas of middleware/validation.js let through. *)
Definition sized (min : nat) (max : option nat) (s : string) : Prop :=
  (min <= String.length s)%nat
  /\ match max with Some n => (String.length s <= n)%nat | None => True end.

Definition texts_sized (s : site) : Prop :=
  (forall a, In a (article_rows s) ->
     sized 3 (Some 255%nat) (a_title a) /\ sized 10 None (a_content a))
  /\ (forall c, In c (comment_rows s) -> sized 1 (Some 1000%nat) (c_content c)).

(** What a request can make of the site: nothing; an article or a comment
    added, with texts of the lengths of the schemas, for a registered user
    (and for an article that is there); the texts of the rows with an id
    changed to such texts; an article or a comment deleted with what hangs
    on it; or what a reaction request makes of the view of the site. *)
Inductive site_effect (s : site) : site -> Prop :=
| nothing_done : site_effect s s
| article_added title content author :
    is_user (db_of s) author ->
    sized 3 (Some 255%nat) title -> sized 10 None content ->
    site_effect s (set_articles
                     (article_rows s ++ [mk_article (articles_id_seq s) title content author])
                     (articles_id_seq s + 1) s)
| article_changed title content id :
    (forall x, title = Some x -> sized 3 (Some 255%nat) x) ->
    (forall x, content = Some x -> sized 10 None x) ->
    site_effect s (set_articles
                     (map (fun a => if a_id a =? id then change_article title content a else a)
                          (article_rows s))
                     (articles_id_seq s) s)
| article_removed id : site_effect s (without_article id s)
| comment_added content article author :
    is_subject Article (db_of s) article -> is_user (db_of s) author ->
    sized 1 (Some 1000%nat) content ->
    site_effect s (set_comments
                     (comment_rows s ++ [mk_comment (comments_id_seq s) content article author])
                     (comments_id_seq s + 1) s)
| comment_changed content id :
    sized 1 (Some 1000%nat) content ->
    site_effect s (set_comments
                     (map (fun c => if c_id c =? id then change_comment content c else c)
                          (comment_rows s))
                     (comments_id_seq s) s)
| comment_removed id : site_effect s (without_comment id s)
| reacted t subject user d :
    effect t subject user (db_of s) d -> site_effect s (absorb d s).

(** The requests to the site: the six routes that write articles and
    comments, and the reaction routes. *)
Inductive site_operation : Set :=
| createArticle (req : site_request article_body)
| updateArticle (req : site_request article_body)
| deleteArticle (req : site_request unit)
| createComment (req : site_request field)
| updateComment (req : site_request field)
| deleteComment (req : site_request unit)
| react (op : operation).

Definition site_handler_of (op : site_operation) : site_prog site_response :=
  match op with
  | createArticle req => post_article req
  | updateArticle req => put_article req
  | deleteArticle req => delete_article_route req
  | createComment req => post_comment req
  | updateComment req => put_comment req
  | deleteComment req => delete_comment_route req
  | react op => lift of_response (handler_of op)
  end.

Fixpoint site_serve (ops : list site_operation) (s : site) : list site_response * site :=
  match ops with
  | [] => ([], s)
  | op :: ops' =>
      let (answer, s') := site_run (site_handler_of op) s in
      let (answers, s'') := site_serve ops' s' in
      (answer :: answers, s'')
  end.

(** A small site: ann wrote article 10, bob article 11; bob and eve
    commented on article 10, ann on article 11; bob likes article 10, ann
    loves bob's comment and eve laughs at ann's. *)
Definition blog : site :=
  mk_site [mk_user 1 "ann"; mk_user 2 "bob"; mk_user 3 "eve"] seed
          [mk_article 10 "On lists" "Lists are built from nil and cons." 1;
           mk_article 11 "On maps" "Maps send keys to their values." 2] 12
          [mk_comment 20 "Well put." 10 2;
           mk_comment 21 "What about trees?" 10 3;
           mk_comment 22 "Thanks." 11 1] 23
          [mk_row 1 10 2 1] 2
          [mk_row 1 20 1 3; mk_row 2 22 3 4] 3.

(** A request of the user [userId] to the route at [id]. *)
Definition signed {B : Set} (userId id : Z) (b : B) : site_request B :=
  mk_site_request (token_of userId) id b.

(** Bob, who likes article 10, loves it as well: what the earlier revision
    of the reaction routes makes of his second POST. *)
Definition two_kinds : site :=
  snd (site_run (earlier_route (earlier_post_reaction Article) (as_user 2 10 3)) blog).

(** ** Lists and tables *)

Lemma rows_length_0 {X : Type} (rows : list X) :
  (rows_length rows =? 0) = match rows with [] => true | _ => false end.
Proof. destruct rows; reflexivity. Qed.

Lemma rows_length_pos {X : Type} (rows : list X) :
  (0 <? rows_length rows) = match rows with [] => false | _ => true end.
Proof. destruct rows; reflexivity. Qed.

Lemma filter_nil_iff {X : Type} (f : X -> bool) (l : list X) :
  filter f l = [] <-> forall x, In x l -> f x = false.
Proof.
  induction l as [|a l IH]; simpl.
  - split; [intros _ x [] | reflexivity].
  - destruct (f a) eqn:Fa.
    + split; [discriminate | intros H; specialize (H a (or_introl eq_refl)); congruence].
    + rewrite IH. split.
      * intros H x [<-|Hx]; auto.
      * intros H x Hx. apply H. now right.
Qed.

Lemma filter_keep_all {X : Type} (f : X -> bool) (l : list X) :
  (forall x, In x l -> f x = true) -> filter f l = l.
Proof.
  induction l as [|a l IH]; simpl; intros H; [reflexivity|].
  rewrite (H a (or_introl eq_refl)). f_equal. apply IH. intros x Hx. apply H. now right.
Qed.

Lemma filter_filter_negb {X : Type} (f : X -> bool) (l : list X) :
  filter f (filter (fun x => negb (f x)) l) = [].
Proof.
  apply filter_nil_iff. intros x Hx. apply filter_In in Hx as [_ Hx].
  now destruct (f x).
Qed.

Lemma existsb_filter {X : Type} (f : X -> bool) (l : list X) :
  existsb f l = match filter f l with [] => false | _ => true end.
Proof.
  induction l as [|a l IH]; simpl; [reflexivity|].
  destruct (f a); simpl; [reflexivity | exact IH].
Qed.

Lemma set_assignments_same t d : set_assignments t (assignments t d) d = d.
Proof. destruct t, d; reflexivity. Qed.

Lemma assignments_set t rows d : assignments t (set_assignments t rows d) = rows.
Proof. destruct t; reflexivity. Qed.

Lemma assignments_set_other t t' rows d :
  t <> t' -> assignments t (set_assignments t' rows d) = assignments t d.
Proof. destruct t, t'; intros H; try reflexivity; now contradiction H. Qed.

Lemma assignments_set_id_seq t t' n d : assignments t (set_id_seq t' n d) = assignments t d.
Proof. destruct t, t'; reflexivity. Qed.

Lemma subject_type_eq_dec (t t' : subject_type) : {t = t'} + {t <> t'}.
Proof. decide equality. Qed.

Lemma is_subject_filter t d s :
  is_subject t d s <-> filter (fun x => x =? s) (subjects t d) <> [].
Proof.
  unfold is_subject. split.
  - intros H E. rewrite filter_nil_iff in E. specialize (E s H). now rewrite Z.eqb_refl in E.
  - intros H. destruct (filter (fun x => x =? s) (subjects t d)) as [|x l] eqn:E; [easy|].
    assert (Hx : In x (filter (fun x => x =? s) (subjects t d))) by (rewrite E; now left).
    apply filter_In in Hx as [Hx Hs]. apply Z.eqb_eq in Hs. now subst.
Qed.

Lemma is_kind_filter d k :
  is_kind d k <-> filter (fun r => r_id r =? k) (reactions d) <> [].
Proof.
  unfold is_kind. split.
  - intros (r & Hr & <-) E. rewrite filter_nil_iff in E. specialize (E r Hr).
    now rewrite Z.eqb_refl in E.
  - intros H. destruct (filter (fun r => r_id r =? k) (reactions d)) as [|x l] eqn:E; [easy|].
    assert (Hx : In x (filter (fun r => r_id r =? k) (reactions d))) by (rewrite E; now left).
    apply filter_In in Hx as [Hx Hs]. apply Z.eqb_eq in Hs. now exists x.
Qed.

Lemma is_user_filter d u :
  is_user d u <-> filter (fun x => u_id x =? u) (users d) <> [].
Proof.
  unfold is_user. split.
  - intros (r & Hr & <-) E. rewrite filter_nil_iff in E. specialize (E r Hr).
    now rewrite Z.eqb_refl in E.
  - intros H. destruct (filter (fun x => u_id x =? u) (users d)) as [|x l] eqn:E; [easy|].
    assert (Hx : In x (filter (fun x => u_id x =? u) (users d))) by (rewrite E; now left).
    apply filter_In in Hx as [Hx Hs]. apply Z.eqb_eq in Hs. now exists x.
Qed.

Lemma single_assignmentb_spec d : single_assignmentb d = true <-> single_assignment d.
Proof.
  unfold single_assignmentb, single_assignment. simpl. rewrite !andb_true_r, andb_true_iff.
  rewrite !forallb_forall. split.
  - intros [HA HC] t s u.
    destruct (held t s u d) as [|row rest] eqn:E; [simpl; lia|].
    assert (Hrow : In row (held t s u d)) by (rewrite E; now left).
    unfold held in Hrow. apply filter_In in Hrow as [Hin Hp].
    unfold of_pair in Hp. apply andb_true_iff in Hp as [Hs Hu].
    apply Z.eqb_eq in Hs, Hu. rewrite <- E, <- Hs, <- Hu.
    destruct t; [apply HA in Hin | apply HC in Hin]; now apply Nat.leb_le in Hin.
  - intros H. split; intros row _; apply Nat.leb_le, H.
Qed.

(** ** Running a route *)

Lemma run_and_then {A R : Type} (p : prog (R + A)) (next : A -> prog R) d :
  run (and_then p next) d =
  match run p d with
  | (inl answered, d') => (answered, d')
  | (inr a, d') => run (next a) d'
  end.
Proof.
  revert d. induction p as [[answered|a]|q k IH]; intros d; simpl; try reflexivity.
  destruct (exec q d) as [x d']. apply IH.
Qed.

Lemma sent_and_then {A R : Type} (p : prog (R + A)) (next : A -> prog R) d :
  sent (and_then p next) d =
  sent p d ++ match run p d with
              | (inl _, _) => []
              | (inr a, d') => sent (next a) d'
              end.
Proof.
  revert d. induction p as [[answered|a]|q k IH]; intros d; simpl; try reflexivity.
  destruct (exec q d) as [x d']. simpl. f_equal. apply IH.
Qed.

Lemma stores_and_then {A R : Type} (p : prog (R + A)) (next : A -> prog R) d :
  stores (and_then p next) d =
  stores p d ++ match run p d with
                | (inl _, _) => []
                | (inr a, d') => stores (next a) d'
                end.
Proof.
  revert d. induction p as [[answered|a]|q k IH]; intros d; simpl; try reflexivity.
  destruct (exec q d) as [x d']. simpl. f_equal. apply IH.
Qed.

(** [authenticateToken] only reads. *)
Lemma authenticateToken_reads req d :
  snd (run (authenticateToken req) d) = d.
Proof.
  unfold authenticateToken, try_await. destruct (authorization req); simpl; try reflexivity.
  now destruct (filter _ (users d)).
Qed.

Lemma authenticateToken_user req d answer :
  fst (run (authenticateToken req) d) = inr answer ->
  authorization req = token_of (u_id answer) /\ is_user d (u_id answer).
Proof.
  unfold authenticateToken, try_await.
  destruct (authorization req) as [| | | |userId]; simpl; try discriminate.
  destruct (filter _ (users d)) as [|u l] eqn:E; simpl; [discriminate|].
  intros [= <-].
  assert (Hu : In u (filter (fun x => u_id x =? userId) (users d))) by (rewrite E; now left).
  apply filter_In in Hu as [Hin Hid]. apply Z.eqb_eq in Hid. subst userId.
  split; [reflexivity | now exists u].
Qed.

Lemma authenticateToken_accepts req d userId :
  authorization req = token_of userId -> is_user d userId ->
  exists user, u_id user = userId
    /\ run (authenticateToken req) d = (inr user, d)
    /\ sent (authenticateToken req) d = [select_user userId]
    /\ stores (authenticateToken req) d = [d].
Proof.
  intros Ha Hu. unfold authenticateToken, try_await. rewrite Ha. simpl.
  apply is_user_filter in Hu.
  destruct (filter _ (users d)) as [|u l] eqn:E; [easy|].
  assert (Hin : In u (filter (fun x => u_id x =? userId) (users d))) by (rewrite E; now left).
  apply filter_In in Hin as [_ Hid]. apply Z.eqb_eq in Hid.
  exists u. simpl. auto.
Qed.

(** An accepted request reaches the handler, after one lookup of the user. *)
Lemma route_accepted (h : Z -> Z -> Z -> prog response) req d userId reaction_id :
  accepted d req userId reaction_id ->
  run (route reactionSchemas_create h req) d = run (h (params_id req) reaction_id userId) d
  /\ sent (route reactionSchemas_create h req) d
     = select_user userId :: sent (h (params_id req) reaction_id userId) d
  /\ stores (route reactionSchemas_create h req) d
     = d :: stores (h (params_id req) reaction_id userId) d.
Proof.
  intros (Ha & Hu & Hb & Hpos).
  destruct (authenticateToken_accepts req d userId Ha Hu) as (user & Hid & Hrun & Hsent & Hstores).
  unfold route. rewrite run_and_then, sent_and_then, stores_and_then, Hrun, Hsent, Hstores.
  unfold validate, reactionSchemas_create. rewrite Hb, Hid.
  apply Z.ltb_lt in Hpos. rewrite Hpos. auto.
Qed.

(** Any other request is answered by the middleware, the store untouched. *)
Lemma route_cases (h : Z -> Z -> Z -> prog response) req d :
  (exists userId reaction_id, accepted d req userId reaction_id)
  \/ snd (run (route reactionSchemas_create h req) d) = d.
Proof.
  unfold route. rewrite run_and_then.
  pose proof (authenticateToken_reads req d) as Hd.
  pose proof (authenticateToken_user req d) as Hu.
  destruct (run (authenticateToken req) d) as [[answered|user] d']; simpl in Hd; subst d'.
  - now right.
  - destruct (Hu user eq_refl) as [Ha Hin].
    unfold validate, reactionSchemas_create.
    destruct (body_reaction_id req) as [| | |n] eqn:Hb; try (now right).
    destruct (0 <? n) eqn:Hn; [|now right].
    left. exists (u_id user), n. apply Z.ltb_lt in Hn. now repeat split.
Qed.

(** ** The statements on the reaction tables *)

Lemma same_triple_of_pair s u k row : same_triple s u k row = true -> of_pair s u row = true.
Proof. unfold same_triple, of_pair. now intros [H _]%andb_true_iff. Qed.

Lemma held_nil_no_triple t s u k d :
  held t s u d = [] -> existsb (same_triple s u k) (assignments t d) = false.
Proof.
  intros H. rewrite existsb_filter.
  destruct (filter (same_triple s u k) (assignments t d)) as [|row l] eqn:E; [reflexivity|].
  assert (Hin : In row (filter (same_triple s u k) (assignments t d))) by (rewrite E; now left).
  apply filter_In in Hin as [Hin Ht]. apply same_triple_of_pair in Ht.
  unfold held in H. rewrite filter_nil_iff in H. rewrite (H row Hin) in Ht. discriminate.
Qed.

Lemma held_without_pair t s u d : held t s u (without_pair t s u d) = [].
Proof. unfold held, without_pair. rewrite assignments_set. apply filter_filter_negb. Qed.

Lemma without_pair_nothing t s u d : held t s u d = [] -> without_pair t s u d = d.
Proof.
  intros H. unfold without_pair. rewrite filter_keep_all; [apply set_assignments_same|].
  intros row Hin. unfold held in H. rewrite filter_nil_iff in H. now rewrite (H row Hin).
Qed.

Lemma without_pair_keeps t s u d :
  users (without_pair t s u d) = users d
  /\ reactions (without_pair t s u d) = reactions d
  /\ subjects t (without_pair t s u d) = subjects t d
  /\ id_seq t (without_pair t s u d) = id_seq t d.
Proof. destruct t; repeat split. Qed.

Lemma exec_insert t s u k d :
  is_subject t d s -> is_user d u -> is_kind d k -> held t s u d = [] ->
  exec (insert_assignment t s u k) d = (inr [id_seq t d], with_new_row t s u k d).
Proof.
  intros Hs Hu Hk Hh. simpl. rewrite (held_nil_no_triple t s u k d Hh).
  rewrite !existsb_filter.
  apply is_subject_filter in Hs. apply is_user_filter in Hu. apply is_kind_filter in Hk.
  destruct (filter _ (subjects t d)); [easy|].
  destruct (filter _ (users d)); [easy|].
  destruct (filter _ (reactions d)); [easy|]. reflexivity.
Qed.

Lemma exec_insert_after_delete t s u k d :
  is_subject t d s -> is_user d u -> is_kind d k ->
  exec (insert_assignment t s u k) (without_pair t s u d)
  = (inr [id_seq t d], with_new_row t s u k (without_pair t s u d)).
Proof.
  intros Hs Hu Hk.
  destruct (without_pair_keeps t s u d) as (Eu & Er & Es & Ei).
  rewrite <- Ei. apply exec_insert.
  - unfold is_subject. now rewrite Es.
  - unfold is_user. now rewrite Eu.
  - unfold is_kind. now rewrite Er.
  - apply held_without_pair.
Qed.

Lemma held_with_new_row t s u k d :
  held t s u (with_new_row t s u k d) = held t s u d ++ [mk_row (id_seq t d) s u k].
Proof.
  unfold held, with_new_row. rewrite assignments_set, filter_app.
  simpl. unfold of_pair at 2. simpl. now rewrite !Z.eqb_refl.
Qed.

(** ** The handlers, case by case *)

Lemma post_reaction_no_subject t s k u d :
  ~ is_subject t d s ->
  run (post_reaction t s k u) d = (res_status 404 (msg (subject_not_found t)), d)
  /\ sent (post_reaction t s k u) d = [select_subject t s].
Proof.
  intros Hs. rewrite is_subject_filter in Hs.
  unfold post_reaction, try_await. simpl. rewrite rows_length_0.
  destruct (filter _ (subjects t d)); [now split | now contradiction Hs].
Qed.

Lemma post_reaction_no_kind t s k u d :
  is_subject t d s -> ~ is_kind d k ->
  run (post_reaction t s k u) d = (res_status 404 (msg "Реакция не найдена"), d)
  /\ sent (post_reaction t s k u) d = [select_subject t s; select_reaction k].
Proof.
  intros Hs Hk. rewrite is_subject_filter in Hs. rewrite is_kind_filter in Hk.
  unfold post_reaction, try_await. simpl. rewrite rows_length_0.
  destruct (filter _ (subjects t d)); [easy|]. simpl. rewrite rows_length_0.
  destruct (filter _ (reactions d)); [now split | now contradiction Hk].
Qed.

Lemma post_reaction_same_kind t s k u d row rest :
  is_subject t d s -> is_kind d k -> held t s u d = row :: rest -> ar_reaction row = k ->
  run (post_reaction t s k u) d = (res_status 400 (msg "Вы уже поставили эту реакцию"), d)
  /\ sent (post_reaction t s k u) d
     = [select_subject t s; select_reaction k; select_assignment t s u].
Proof.
  intros Hs Hk Hh Hr. rewrite is_subject_filter in Hs. rewrite is_kind_filter in Hk.
  unfold held in Hh.
  unfold post_reaction, try_await. simpl. rewrite rows_length_0.
  destruct (filter _ (subjects t d)); [easy|]. simpl. rewrite rows_length_0.
  destruct (filter _ (reactions d)); [easy|]. simpl.
  rewrite Hh. simpl map. rewrite rows_length_pos, Hr, Z.eqb_refl. now split.
Qed.

Lemma post_reaction_insert t s k u d :
  is_subject t d s -> is_kind d k -> is_user d u -> held t s u d = [] ->
  run (post_reaction t s k u) d
  = (res_status 201 (saved "Реакция успешно добавлена" (id_seq t d) s u k
                           (r_emoji (kind_row d k)) (r_name (kind_row d k))),
     with_new_row t s u k d)
  /\ sent (post_reaction t s k u) d
     = [select_subject t s; select_reaction k; select_assignment t s u;
        insert_assignment t s u k]
  /\ stores (post_reaction t s k u) d = [d; d; d; with_new_row t s u k d].
Proof.
  intros Hs Hk Hu Hh. pose proof (exec_insert t s u k d Hs Hu Hk Hh) as Hi.
  rewrite is_subject_filter in Hs. rewrite is_kind_filter in Hk.
  unfold held in Hh. unfold kind_row.
  unfold post_reaction, try_await. cbn [run sent stores].
  cbn [exec]. rewrite rows_length_0.
  destruct (filter _ (subjects t d)); [easy|]. cbn [run sent stores]. cbn [exec].
  rewrite rows_length_0.
  destruct (filter _ (reactions d)) as [|kind kinds]; [easy|]. cbn [run sent stores].
  cbn [exec]. rewrite Hh. cbn [map rows_length List.length Z.of_nat Z.ltb Z.compare andb].
  cbn [run sent stores]. rewrite Hi. simpl. auto.
Qed.

Lemma post_reaction_replace t s k u d row rest :
  is_subject t d s -> is_kind d k -> is_user d u ->
  held t s u d = row :: rest -> ar_reaction row <> k ->
  run (post_reaction t s k u) d
  = (res_status 201 (saved "Реакция успешно изменена" (id_seq t d) s u k
                           (r_emoji (kind_row d k)) (r_name (kind_row d k))),
     with_new_row t s u k (without_pair t s u d))
  /\ sent (post_reaction t s k u) d
     = [select_subject t s; select_reaction k; select_assignment t s u;
        delete_assignment t s u; insert_assignment t s u k]
  /\ stores (post_reaction t s k u) d
     = [d; d; d; without_pair t s u d; with_new_row t s u k (without_pair t s u d)].
Proof.
  intros Hs Hk Hu Hh Hr. pose proof (exec_insert_after_delete t s u k d Hs Hu Hk) as Hi.
  rewrite is_subject_filter in Hs. rewrite is_kind_filter in Hk.
  unfold held in Hh. unfold kind_row.
  unfold post_reaction, try_await. cbn [run sent stores].
  cbn [exec]. rewrite rows_length_0.
  destruct (filter _ (subjects t d)); [easy|]. cbn [run sent stores]. cbn [exec].
  rewrite rows_length_0.
  destruct (filter _ (reactions d)) as [|kind kinds]; [easy|]. cbn [run sent stores].
  cbn [exec]. rewrite Hh. cbn [map]. rewrite rows_length_pos.
  apply Z.eqb_neq in Hr. rewrite Hr. cbn [andb].
  cbn [run sent stores]. cbn [exec]. fold (without_pair t s u d).
  cbn [run sent stores]. rewrite Hi. simpl. auto.
Qed.

Lemma delete_reaction_no_subject t s k u d :
  ~ is_subject t d s ->
  run (delete_reaction t s k u) d = (res_status 404 (msg (subject_not_found t)), d).
Proof.
  intros Hs. rewrite is_subject_filter in Hs.
  unfold delete_reaction, try_await. simpl. rewrite rows_length_0.
  destruct (filter _ (subjects t d)); [reflexivity | now contradiction Hs].
Qed.

Lemma delete_reaction_subject t s k u d :
  is_subject t d s ->
  run (delete_reaction t s k u) d
  = (match held t s u d with
     | [] => res_status 404 (msg "Реакция не найдена")
     | _ => res_json (msg "Реакция успешно удалена")
     end, without_pair t s u d)
  /\ sent (delete_reaction t s k u) d = [select_subject t s; delete_assignment t s u].
Proof.
  intros Hs. rewrite is_subject_filter in Hs.
  unfold delete_reaction, try_await. simpl. rewrite rows_length_0.
  destruct (filter _ (subjects t d)); [easy|]. simpl. rewrite rows_length_0.
  fold (held t s u d). fold (without_pair t s u d).
  now destruct (held t s u d).
Qed.

Lemma is_subject_dec t d s : {is_subject t d s} + {~ is_subject t d s}.
Proof. apply in_dec, Z.eq_dec. Qed.

Lemma is_kind_dec d k : {is_kind d k} + {~ is_kind d k}.
Proof.
  destruct (filter (fun r => r_id r =? k) (reactions d)) as [|r l] eqn:E.
  - right. rewrite is_kind_filter, E. auto.
  - left. rewrite is_kind_filter, E. discriminate.
Qed.

(** ** The invariant *)

Lemma held_other_type t t' s u rows d :
  t <> t' -> held t s u (set_assignments t' rows d) = held t s u d.
Proof. intros H. unfold held. now rewrite assignments_set_other. Qed.

Lemma filter_length_le {X : Type} (f : X -> bool) (l : list X) :
  (List.length (filter f l) <= List.length l)%nat.
Proof. induction l as [|a l IH]; simpl; [lia|]. destruct (f a); simpl; lia. Qed.

Lemma filter_comm {X : Type} (f g : X -> bool) (l : list X) :
  filter f (filter g l) = filter g (filter f l).
Proof.
  induction l as [|a l IH]; simpl; [reflexivity|].
  destruct (f a) eqn:Fa, (g a) eqn:Ga; simpl; rewrite ?Fa, ?Ga, IH; reflexivity.
Qed.

Lemma single_assignment_without_pair t s u d :
  single_assignment d -> single_assignment (without_pair t s u d).
Proof.
  intros H t' s' u'. unfold without_pair.
  destruct (subject_type_eq_dec t' t) as [->|Ht].
  - unfold held. rewrite assignments_set, filter_comm.
    etransitivity; [apply filter_length_le | apply (H t s' u')].
  - rewrite held_other_type by assumption. apply H.
Qed.

Lemma single_assignment_with_new_row t s u k d :
  held t s u d = [] -> single_assignment d -> single_assignment (with_new_row t s u k d).
Proof.
  intros Hh H t' s' u'. unfold with_new_row.
  destruct (subject_type_eq_dec t' t) as [->|Ht].
  - unfold held. rewrite assignments_set, filter_app, length_app. simpl.
    destruct (of_pair s' u' _) eqn:E; simpl.
    + unfold of_pair in E. simpl in E. apply andb_true_iff in E as [E1 E2].
      apply Z.eqb_eq in E1, E2. subst s' u'. unfold held in Hh. rewrite Hh. simpl. lia.
    + specialize (H t s' u'). unfold held in H. lia.
  - rewrite held_other_type by assumption. unfold held.
    rewrite assignments_set_id_seq. apply H.
Qed.

Lemma post_reaction_preserves t s k u d :
  is_user d u -> single_assignment d ->
  single_assignment (snd (run (post_reaction t s k u) d)).
Proof.
  intros Hu H.
  destruct (is_subject_dec t d s) as [Hs|Hs].
  2:{ now rewrite (proj1 (post_reaction_no_subject t s k u d Hs)). }
  destruct (is_kind_dec d k) as [Hk|Hk].
  2:{ now rewrite (proj1 (post_reaction_no_kind t s k u d Hs Hk)). }
  destruct (held t s u d) as [|row rest] eqn:Hh.
  - rewrite (proj1 (post_reaction_insert t s k u d Hs Hk Hu Hh)). simpl.
    now apply single_assignment_with_new_row.
  - destruct (Z.eq_dec (ar_reaction row) k) as [Hr|Hr].
    + now rewrite (proj1 (post_reaction_same_kind t s k u d row rest Hs Hk Hh Hr)).
    + rewrite (proj1 (post_reaction_replace t s k u d row rest Hs Hk Hu Hh Hr)). simpl.
      apply single_assignment_with_new_row; [apply held_without_pair|].
      now apply single_assignment_without_pair.
Qed.

Lemma delete_reaction_preserves t s k u d :
  single_assignment d -> single_assignment (snd (run (delete_reaction t s k u) d)).
Proof.
  intros H. destruct (is_subject_dec t d s) as [Hs|Hs].
  - rewrite (proj1 (delete_reaction_subject t s k u d Hs)). simpl.
    now apply single_assignment_without_pair.
  - now rewrite (delete_reaction_no_subject t s k u d Hs).
Qed.

Lemma handler_of_route op :
  exists t h req,
    handler_of op = route reactionSchemas_create (h t) req
    /\ (h = post_reaction \/ h = delete_reaction).
Proof.
  destruct op as [[] req|[] req].
  - exists Article, post_reaction, req. auto.
  - exists Comment, post_reaction, req. auto.
  - exists Article, delete_reaction, req. auto.
  - exists Comment, delete_reaction, req. auto.
Qed.

Lemma handler_preserves op d :
  single_assignment d -> single_assignment (snd (run (handler_of op) d)).
Proof.
  intros H. destruct (handler_of_route op) as (t & h & req & -> & Hh).
  destruct (route_cases (h t) req d) as [(u & k & Hacc)|Hsame].
  - rewrite (proj1 (route_accepted (h t) req d u k Hacc)).
    destruct Hacc as (_ & Hu & _). destruct Hh as [-> | ->].
    + now apply post_reaction_preserves.
    + now apply delete_reaction_preserves.
  - now rewrite Hsame.
Qed.

(** C1.  Reaction operations (assignReaction and removeReaction, on
    articles and on comments) served one after the other keep the
    invariant: started from a store in which every (subject type, subject,
    user) has at most one reaction row, the store after any sequence of them
    is again such a store. *)
Theorem reaction_operations_keep_single_assignment (ops : list operation) (d : database) :
  single_assignment d -> single_assignment (snd (serve ops d)).
Proof.
  revert d. induction ops as [|op ops IH]; intros d H; simpl; [exact H|].
  pose proof (handler_preserves op d H) as H'.
  destruct (run (handler_of op) d) as [answer d']. simpl in H'.
  specialize (IH d' H'). destruct (serve ops d') as [answers d'']. exact IH.
Qed.

(** ** The decision of [assignReaction] *)

Lemma handler_of_assign t req :
  handler_of (assignReaction t req) = route reactionSchemas_create (post_reaction t) req.
Proof. now destruct t. Qed.

Lemma handler_of_remove t req :
  handler_of (removeReaction t req) = route reactionSchemas_create (delete_reaction t) req.
Proof. now destruct t. Qed.









(** ** Statements PostgreSQL refuses *)

Lemma is_integer_spec n : is_integer n = true <-> in_integer n.
Proof. unfold is_integer, in_integer. rewrite andb_true_iff, !Z.leb_le. reflexivity. Qed.

Lemma is_integer_not n : ~ in_integer n -> is_integer n = false.
Proof. rewrite <- is_integer_spec. now destruct (is_integer n). Qed.




Lemma authenticateToken_unrefused req d userId :
  authorization req = token_of userId -> in_integer userId ->
  unrefused (authenticateToken req) d.
Proof.
  intros Ha Hu. apply is_integer_spec in Hu.
  unfold authenticateToken, try_await. rewrite Ha. cbn [unrefused exec fst snd].
  split; [unfold refused; cbn [parameters forallb]; now rewrite Hu|].
  now destruct (filter _ (users d)).
Qed.


Lemma post_reaction_unrefused t s k u d :
  in_integer s -> in_integer k -> in_integer u ->
  (is_subject t d s -> is_kind d k -> in_integer (id_seq t d)) ->
  unrefused (post_reaction t s k u) d.
Proof.
  intros Hs Hk Hu Hq. apply is_integer_spec in Hs, Hk, Hu.
  rewrite is_subject_filter, is_kind_filter in Hq.
  unfold post_reaction, try_await. cbn [unrefused exec fst snd].
  split; [unfold refused; cbn [parameters forallb]; now rewrite Hs|].
  rewrite rows_length_0.
  destruct (filter _ (subjects t d)) as [|x xs]; [exact I|]. cbn [unrefused exec fst snd].
  split; [unfold refused; cbn [parameters forallb]; now rewrite Hk|].
  rewrite rows_length_0.
  destruct (filter _ (reactions d)) as [|r rs] eqn:Er; [exact I|].
  assert (Hq' : is_integer (id_seq t d) = true)
    by (apply is_integer_spec, Hq; discriminate).
  assert (Hins : forall rows, refused (insert_assignment t s u k) (set_assignments t rows d)
                              = None).
  { intros rows. unfold refused. cbn [parameters forallb]. rewrite Hs, Hu, Hk. cbn [andb negb].
    replace (id_seq t (set_assignments t rows d)) with (id_seq t d) by now destruct t.
    now rewrite Hq'. }
  cbn [unrefused exec fst snd].
  split; [unfold refused; cbn [parameters forallb]; now rewrite Hs, Hu|].
  destruct (_ && _); [exact I|].
  destruct (0 <? _); cbn [unrefused].
  - split; [unfold refused; cbn [parameters forallb]; now rewrite Hs, Hu|].
    destruct (exec (delete_assignment t s u) d) as [[e|rows] d'] eqn:E;
      cbn [fst snd unrefused]; [exact I|].
    simpl in E. injection E as _ <-. split; [apply Hins|].
    destruct (exec (insert_assignment t s u k) _) as [[e|[|id ids]] d''];
      cbn [fst snd]; exact I.
  - split; [rewrite <- (set_assignments_same t d); apply Hins|].
    destruct (exec (insert_assignment t s u k) d) as [[e|[|id ids]] d''];
      cbn [fst snd]; exact I.
Qed.

Lemma delete_reaction_unrefused t s k u d :
  in_integer s -> in_integer u -> unrefused (delete_reaction t s k u) d.
Proof.
  intros Hs Hu. apply is_integer_spec in Hs, Hu.
  unfold delete_reaction, try_await. cbn [unrefused exec fst snd].
  split; [unfold refused; cbn [parameters forallb]; now rewrite Hs|].
  destruct (rows_length _ =? 0); [exact I|]. cbn [unrefused exec fst snd].
  split; [unfold refused; cbn [parameters forallb]; now rewrite Hs, Hu|].
  now destruct (rows_length _ =? 0).
Qed.




(** A kind id outside INTEGER, on a subject that is there: the SELECT of the
    kind is refused. *)
Lemma kind_out_of_range t s k u d :
  is_subject t d s -> in_integer s -> ~ in_integer k ->
  pg_run (post_reaction t s k u) d = (server_error, d).
Proof.
  intros Hsub Hs Hk. apply is_integer_spec in Hs. apply is_integer_not in Hk.
  rewrite is_subject_filter in Hsub.
  unfold post_reaction, try_await. cbn [pg_run].
  unfold pg_exec at 1, refused. cbn [parameters forallb]. rewrite Hs. cbn [andb negb exec].
  rewrite rows_length_0. destruct (filter _ (subjects t d)); [easy|]. cbn [pg_run].
  unfold pg_exec, refused. cbn [parameters forallb]. now rewrite Hk.
Qed.

(** ** [removeReaction] *)




(** C9.  Two removal requests of one user for one subject that name
    different (accepted, positive) kinds in their bodies are answered alike
    and leave the same store; when the subject exists and the user holds
    rows on it, the answer is Removed and the user holds none afterwards,
    whatever kind those rows have. *)
Theorem remove_reaction_ignores_kind t req1 req2 userId kind1 kind2 d :
  accepted d req1 userId kind1 ->
  accepted d req2 userId kind2 ->
  params_id req1 = params_id req2 ->
  run (handler_of (removeReaction t req1)) d = run (handler_of (removeReaction t req2)) d
  /\ (is_subject t d (params_id req1) ->
      held t (params_id req1) userId d <> [] ->
      fst (run (handler_of (removeReaction t req1)) d)
      = res_json (msg "Реакция успешно удалена")
      /\ held t (params_id req1) userId (snd (run (handler_of (removeReaction t req1)) d))
         = []).
Proof.
  intros H1 H2 Hp. rewrite !handler_of_remove.
  rewrite (proj1 (route_accepted _ req1 d userId kind1 H1)).
  rewrite (proj1 (route_accepted _ req2 d userId kind2 H2)).
  rewrite <- Hp. split.
  - reflexivity.
  - intros Hs Hh.
    rewrite (proj1 (delete_reaction_subject t (params_id req1) kind1 userId d Hs)).
    cbn [fst snd]. split; [now destruct (held t _ userId d) | apply held_without_pair].
Qed.

(** ** Unknown subjects and kinds *)




(** ** The summary queries *)

Section GroupFacts.
Context {A X : Type} (eqb : A -> A -> bool) (key : X -> A) (g : A -> list X).
Hypothesis eqb_spec : forall a b, eqb a b = true <-> a = b.
Hypothesis g_key : forall a x, In x (g a) -> key x = a.
Hypothesis g_nonempty : forall a, g a <> [].

Lemma eqb_same a : eqb a a = true.
Proof. now apply eqb_spec. Qed.

Lemma filter_twice (f : A -> bool) (l : list A) : filter f (filter f l) = filter f l.
Proof.
  apply filter_keep_all. intros x Hx. now apply filter_In in Hx.
Qed.

Lemma distinct_skip a (m : list A) rest :
  (forall b, In b m -> b = a) ->
  filter (fun b => negb (eqb a b)) (distinct eqb (m ++ rest))
  = filter (fun b => negb (eqb a b)) (distinct eqb rest).
Proof.
  induction m as [|b m IH]; intros Hm; [reflexivity|].
  assert (b = a) as -> by (apply Hm; now left).
  simpl. rewrite eqb_same. simpl. rewrite filter_twice. apply IH.
  intros b Hb. apply Hm. now right.
Qed.

Lemma distinct_keys (l : list A) :
  NoDup l -> distinct eqb (map key (flat_map g l)) = l.
Proof.
  induction 1 as [|a l Hnot Hnd IH]; [reflexivity|].
  simpl. rewrite map_app.
  destruct (g a) as [|x xs] eqn:E; [now contradiction (g_nonempty a)|].
  assert (Hx : key x = a) by (apply g_key; rewrite E; now left).
  simpl. rewrite Hx. f_equal. rewrite distinct_skip.
  - rewrite IH. apply filter_keep_all. intros b Hb.
    destruct (eqb a b) eqn:Eab; [|reflexivity].
    apply eqb_spec in Eab. now subst.
  - intros b Hb. apply in_map_iff in Hb as (y & <- & Hy).
    apply g_key. rewrite E. now right.
Qed.

Lemma group_rows (l : list A) k :
  NoDup l -> In k l -> filter (fun x => eqb k (key x)) (flat_map g l) = g k.
Proof.
  induction 1 as [|a l Hnot Hnd IH]; intros Hk; [easy|].
  simpl. rewrite filter_app. destruct Hk as [->|Hk].
  - rewrite filter_keep_all.
    + assert (E : filter (fun x => eqb k (key x)) (flat_map g l) = []).
      { apply filter_nil_iff. intros x Hx. apply in_flat_map in Hx as (b & Hb & Hx).
        rewrite (g_key b x Hx). destruct (eqb k b) eqn:Ekb; [|reflexivity].
        apply eqb_spec in Ekb. now subst. }
      rewrite E. apply app_nil_r.
    + intros x Hx. rewrite (g_key k x Hx). apply eqb_same.
  - assert (E : filter (fun x => eqb k (key x)) (g a) = []).
    { apply filter_nil_iff. intros x Hx. rewrite (g_key a x Hx).
      destruct (eqb k a) eqn:Eka; [|reflexivity].
      apply eqb_spec in Eka. now subst. }
    rewrite E. now apply IH.
Qed.

Lemma group_by_flat_map (l : list A) :
  NoDup l -> group_by eqb key (flat_map g l) = map (fun a => (a, g a)) l.
Proof.
  intros Hnd. unfold group_by. rewrite (distinct_keys l Hnd).
  apply map_ext_in. intros k Hk. now rewrite group_rows.
Qed.
End GroupFacts.

Section OrderFacts.
Context {A : Type} (leb : A -> A -> bool).

Lemma insert_sorted_perm a (l : list A) : Permutation (insert_sorted leb a l) (a :: l).
Proof.
  induction l as [|b l IH]; simpl; [reflexivity|].
  destruct (leb a b); [reflexivity|].
  rewrite IH. apply perm_swap.
Qed.

Lemma order_by_perm (l : list A) : Permutation (order_by leb l) l.
Proof.
  induction l as [|a l IH]; simpl; [reflexivity|].
  rewrite insert_sorted_perm. now constructor.
Qed.
End OrderFacts.

Lemma kind_eqb_spec a b : kind_eqb a b = true <-> a = b.
Proof.
  unfold kind_eqb. rewrite !andb_true_iff, Z.eqb_eq, !String.eqb_eq.
  destruct a, b; simpl. split.
  - intros [[-> ->] ->]. reflexivity.
  - intros [= -> -> ->]. auto.
Qed.

Lemma NoDup_of_ids (l : list reaction_kind) : NoDup (map r_id l) -> NoDup l.
Proof.
  induction l as [|a l IH]; simpl; intros H; [constructor|].
  inversion H as [|? ? Hnot Hnd]; subst. constructor; [|now apply IH].
  intros Hin. apply Hnot. now apply in_map.
Qed.

Section Summary.
Variables (subject : Z) (rows : list reaction_row).

Lemma joined_rows_key r x : In x (joined_rows subject rows r) -> fst x = r.
Proof.
  unfold joined_rows. destruct (filter _ rows) as [|b m].
  - now intros [<-|[]].
  - intros Hx. apply in_map_iff in Hx as (y & <- & _). reflexivity.
Qed.

Lemma joined_rows_nonempty r : joined_rows subject rows r <> [].
Proof. unfold joined_rows. now destruct (filter _ rows). Qed.

Lemma count_some_all {X Y : Type} (x : X) (m : list Y) :
  count_some (map (fun b => (x, Some b)) m) = Z.of_nat (List.length m).
Proof.
  unfold count_some. f_equal. induction m as [|b m IH]; simpl; [reflexivity|].
  now rewrite IH.
Qed.

Lemma count_some_joined r :
  count_some (joined_rows subject rows r) = Z.of_nat (List.length (filter (on_kind subject (r_id r)) rows)).
Proof.
  unfold joined_rows, on_kind.
  destruct (filter _ rows) as [|b m] eqn:E; [reflexivity|].
  now rewrite count_some_all.
Qed.

Lemma max_case_all (r : reaction_kind) u (m : list reaction_row) :
  max_case_user u (map (fun b => (r, Some b)) m)
  = if existsb (fun ar => ar_user ar =? u) m then 1 else 0.
Proof.
  unfold max_case_user. induction m as [|b m IH]; simpl; [reflexivity|].
  rewrite IH. destruct (ar_user b =? u), (existsb _ m); reflexivity.
Qed.

Lemma existsb_filter_and {X : Type} (f g : X -> bool) (l : list X) :
  existsb g (filter f l) = existsb (fun x => f x && g x) l.
Proof.
  induction l as [|a l IH]; simpl; [reflexivity|].
  destruct (f a); simpl; now rewrite IH.
Qed.

Lemma max_case_joined r u :
  to_boolean (max_case_user u (joined_rows subject rows r))
  = existsb (fun ar => on_kind subject (r_id r) ar && (ar_user ar =? u)) rows.
Proof.
  rewrite <- existsb_filter_and. unfold joined_rows, on_kind.
  destruct (filter _ rows) as [|b m] eqn:E; [reflexivity|].
  rewrite max_case_all. now destruct (existsb _ (b :: m)).
Qed.
End Summary.

Lemma reactions_with_counts_rows t requester subject d :
  NoDup (map r_id (reactions d)) ->
  Permutation
    (reactions_with_counts t requester subject d)
    (map (fun r => mk_count_row r (count_some (joined_rows subject (assignments t d) r))
                     match requester with
                     | Some u => max_case_user u (joined_rows subject (assignments t d) r)
                     | None => 0
                     end) (reactions d)).
Proof.
  intros Hnd. unfold reactions_with_counts. rewrite order_by_perm.
  unfold left_join. fold (joined_rows subject (assignments t d)).
  rewrite (group_by_flat_map kind_eqb fst (joined_rows subject (assignments t d))).
  - rewrite map_map. reflexivity.
  - apply kind_eqb_spec.
  - apply joined_rows_key.
  - apply joined_rows_nonempty.
  - now apply NoDup_of_ids.
Qed.

Lemma subject_reactions_views t user subject d :
  NoDup (map r_id (reactions d)) ->
  exists views,
    run (subject_reactions t user subject) d = (Some views, d)
    /\ Permutation views (map (expected_view t user subject d) (reactions d)).
Proof.
  intros Hnd. unfold subject_reactions, try_await. simpl. eexists. split; [reflexivity|].
  rewrite (reactions_with_counts_rows t (option_map u_id user) subject d Hnd).
  rewrite map_map. apply Permutation_refl'. apply map_ext. intros r.
  unfold expected_view. simpl. f_equal.
  - apply count_some_joined.
  - destruct user as [u|]; simpl; [|reflexivity]. apply max_case_joined.
Qed.

Section SummaryWithUsers.
Variable people : list user_row.

Lemma user_rows_key p x : In x (user_rows people p) -> fst x = p.
Proof.
  unfold user_rows. destruct (filter _ people) as [|b m].
  - now intros [<-|[]].
  - intros Hx. apply in_map_iff in Hx as (y & <- & _). reflexivity.
Qed.

Lemma user_rows_nonempty p : user_rows people p <> [].
Proof. unfold user_rows. now destruct (filter _ people). Qed.

Hypothesis people_key : NoDup (map u_id people).

Lemma one_user (c : Z) :
  (List.length (filter (fun u => (c =? u_id u)%Z) people) <= 1)%nat.
Proof.
  induction people as [|a l IH]; simpl; [lia|].
  inversion people_key as [|? ? Hnot Hnd]; subst.
  destruct (c =? u_id a) eqn:E; [|now apply IH].
  apply Z.eqb_eq in E. subst c.
  assert (F : filter (fun u => u_id a =? u_id u) l = []).
  { apply filter_nil_iff. intros x Hx. destruct (u_id a =? u_id x) eqn:Ex; [|reflexivity].
    apply Z.eqb_eq in Ex. contradiction Hnot. rewrite Ex. now apply in_map. }
  rewrite F. simpl. lia.
Qed.

Lemma user_rows_single p : exists o, user_rows people p = [(p, o)].
Proof.
  unfold user_rows. destruct p as [r [ar|]]; simpl.
  - pose proof (one_user (ar_user ar)) as H.
    destruct (filter _ people) as [|u [|u' m]]; simpl in H; [now exists None| |lia].
    now exists (Some u).
  - exists None. assert (F : filter (fun _ : user_row => false) people = []).
    { now apply filter_nil_iff. }
    now rewrite F.
Qed.

Lemma map_fst_user_rows l : map fst (flat_map (user_rows people) l) = l.
Proof.
  induction l as [|p l IH]; simpl; [reflexivity|].
  destruct (user_rows_single p) as [o ->]. simpl. now rewrite IH.
Qed.
End SummaryWithUsers.

Lemma flat_map_flat_map {X Y W : Type} (f : Y -> list W) (g : X -> list Y) (l : list X) :
  flat_map f (flat_map g l) = flat_map (fun x => flat_map f (g x)) l.
Proof.
  induction l as [|a l IH]; simpl; [reflexivity|].
  now rewrite flat_map_app, IH.
Qed.

Lemma reactions_with_users_rows t subject d :
  NoDup (map r_id (reactions d)) -> NoDup (map u_id (users d)) ->
  Permutation
    (map (fun row => (ur_kind row, ur_count row)) (reactions_with_users t subject d))
    (map (fun r => (r, count_of t subject (r_id r) d)) (reactions d)).
Proof.
  intros Hnd Hus. unfold reactions_with_users. rewrite order_by_perm.
  unfold left_join.
  fold (joined_rows subject (assignments t d)). fold (user_rows (users d)).
  rewrite flat_map_flat_map.
  rewrite (group_by_flat_map kind_eqb (fun x => fst (fst x))
             (fun r => flat_map (user_rows (users d)) (joined_rows subject (assignments t d) r))).
  - rewrite !map_map. apply Permutation_refl'. apply map_ext. intros r. simpl.
    f_equal. rewrite (map_fst_user_rows (users d) Hus). apply count_some_joined.
  - apply kind_eqb_spec.
  - intros r x Hx. apply in_flat_map in Hx as (p & Hp & Hx).
    apply user_rows_key in Hx. rewrite Hx. now apply joined_rows_key in Hp.
  - intros r E. pose proof (joined_rows_nonempty subject (assignments t d) r) as Hj.
    destruct (joined_rows subject (assignments t d) r) as [|p l]; [easy|].
    simpl in E. apply app_eq_nil in E as [E _]. now apply user_rows_nonempty in E.
  - now apply NoDup_of_ids.
Qed.

Lemma optionalAuth_nobody req d :
  (forall userId, authorization req = token_of userId -> ~ is_user d userId) ->
  run (optionalAuth req) d = (None, d).
Proof.
  intros H. unfold optionalAuth, try_await.
  destruct (authorization req) as [| | | |userId]; try reflexivity.
  specialize (H userId eq_refl). rewrite is_user_filter in H. simpl.
  destruct (filter _ (users d)); [reflexivity | now contradiction H].
Qed.

(** C7.  With ids as primary key of [reactions]: the summary of a subject
    built by the article and comment routes lists every kind of the catalog
    once, with the number of rows of that kind on the subject and the flag
    telling whether the requester holds a row of that kind on the subject;
    without a requester ([optionalAuth] finds none when the request bears
    no token of a registered user) every flag is false.  With ids as
    primary key of [users] too, the summary of the reactions route lists
    every kind once with the same counts.  After three users put three
    different kinds on one article, both list those three kinds with count
    1 and the four others with count 0. *)
Theorem reaction_summary_counts t user subject d :
  NoDup (map r_id (reactions d)) ->
  (exists views,
      run (subject_reactions t user subject) d = (Some views, d)
      /\ Permutation views (map (expected_view t user subject d) (reactions d))
      /\ (user = None -> forall v, In v views -> cv_user_reacted v = false))
  /\ (forall req,
        (forall userId, authorization req = token_of userId -> ~ is_user d userId) ->
        fst (run (optionalAuth req) d) = None)
  /\ (NoDup (map u_id (users d)) -> is_subject t d subject ->
      exists views,
        run (get_reactions t subject) d = (res_json (listing views), d)
        /\ Permutation (map (fun v => (uv_kind v, uv_count v)) views)
                       (map (fun r => (r, count_of t subject (r_id r) d)) (reactions d)))
  /\ run (subject_reactions Article None 10) three_reactions
     = (Some (map (fun r => mk_count_view r (if r_id r <=? 3 then 1 else 0) false) seed),
        three_reactions)
  /\ fst (run (subject_reactions Article (Some (mk_user 2 "bob")) 10) three_reactions)
     = Some (map (fun r => mk_count_view r (if r_id r <=? 3 then 1 else 0) (r_id r =? 2)) seed)
  /\ fst (run (get_reactions Article 10) three_reactions)
     = res_json (listing [mk_users_view (mk_kind 1 "👍" "like") 1 ["ann"];
                          mk_users_view (mk_kind 2 "👎" "dislike") 1 ["bob"];
                          mk_users_view (mk_kind 3 "❤️" "love") 1 ["eve"];
                          mk_users_view (mk_kind 4 "😂" "laugh") 0 [];
                          mk_users_view (mk_kind 5 "😮" "wow") 0 [];
                          mk_users_view (mk_kind 6 "😢" "sad") 0 [];
                          mk_users_view (mk_kind 7 "😡" "angry") 0 []]).
Proof.
  intros Hnd. split; [|split; [|split; [|repeat split; vm_compute; reflexivity]]].
  - destruct (subject_reactions_views t user subject d Hnd) as (views & Hrun & Hperm).
    exists views. repeat split; auto.
    intros -> v Hv. apply (Permutation_in _ Hperm) in Hv.
    apply in_map_iff in Hv as (r & <- & _). reflexivity.
  - intros req H. now rewrite optionalAuth_nobody.
  - intros Hus Hs. rewrite is_subject_filter in Hs.
    unfold get_reactions, try_await. simpl. rewrite rows_length_0.
    destruct (filter _ (subjects t d)); [easy|]. simpl.
    eexists. split; [reflexivity|]. rewrite map_map. simpl.
    apply (reactions_with_users_rows t subject d Hnd Hus).
Qed.

(** ** Readers while a handler runs *)

Lemma exec_subjects t q d : subjects t (snd (exec q d)) = subjects t d.
Proof.
  destruct q as [id|t' id|id|t' s u|t' s u|t' s u k|t' o s|t' s]; try reflexivity.
  - simpl. now destruct t, t'.
  - simpl. destruct (existsb _ _); [now destruct t, t'|].
    destruct (_ && _); now destruct t, t'.
Qed.

Lemma answered_stays {R S : Type} turns (p1 : prog R) (r0 : S) d x r d' :
  interleave turns p1 (Ret r0) d = (x, Ret r, d') -> r = r0.
Proof.
  revert p1 d. induction turns as [|[|] turns IH]; intros p1 d; simpl.
  - now intros [= _ <- _].
  - destruct (step p1 d) as [p1' d1]. apply IH.
  - apply IH.
Qed.

Lemma stores_step {R : Type} (p : prog R) d :
  forall e, In e (snd (step p d) :: stores (fst (step p d)) (snd (step p d))) ->
            In e (d :: stores p d).
Proof.
  destruct p as [r|q k]; simpl; [auto|].
  destruct (exec q d) as [x d1]. simpl. intros e He. now right.
Qed.

(** A reader of a subject's reactions that is served while another handler
    runs answers what it would answer alone on one of the stores that
    handler went through. *)
Lemma reader_sees_a_store {R : Type} t s turns :
  forall (p1 : prog R) p2 d w r d',
    interleave turns p1 p2 d = (Ret w, Ret r, d') ->
    p2 = get_reactions t s
    \/ (exists d0, subjects t d0 = subjects t d /\ p2 = fst (step (get_reactions t s) d0)) ->
    exists e, In e (d :: stores p1 d) /\ r = fst (run (get_reactions t s) e).
Proof.
  induction turns as [|[|] turns IH]; intros p1 p2 d w r d' E Hp2.
  - simpl in E. injection E as -> -> <-. exists d. split; [now left|].
    destruct Hp2 as [H|(d0 & Hs & H)]; [discriminate H|].
    unfold get_reactions, try_await in H |- *. simpl in H |- *.
    rewrite Hs in H. rewrite rows_length_0 in H |- *.
    destruct (filter _ (subjects t d)); [now injection H as ->|discriminate H].
  - simpl in E. pose proof (stores_step p1 d) as Hin.
    assert (Hsub : subjects t (snd (step p1 d)) = subjects t d).
    { destruct p1 as [a|q k]; simpl; [reflexivity|].
      pose proof (exec_subjects t q d) as Hq. now destruct (exec q d). }
    destruct (step p1 d) as [p1' d1]. simpl in Hin, Hsub.
    destruct (IH p1' p2 d1 w r d' E) as (e & He & Hr).
    + destruct Hp2 as [H|(d0 & Hs & H)]; [now left|right].
      exists d0. split; [congruence|exact H].
    + exists e. split; [now apply Hin|exact Hr].
  - simpl in E. destruct Hp2 as [->|(d0 & Hs & ->)].
    + unfold get_reactions at 1 in E. unfold try_await in E. simpl in E.
      apply (IH p1 _ d w r d' E). right. now exists d.
    + exists d. split; [now left|].
      unfold get_reactions, try_await in E |- *. simpl in E |- *.
      rewrite Hs in E. rewrite rows_length_0 in E |- *.
      destruct (filter _ (subjects t d)); simpl in E; now apply answered_stays in E.
Qed.

(** X9.  The Insert case, one write, is an atomic unit for a reader: when
    the user of an accepted POST holds no reaction on the subject, a GET of
    the reactions of any subject, served at any point while the POST is in
    flight, answers what it answers on the store before the POST or on the
    store after it. *)
Lemma insert_is_atomic t req userId reaction_id d subject :
  accepted d req userId reaction_id ->
  is_subject t d (params_id req) ->
  is_kind d reaction_id ->
  held t (params_id req) userId d = [] ->
  atomic_for (handler_of (assignReaction t req)) (get_reactions t subject) d.
Proof.
  intros Hacc Hs Hk Hh turns w r d' E.
  destruct (reader_sees_a_store t subject turns _ _ d w r d' E (or_introl eq_refl))
    as (e & He & ->).
  revert He. rewrite handler_of_assign.
  destruct (route_accepted (post_reaction t) req d userId reaction_id Hacc) as (-> & _ & ->).
  pose proof Hacc as (_ & Hu & _).
  destruct (post_reaction_insert t (params_id req) reaction_id userId d Hs Hk Hu Hh)
    as (-> & _ & ->).
  simpl. intros [<-|[<-|[<-|[<-|[<-|[<-|[]]]]]]]; auto.
Qed.

(** ** Replacing a reaction: two statements *)




(** ** Two requests in flight *)

(** C8 fails on the code.  Two requests of one user for one article, for
    kinds 1 and 2, interleaved so that both look the user's rows up before
    either inserts: both are answered 201 and both rows are in the table
    afterwards, the UNIQUE constraint (on subject, user and kind) refusing
    neither. *)
Theorem concurrent_assign_keeps_both_rows :
  exists answer1 answer2 d',
    interleave race (post_article_reaction (as_user 1 10 1))
                    (post_article_reaction (as_user 1 10 2)) demo
    = (Ret answer1, Ret answer2, d')
    /\ status answer1 = 201 /\ status answer2 = 201
    /\ held Article 10 1 d' = [mk_row 1 10 1 1; mk_row 2 10 1 2]
    /\ single_assignment demo
    /\ ~ single_assignment d'.
Proof.
  do 3 eexists. split; [vm_compute; reflexivity|].
  repeat split.
  - apply single_assignmentb_spec. reflexivity.
  - intros H. apply single_assignmentb_spec in H. vm_compute in H. discriminate H.
Qed.

(** What the constraint does refuse: the same race for one and the same
    kind.  The second INSERT is rejected, its request answered 500, and one
    row stays. *)
Example concurrent_same_kind_rejected :
  interleave race (post_article_reaction (as_user 1 10 1))
                  (post_article_reaction (as_user 1 10 1)) demo
  = (Ret (res_status 201 (saved "Реакция успешно добавлена" 1 10 1 1 "👍" "like")),
     Ret server_error,
     set_id_seq Article 3 ann_likes).
Proof. vm_compute. reflexivity. Qed.

(** ** What a request can do to the store *)

Lemma post_reaction_cases t s k u d :
  is_user d u ->
  (~ is_subject t d s
   /\ run (post_reaction t s k u) d = (res_status 404 (msg (subject_not_found t)), d))
  \/ (is_subject t d s /\ ~ is_kind d k
      /\ run (post_reaction t s k u) d = (res_status 404 (msg "Реакция не найдена"), d))
  \/ (is_subject t d s /\ is_kind d k /\ (exists row rest, held t s u d = row :: rest)
      /\ run (post_reaction t s k u) d
         = (res_status 400 (msg "Вы уже поставили эту реакцию"), d))
  \/ (is_subject t d s /\ is_kind d k /\ held t s u d = []
      /\ run (post_reaction t s k u) d
         = (res_status 201 (saved "Реакция успешно добавлена" (id_seq t d) s u k
                                  (r_emoji (kind_row d k)) (r_name (kind_row d k))),
            with_new_row t s u k d))
  \/ (is_subject t d s /\ is_kind d k /\ (exists row rest, held t s u d = row :: rest)
      /\ run (post_reaction t s k u) d
         = (res_status 201 (saved "Реакция успешно изменена" (id_seq t d) s u k
                                  (r_emoji (kind_row d k)) (r_name (kind_row d k))),
            with_new_row t s u k (without_pair t s u d))).
Proof.
  intros Hu.
  destruct (is_subject_dec t d s) as [Hs|Hs].
  2:{ left. split; [exact Hs|]. apply post_reaction_no_subject, Hs. }
  destruct (is_kind_dec d k) as [Hk|Hk].
  2:{ right; left. repeat split; auto. now apply post_reaction_no_kind. }
  destruct (held t s u d) as [|row rest] eqn:Hh.
  - do 3 right; left. repeat split; auto. now apply post_reaction_insert.
  - destruct (Z.eq_dec (ar_reaction row) k) as [Hr|Hr].
    + do 2 right; left. repeat split; eauto.
      apply (post_reaction_same_kind t s k u d row rest Hs Hk Hh Hr).
    + do 4 right. repeat split; eauto.
      apply (post_reaction_replace t s k u d row rest Hs Hk Hu Hh Hr).
Qed.

Lemma delete_reaction_cases t s k u d :
  (~ is_subject t d s
   /\ run (delete_reaction t s k u) d = (res_status 404 (msg (subject_not_found t)), d))
  \/ (is_subject t d s /\ held t s u d = []
      /\ run (delete_reaction t s k u) d = (res_status 404 (msg "Реакция не найдена"), d))
  \/ (is_subject t d s /\ held t s u d <> []
      /\ run (delete_reaction t s k u) d
         = (res_json (msg "Реакция успешно удалена"), without_pair t s u d)).
Proof.
  destruct (is_subject_dec t d s) as [Hs|Hs].
  2:{ left. split; [exact Hs|]. apply delete_reaction_no_subject, Hs. }
  right. rewrite (proj1 (delete_reaction_subject t s k u d Hs)).
  destruct (held t s u d) as [|row rest] eqn:Hh.
  - left. repeat split; auto. now rewrite without_pair_nothing.
  - right. repeat split; auto. discriminate.
Qed.

Lemma handler_effect op d :
  snd (run (handler_of op) d) = d
  \/ exists u k, accepted d (op_request op) u k
                 /\ effect (op_type op) (params_id (op_request op)) u d
                           (snd (run (handler_of op) d)).
Proof.
  destruct op as [t req|t req]; simpl op_type; simpl op_request.
  - rewrite handler_of_assign.
    destruct (route_cases (post_reaction t) req d) as [(u & k & Hacc)|H]; [|now left].
    right. exists u, k. split; [exact Hacc|].
    rewrite (proj1 (route_accepted (post_reaction t) req d u k Hacc)).
    pose proof Hacc as (_ & Hu & _).
    destruct (post_reaction_cases t (params_id req) k u d Hu)
      as [(_ & ->)|[(_ & _ & ->)|[(_ & _ & _ & ->)|[(Hs & Hk & Hh & ->)|(Hs & Hk & _ & ->)]]]];
      simpl snd; unfold effect; auto.
    + right; right. exists k. repeat split; auto.
    + right; right. exists k. repeat split; auto.
  - rewrite handler_of_remove.
    destruct (route_cases (delete_reaction t) req d) as [(u & k & Hacc)|H]; [|now left].
    right. exists u, k. split; [exact Hacc|].
    rewrite (proj1 (route_accepted (delete_reaction t) req d u k Hacc)).
    destruct (delete_reaction_cases t (params_id req) k u d)
      as [(_ & ->)|[(_ & _ & ->)|(_ & _ & ->)]]; simpl snd; unfold effect; auto.
Qed.

(** X1.  A request that does not bear the token of a registered user
    together with a positive integer [reaction_id] is answered by the
    middleware, whatever the handler behind it: the store is unchanged, at
    most the lookup of the token's user was sent, the answer is a 401, a
    500 or a 400, and it is a 400 only for a request whose token was
    accepted ([authenticateToken] runs before [validate]). *)
Theorem refused_request_never_reaches_handler
    (h : Z -> Z -> Z -> prog response) req d :
  (forall userId reaction_id, ~ accepted d req userId reaction_id) ->
  let p := route reactionSchemas_create h req in
  snd (run p d) = d
  /\ (sent p d = []
      \/ exists userId, authorization req = token_of userId /\ sent p d = [select_user userId])
  /\ In (status (fst (run p d))) [401; 500; 400]
  /\ (status (fst (run p d)) = 400 ->
      exists userId, authorization req = token_of userId /\ is_user d userId).
Proof.
  intros Hno p. subst p. unfold route. rewrite run_and_then, sent_and_then.
  unfold authenticateToken, try_await.
  destruct (authorization req) as [| | | |userId] eqn:Ha; simpl;
    try solve [repeat split; auto; discriminate].
  destruct (filter _ (users d)) as [|user rest] eqn:Hf; simpl.
  - repeat split; eauto; discriminate.
  - assert (Hu : is_user d userId) by (apply is_user_filter; rewrite Hf; discriminate).
    unfold validate, reactionSchemas_create.
    destruct (body_reaction_id req) as [| | |n] eqn:Hb; simpl;
      try solve [repeat split; eauto].
    destruct (0 <? n) eqn:Hn; simpl; [|solve [repeat split; eauto]].
    apply Z.ltb_lt in Hn. contradiction (Hno userId n). now repeat split.
Qed.


(** ** One pair at a time *)

Lemma filter_filter_other {X : Type} (f g : X -> bool) (l : list X) :
  (forall x, f x = true -> g x = true) -> filter f (filter g l) = filter f l.
Proof.
  intros H. induction l as [|a l IH]; simpl; [reflexivity|].
  destruct (g a) eqn:Ga; simpl.
  - destruct (f a); now rewrite IH.
  - destruct (f a) eqn:Fa; [|exact IH]. apply H in Fa. congruence.
Qed.

Lemma of_pair_exclusive s u s' u' row :
  s' <> s \/ u' <> u -> of_pair s' u' row = true -> negb (of_pair s u row) = true.
Proof.
  unfold of_pair. intros Hne [H1 H2]%andb_true_iff. apply Z.eqb_eq in H1, H2.
  destruct (ar_subject row =? s) eqn:E1; [|reflexivity].
  destruct (ar_user row =? u) eqn:E2; [|reflexivity].
  apply Z.eqb_eq in E1, E2. lia.
Qed.

Lemma held_without_pair_other t s u t' s' u' d :
  t' <> t \/ s' <> s \/ u' <> u ->
  held t' s' u' (without_pair t s u d) = held t' s' u' d.
Proof.
  intros Hne. unfold without_pair.
  destruct (subject_type_eq_dec t' t) as [->|Ht]; [|now apply held_other_type].
  unfold held. rewrite assignments_set. apply filter_filter_other.
  intros row. apply of_pair_exclusive. destruct Hne as [H|H]; [now contradiction H|exact H].
Qed.

Lemma held_with_new_row_other t s u k t' s' u' d :
  t' <> t \/ s' <> s \/ u' <> u ->
  held t' s' u' (with_new_row t s u k d) = held t' s' u' d.
Proof.
  intros Hne. unfold with_new_row.
  destruct (subject_type_eq_dec t' t) as [->|Ht].
  - unfold held. rewrite assignments_set, filter_app. simpl.
    destruct (of_pair s' u' _) eqn:E; [|apply app_nil_r].
    unfold of_pair in E. simpl in E. apply andb_true_iff in E as [E1 E2].
    apply Z.eqb_eq in E1, E2. destruct Hne as [H|[H|H]]; now contradiction H.
  - rewrite held_other_type by assumption. unfold held. now rewrite assignments_set_id_seq.
Qed.

Lemma effect_other_tables t s u d d' :
  effect t s u d d' ->
  users d' = users d /\ articles d' = articles d /\ comments d' = comments d
  /\ reactions d' = reactions d.
Proof.
  intros [->|[->|(k & _ & _ & _ & [[_ ->]| ->])]]; destruct t; repeat split.
Qed.

Lemma effect_other_pairs t s u d d' t' s' u' :
  effect t s u d d' -> t' <> t \/ s' <> s \/ u' <> u ->
  held t' s' u' d' = held t' s' u' d.
Proof.
  intros [->|[->|(k & _ & _ & _ & [[_ ->]| ->])]] Hne.
  - reflexivity.
  - now apply held_without_pair_other.
  - now apply held_with_new_row_other.
  - rewrite held_with_new_row_other by assumption. now apply held_without_pair_other.
Qed.

(** X3.  A reaction request changes nothing but the rows of its own user on
    its own subject: the rows any other (subject type, subject, user) holds
    are the same before and after, and so are the tables of users,
    articles, comments and kinds. *)
Theorem request_touches_only_its_pair op d t' s' u' :
  ~ (t' = op_type op /\ s' = params_id (op_request op)
     /\ authorization (op_request op) = token_of u') ->
  let d' := snd (run (handler_of op) d) in
  held t' s' u' d' = held t' s' u' d
  /\ users d' = users d /\ articles d' = articles d /\ comments d' = comments d
  /\ reactions d' = reactions d.
Proof.
  intros Hne d'. subst d'.
  destruct (handler_effect op d) as [->|(u & k & Hacc & He)]; [now repeat split|].
  split; [|exact (effect_other_tables _ _ _ _ _ He)].
  apply (effect_other_pairs _ _ _ _ _ t' s' u' He).
  destruct (subject_type_eq_dec t' (op_type op)) as [Ht|Ht]; [|now left].
  destruct (Z.eq_dec s' (params_id (op_request op))) as [Hs|Hs]; [|now right; left].
  destruct (Z.eq_dec u' u) as [Hu|Hu]; [|now right; right].
  subst u'. contradiction Hne. repeat split; auto. apply Hacc.
Qed.

(** ** The constraints of the schema *)

Lemma assignments_without_pair t s u t' d :
  assignments t' (without_pair t s u d)
  = if subject_type_eq_dec t' t
    then filter (fun row => negb (of_pair s u row)) (assignments t d)
    else assignments t' d.
Proof. unfold without_pair. destruct (subject_type_eq_dec t' t) as [->|H];
         [apply assignments_set | now apply assignments_set_other]. Qed.

Lemma assignments_with_new_row t s u k t' d :
  assignments t' (with_new_row t s u k d)
  = if subject_type_eq_dec t' t
    then assignments t d ++ [mk_row (id_seq t d) s u k]
    else assignments t' d.
Proof.
  unfold with_new_row. destruct (subject_type_eq_dec t' t) as [->|H].
  - apply assignments_set.
  - rewrite assignments_set_other by assumption. apply assignments_set_id_seq.
Qed.

Lemma id_seq_without_pair t s u t' d : id_seq t' (without_pair t s u d) = id_seq t' d.
Proof. now destruct t, t'. Qed.

Lemma id_seq_with_new_row t s u k t' d :
  id_seq t' (with_new_row t s u k d)
  = if subject_type_eq_dec t' t then id_seq t d + 1 else id_seq t' d.
Proof. destruct t, t'; simpl; destruct (subject_type_eq_dec _ _); congruence. Qed.

Lemma other_tables_without_pair t s u t' d :
  subjects t' (without_pair t s u d) = subjects t' d
  /\ users (without_pair t s u d) = users d
  /\ reactions (without_pair t s u d) = reactions d.
Proof. destruct t, t'; repeat split. Qed.

Lemma other_tables_with_new_row t s u k t' d :
  subjects t' (with_new_row t s u k d) = subjects t' d
  /\ users (with_new_row t s u k d) = users d
  /\ reactions (with_new_row t s u k d) = reactions d.
Proof. destruct t, t'; repeat split. Qed.

Lemma NoDup_map_filter {X Y : Type} (f : X -> Y) (g : X -> bool) (l : list X) :
  NoDup (map f l) -> NoDup (map f (filter g l)).
Proof.
  induction l as [|a l IH]; simpl; intros H; [constructor|].
  inversion H as [|? ? Hnot Hnd]; subst.
  destruct (g a); simpl; [|now apply IH].
  constructor; [|now apply IH].
  intros Hin. apply Hnot. apply in_map_iff in Hin as (x & Hx & Hin).
  apply filter_In in Hin as [Hin _]. rewrite <- Hx. now apply in_map.
Qed.

Lemma schema_without_pair t s u d :
  schema_constraints d -> schema_constraints (without_pair t s u d).
Proof.
  intros (Hpk & Huq & Hfk). split; [|split].
  - intros t'. rewrite assignments_without_pair, id_seq_without_pair.
    destruct (Hpk t') as [Hnd Hlt].
    destruct (subject_type_eq_dec t' t) as [->|Ht]; [|now split]. split.
    + now apply NoDup_map_filter.
    + intros row Hin. apply filter_In in Hin as [Hin _]. now apply Hlt.
  - intros t' s' u' k'. rewrite assignments_without_pair.
    destruct (subject_type_eq_dec t' t) as [->|Ht]; [|apply Huq].
    rewrite filter_comm.
    etransitivity; [apply filter_length_le | apply Huq].
  - intros t' row. rewrite assignments_without_pair.
    destruct (other_tables_without_pair t s u t' d) as (Es & Eu & Er).
    unfold is_subject, is_user, is_kind. rewrite Es, Eu, Er.
    destruct (subject_type_eq_dec t' t) as [->|Ht]; [|apply Hfk].
    intros Hin. apply filter_In in Hin as [Hin _]. now apply Hfk.
Qed.

Lemma schema_with_new_row t s u k d :
  schema_constraints d ->
  is_subject t d s -> is_user d u -> is_kind d k -> held t s u d = [] ->
  schema_constraints (with_new_row t s u k d).
Proof.
  intros (Hpk & Huq & Hfk) Hs Hu Hk Hh. split; [|split].
  - intros t'. rewrite assignments_with_new_row, id_seq_with_new_row.
    destruct (Hpk t') as [Hnd Hlt].
    destruct (subject_type_eq_dec t' t) as [->|Ht]; [|now split]. split.
    + rewrite map_app. simpl. apply NoDup_app; [exact Hnd | repeat constructor; easy |].
      intros id Hin [<-|[]]. apply in_map_iff in Hin as (row & E & Hin).
      apply Hlt in Hin. lia.
    + intros row Hin. apply in_app_or in Hin as [Hin|[<-|[]]].
      * apply Hlt in Hin. lia.
      * simpl. lia.
  - intros t' s' u' k'. rewrite assignments_with_new_row.
    destruct (subject_type_eq_dec t' t) as [->|Ht]; [|apply Huq].
    rewrite filter_app, length_app. simpl.
    destruct (same_triple s' u' k' _) eqn:E; simpl.
    + unfold same_triple in E. simpl in E.
      apply andb_true_iff in E as [[E1 E2]%andb_true_iff E3].
      apply Z.eqb_eq in E1, E2, E3. subst s' u' k'.
      pose proof (held_nil_no_triple t s u k d Hh) as Hno. rewrite existsb_filter in Hno.
      destruct (filter (same_triple s u k) (assignments t d)); [simpl; lia|discriminate].
    + specialize (Huq t s' u' k'). lia.
  - intros t' row. rewrite assignments_with_new_row.
    destruct (other_tables_with_new_row t s u k t' d) as (Es & Eu & Er).
    unfold is_subject, is_user, is_kind. rewrite Es, Eu, Er.
    destruct (subject_type_eq_dec t' t) as [->|Ht]; [|apply Hfk].
    intros Hin. apply in_app_or in Hin as [Hin|[<-|[]]]; [now apply Hfk|].
    simpl. auto.
Qed.

Lemma schema_effect t s u d d' :
  schema_constraints d -> effect t s u d d' -> schema_constraints d'.
Proof.
  intros H [->|[->|(k & Hs & Hu & Hk & [[Hh ->]| ->])]].
  - exact H.
  - now apply schema_without_pair.
  - now apply schema_with_new_row.
  - destruct (other_tables_without_pair t s u t d) as (Es & Eu & Er).
    apply schema_with_new_row.
    + now apply schema_without_pair.
    + unfold is_subject. now rewrite Es.
    + unfold is_user. now rewrite Eu.
    + unfold is_kind. now rewrite Er.
    + apply held_without_pair.
Qed.

Lemma serve_keeps (P : database -> Prop) :
  (forall op d, P d -> P (snd (run (handler_of op) d))) ->
  forall ops d, P d -> P (snd (serve ops d)).
Proof.
  intros Hstep ops. induction ops as [|op ops IH]; intros d H; simpl; [exact H|].
  pose proof (Hstep op d H) as H'.
  destruct (run (handler_of op) d) as [answer d']. simpl in H'.
  specialize (IH d' H'). now destruct (serve ops d').
Qed.

(** X4.  Served one after the other, the reaction requests keep the
    constraints of schema.sql on both reaction tables: ids stay distinct
    and below the next value of the sequence, no (subject, user, kind)
    triple occurs twice, and every row still points to a subject, a user
    and a kind of the store. *)
Theorem requests_keep_schema_constraints (ops : list operation) (d : database) :
  schema_constraints d -> schema_constraints (snd (serve ops d)).
Proof.
  apply serve_keeps. clear. intros op d H.
  destruct (handler_effect op d) as [->|(u & k & _ & He)]; [exact H|].
  exact (schema_effect _ _ _ _ _ H He).
Qed.

(** ** Assigning and removing, one after the other *)

Lemma accepted_without_pair t s u d req userId reaction_id :
  accepted d req userId reaction_id -> accepted (without_pair t s u d) req userId reaction_id.
Proof.
  intros (Ha & Hu & Hb & Hp). repeat split; auto.
  unfold is_user. now rewrite (proj1 (without_pair_keeps t s u d)).
Qed.



(** X6.  Removing twice is removing once: after an accepted DELETE on an
    existing subject, the same request again is answered 404 "Реакция не
    найдена" and leaves the store as the first left it. *)
Theorem remove_twice_is_remove_once t req userId reaction_id d :
  accepted d req userId reaction_id ->
  is_subject t d (params_id req) ->
  let once := snd (run (handler_of (removeReaction t req)) d) in
  run (handler_of (removeReaction t req)) once
  = (res_status 404 (msg "Реакция не найдена"), once).
Proof.
  intros Hacc Hs once. subst once. rewrite handler_of_remove.
  rewrite (proj1 (route_accepted (delete_reaction t) req d userId reaction_id Hacc)).
  rewrite (proj1 (delete_reaction_subject t _ reaction_id userId d Hs)). simpl snd.
  set (d1 := without_pair t (params_id req) userId d).
  assert (Hacc1 : accepted d1 req userId reaction_id) by now apply accepted_without_pair.
  rewrite (proj1 (route_accepted (delete_reaction t) req d1 userId reaction_id Hacc1)).
  assert (Hs1 : is_subject t d1 (params_id req)).
  { unfold is_subject, d1. now rewrite (proj1 (proj2 (proj2 (without_pair_keeps _ _ _ _)))). }
  rewrite (proj1 (delete_reaction_subject t _ reaction_id userId d1 Hs1)).
  unfold d1. rewrite held_without_pair. f_equal.
  apply without_pair_nothing, held_without_pair.
Qed.

(** ** The two ways to read the token *)

(** X7.  [optionalAuth] never answers and never writes; it finds a user
    exactly when [authenticateToken] lets the request pass, and then the
    same user: a request [authenticateToken] would answer with 401 or 500
    goes on without a user. *)
Theorem optionalAuth_agrees_with_authenticateToken req d :
  snd (run (optionalAuth req) d) = d
  /\ (forall user,
        fst (run (optionalAuth req) d) = Some user
        <-> fst (run (authenticateToken req) d) = inr user)
  /\ (fst (run (optionalAuth req) d) = None
      <-> exists answer, fst (run (authenticateToken req) d) = inl answer).
Proof.
  unfold optionalAuth, authenticateToken, try_await.
  destruct (authorization req) as [| | | |userId]; simpl;
    try (split; [reflexivity|split; [intros user; split; discriminate|]];
         split; [eauto | reflexivity]).
  destruct (filter _ (users d)) as [|u l]; simpl.
  - split; [reflexivity|split; [intros user; split; discriminate|]].
    split; [eauto | reflexivity].
  - split; [reflexivity|split].
    + intros user. split; intros [= <-]; reflexivity.
    + split; [discriminate | intros [answer H]; discriminate H].
Qed.

(** ** Reading while a request is in flight *)

Lemma exec_read q d : is_write q = false -> snd (exec q d) = d.
Proof. destruct q; simpl; intros H; try reflexivity; discriminate H. Qed.

Lemma run_step {R : Type} (p : prog R) d :
  run p d = run (fst (step p d)) (snd (step p d)).
Proof. destruct p as [r|q k]; simpl; [reflexivity|]. now destruct (exec q d). Qed.

Lemma reads_only_step {R : Type} (p : prog R) d :
  reads_only p -> reads_only (fst (step p d)) /\ snd (step p d) = d.
Proof.
  intros H. destruct H as [r|q k Hq Hk]; simpl.
  - split; [constructor|reflexivity].
  - pose proof (exec_read q d Hq) as E. destruct (exec q d) as [x d1]. simpl in *.
    split; [apply Hk | exact E].
Qed.

Lemma reader_leaves_writer_alone {R S : Type} turns :
  forall (p1 : prog R) (p2 : prog S) d w p2' d',
    reads_only p2 ->
    interleave turns p1 p2 d = (Ret w, p2', d') ->
    run p1 d = (w, d').
Proof.
  induction turns as [|[|] turns IH]; intros p1 p2 d w p2' d' Hro E; simpl in E.
  - now injection E as -> _ ->.
  - rewrite run_step. destruct (step p1 d) as [p1' d1]. simpl. now apply (IH _ p2 _ _ p2').
  - destruct (reads_only_step p2 d Hro) as [Hro' Hd].
    destruct (step p2 d) as [p2n d2]. simpl in Hro', Hd. subst d2.
    now apply (IH _ p2n _ _ p2').
Qed.

Lemma get_reactions_reads_only t s : reads_only (get_reactions t s).
Proof.
  unfold get_reactions, try_await. constructor; [reflexivity|].
  intros [e|rows]; [constructor|].
  destruct (rows_length rows =? 0); [constructor|].
  constructor; [reflexivity|]. intros [e|rows2]; constructor.
Qed.

(** X8.  A GET of a subject's reactions served while another handler is
    in flight, at whatever points of it, leaves that handler's answer and
    the final store as they are when the handler runs alone, and answers
    what it would answer alone on one of the stores the handler passes
    through. *)
Theorem get_does_not_disturb_a_writer {R : Type} (writer : prog R) t s turns w r d d' :
  interleave turns writer (get_reactions t s) d = (Ret w, Ret r, d') ->
  run writer d = (w, d')
  /\ exists e, In e (d :: stores writer d) /\ r = fst (run (get_reactions t s) e).
Proof.
  intros E. split.
  - exact (reader_leaves_writer_alone turns writer _ d w _ d' (get_reactions_reads_only t s) E).
  - exact (reader_sees_a_store t s turns writer _ d w r d' E (or_introl eq_refl)).
Qed.

(** ** The summary and the rows *)

Lemma sum_app (l l' : list Z) :
  fold_right Z.add 0 (l ++ l') = fold_right Z.add 0 l + fold_right Z.add 0 l'.
Proof. induction l as [|a l IH]; simpl; [reflexivity|]. rewrite IH. lia. Qed.

Lemma sum_perm (l l' : list Z) :
  Permutation l l' -> fold_right Z.add 0 l = fold_right Z.add 0 l'.
Proof. induction 1; simpl; lia. Qed.

Lemma sum_indicator (cat : list reaction_kind) x :
  NoDup (map r_id cat) ->
  fold_right Z.add 0 (map (fun r => if r_id r =? x then 1 else 0) cat)
  = if existsb (fun r => r_id r =? x) cat then 1 else 0.
Proof.
  induction cat as [|a cat IH]; simpl; intros H; [reflexivity|].
  inversion H as [|? ? Hnot Hnd]; subst. rewrite (IH Hnd).
  destruct (r_id a =? x) eqn:E; simpl; [|reflexivity].
  apply Z.eqb_eq in E. subst x.
  assert (F : existsb (fun r => r_id r =? r_id a) cat = false).
  { rewrite existsb_filter.
    destruct (filter _ cat) as [|b l] eqn:Ef; [reflexivity|].
    assert (Hb : In b (filter (fun r => r_id r =? r_id a) cat)) by (rewrite Ef; now left).
    apply filter_In in Hb as [Hb Hid]. apply Z.eqb_eq in Hid.
    contradiction Hnot. rewrite <- Hid. now apply in_map. }
  now rewrite F.
Qed.

Lemma counts_partition (cat : list reaction_kind) s (rows : list reaction_row) :
  NoDup (map r_id cat) ->
  (forall row, In row rows -> existsb (fun r => r_id r =? ar_reaction row) cat = true) ->
  fold_right Z.add 0
    (map (fun r => Z.of_nat (List.length (filter (on_kind s (r_id r)) rows))) cat)
  = Z.of_nat (List.length (filter (fun ar => ar_subject ar =? s) rows)).
Proof.
  intros Hnd. induction rows as [|row rows IH]; intros Hfk.
  - simpl. induction cat as [|a cat IHc]; simpl; [reflexivity|].
    inversion Hnd; subst. now rewrite IHc.
  - assert (E : forall r,
               Z.of_nat (List.length (filter (on_kind s (r_id r)) (row :: rows)))
               = (if r_id r =? ar_reaction row
                  then (if ar_subject row =? s then 1 else 0) else 0)
                 + Z.of_nat (List.length (filter (on_kind s (r_id r)) rows))).
    { intros r. cbn [filter].
      destruct (on_kind s (r_id r) row) eqn:E0; unfold on_kind in E0;
        destruct (r_id r =? ar_reaction row), (ar_subject row =? s);
        try discriminate E0; cbn [List.length]; lia. }
    rewrite (map_ext _ _ E).
    assert (S : forall (f g : reaction_kind -> Z) l,
               fold_right Z.add 0 (map (fun r => f r + g r) l)
               = fold_right Z.add 0 (map f l) + fold_right Z.add 0 (map g l)).
    { intros f g l. induction l as [|a l IHl]; simpl; [reflexivity|]. rewrite IHl. lia. }
    rewrite S, IH by (intros r Hr; apply Hfk; now right).
    simpl filter. destruct (ar_subject row =? s) eqn:Es.
    + cbv iota.
      rewrite (sum_indicator cat (ar_reaction row) Hnd), (Hfk row (or_introl eq_refl)).
      cbn [List.length]. lia.
    + cbv iota.
      assert (Z0 : forall l : list reaction_kind,
                 fold_right Z.add 0
                   (map (fun r => if r_id r =? ar_reaction row then 0 else 0) l) = 0).
      { intros l. induction l as [|a l IHl]; simpl; [reflexivity|].
        rewrite IHl. now destruct (r_id a =? ar_reaction row). }
      rewrite Z0. lia.
Qed.

(** X10.  The counts of the summary add up: with id as primary key of
    [reactions] and every row of the table pointing to a kind of the
    catalog, the counts the article and comment routes list for a subject
    sum to the number of reaction rows on that subject. *)
Theorem summary_counts_add_up t user subject d views :
  NoDup (map r_id (reactions d)) ->
  (forall row, In row (assignments t d) -> is_kind d (ar_reaction row)) ->
  fst (run (subject_reactions t user subject) d) = Some views ->
  fold_right Z.add 0 (map cv_count views)
  = Z.of_nat (List.length (filter (fun ar => ar_subject ar =? subject) (assignments t d))).
Proof.
  intros Hnd Hfk Hrun.
  destruct (subject_reactions_views t user subject d Hnd) as (views' & Hrun' & Hperm).
  rewrite Hrun' in Hrun. simpl in Hrun. injection Hrun as ->.
  rewrite (sum_perm _ _ (Permutation_map cv_count Hperm)), map_map. simpl.
  apply counts_partition; [exact Hnd|].
  intros row Hin. apply Hfk in Hin. rewrite existsb_filter.
  rewrite is_kind_filter in Hin. now destruct (filter _ (reactions d)).
Qed.

Lemma held_after_201 t req userId reaction_id d :
  accepted d req userId reaction_id ->
  status (fst (run (handler_of (assignReaction t req)) d)) = 201 ->
  held t (params_id req) userId (snd (run (handler_of (assignReaction t req)) d))
  = [mk_row (id_seq t d) (params_id req) userId reaction_id]
  /\ reactions (snd (run (handler_of (assignReaction t req)) d)) = reactions d
  /\ is_kind d reaction_id.
Proof.
  intros Hacc. rewrite handler_of_assign.
  rewrite (proj1 (route_accepted (post_reaction t) req d userId reaction_id Hacc)).
  pose proof Hacc as (_ & Hu & _).
  destruct (post_reaction_cases t (params_id req) reaction_id userId d Hu)
    as [(_ & ->)|[(_ & _ & ->)|[(_ & _ & _ & ->)|[(_ & Hk & Hh & ->)|(_ & Hk & _ & ->)]]]];
    simpl; try discriminate; intros _.
  - rewrite held_with_new_row, Hh. split; [reflexivity|]. split; [now destruct t|exact Hk].
  - rewrite held_with_new_row, held_without_pair.
    rewrite (proj2 (proj2 (proj2 (without_pair_keeps t _ userId d)))).
    split; [reflexivity|]. split; [now destruct t|exact Hk].
Qed.

Lemma holds_kind_held t s u kind d :
  holds_kind t s u kind d = existsb (fun ar => kind =? ar_reaction ar) (held t s u d).
Proof.
  unfold holds_kind, held. rewrite existsb_filter_and.
  induction (assignments t d) as [|a l IH]; simpl; [reflexivity|]. rewrite IH. f_equal.
  unfold on_kind, of_pair.
  destruct (kind =? ar_reaction a), (ar_subject a =? s), (ar_user a =? u); reflexivity.
Qed.

(** X11.  What the summary shows after an assignment: once the POST of a
    user is answered 201 for kind K (from any store, the catalog having
    distinct ids), the summary of the subject built for that user has one
    entry for each kind of the catalog; the entry of kind K is there, is
    flagged and counts at least one reaction; and no entry of another kind
    is flagged. *)
Theorem summary_after_assign_flags_the_kind t req user reaction_id d views :
  accepted d req (u_id user) reaction_id ->
  NoDup (map r_id (reactions d)) ->
  status (fst (run (handler_of (assignReaction t req)) d)) = 201 ->
  fst (run (subject_reactions t (Some user) (params_id req))
           (snd (run (handler_of (assignReaction t req)) d))) = Some views ->
  Permutation (map cv_kind views) (reactions d)
  /\ (exists v, In v views /\ r_id (cv_kind v) = reaction_id
                /\ cv_user_reacted v = true /\ 1 <= cv_count v)
  /\ forall v, In v views ->
       cv_user_reacted v = (r_id (cv_kind v) =? reaction_id)
       /\ (r_id (cv_kind v) = reaction_id -> 1 <= cv_count v).
Proof.
  intros Hacc Hnd H201 Hrun.
  destruct (held_after_201 t req (u_id user) reaction_id d Hacc H201) as (Hheld & Hcat & Hkind).
  set (d' := snd (run (handler_of (assignReaction t req)) d)) in *.
  rewrite <- Hcat in Hnd.
  destruct (subject_reactions_views t (Some user) (params_id req) d' Hnd)
    as (views' & Hrun' & Hperm).
  rewrite Hrun' in Hrun. simpl in Hrun. injection Hrun as ->.
  assert (Hall : forall v, In v views ->
            cv_user_reacted v = (r_id (cv_kind v) =? reaction_id)
            /\ (r_id (cv_kind v) = reaction_id -> 1 <= cv_count v)).
  { intros v Hv.
    apply (Permutation_in _ Hperm) in Hv. apply in_map_iff in Hv as (r & <- & _).
    unfold expected_view. simpl. split.
    - rewrite holds_kind_held, Hheld. simpl. now rewrite orb_false_r.
    - intros Hk. rewrite Hk. unfold count_of.
      assert (Hin : In (mk_row (id_seq t d) (params_id req) (u_id user) reaction_id)
                       (filter (on_kind (params_id req) reaction_id) (assignments t d'))).
      { apply filter_In. split.
        - assert (H : In (mk_row (id_seq t d) (params_id req) (u_id user) reaction_id)
                         (held t (params_id req) (u_id user) d')) by (rewrite Hheld; now left).
          unfold held in H. now apply filter_In in H.
        - unfold on_kind. simpl. now rewrite !Z.eqb_refl. }
      destruct (filter _ (assignments t d')); [destruct Hin|simpl; lia]. }
  assert (Hkinds : Permutation (map cv_kind views) (reactions d)).
  { rewrite <- Hcat. rewrite (Permutation_map cv_kind Hperm), map_map.
    rewrite (map_ext _ (fun r => r)) by reflexivity. now rewrite map_id. }
  split; [exact Hkinds|]. split; [|exact Hall].
  destruct Hkind as (r & Hr & Hid).
  apply (Permutation_in _ (Permutation_sym Hkinds)) in Hr.
  apply in_map_iff in Hr as (v & <- & Hv). exists v.
  destruct (Hall v Hv) as [Hflag Hcount].
  split; [exact Hv|]. split; [exact Hid|]. split; [|now apply Hcount].
  rewrite Hflag. now apply Z.eqb_eq.
Qed.

(** ** Who reacted *)

Lemma distinct_In (x : string) (l : list string) :
  In x (distinct String.eqb l) <-> In x l.
Proof.
  induction l as [|a l IH]; simpl; [tauto|].
  rewrite filter_In, IH. destruct (String.eqb a x) eqn:E.
  - apply String.eqb_eq in E. subst. simpl. intuition discriminate.
  - simpl. apply String.eqb_neq in E. intuition.
Qed.

Lemma NoDup_filter_list {X : Type} (f : X -> bool) (l : list X) :
  NoDup l -> NoDup (filter f l).
Proof.
  induction 1 as [|a l Hnot Hnd IH]; simpl; [constructor|].
  destruct (f a); [|exact IH]. constructor; [|exact IH].
  intros Hin. apply filter_In in Hin. tauto.
Qed.

Lemma distinct_NoDup (l : list string) : NoDup (distinct String.eqb l).
Proof.
  induction l as [|a l IH]; simpl; constructor.
  - intros Hin. apply filter_In in Hin as [_ H]. now rewrite String.eqb_refl in H.
  - now apply NoDup_filter_list.
Qed.

Lemma joined_rows_In subject rows r r' ar :
  In (r', Some ar) (joined_rows subject rows r)
  <-> r' = r /\ In ar rows /\ r_id r = ar_reaction ar /\ ar_subject ar = subject.
Proof.
  unfold joined_rows.
  destruct (filter _ rows) as [|b m] eqn:E.
  - split.
    + intros [H|[]]. discriminate H.
    + intros (_ & Hin & Hk & Hs).
      assert (H : In ar (filter (fun ar => (r_id r =? ar_reaction ar)
                                           && (ar_subject ar =? subject)) rows)).
      { apply filter_In. split; [exact Hin|]. rewrite Hk, Hs, !Z.eqb_refl. reflexivity. }
      rewrite E in H. destruct H.
  - rewrite <- E, in_map_iff. split.
    + intros (x & [= <- <-] & Hin). apply filter_In in Hin as [Hin H].
      apply andb_true_iff in H as [H1 H2]. apply Z.eqb_eq in H1, H2. auto.
    + intros (-> & Hin & Hk & Hs). exists ar. split; [reflexivity|].
      apply filter_In. split; [exact Hin|]. rewrite Hk, Hs, !Z.eqb_refl. reflexivity.
Qed.

Lemma user_rows_In people p p' u :
  In (p', Some u) (user_rows people p)
  <-> p' = p /\ In u people /\ exists ar, snd p = Some ar /\ ar_user ar = u_id u.
Proof.
  unfold user_rows.
  destruct (filter _ people) as [|b m] eqn:E.
  - split.
    + intros [H|[]]. discriminate H.
    + intros (_ & Hin & ar & Hp & Hu).
      assert (H : In u (filter (fun u => match snd p with
                                         | Some ar => ar_user ar =? u_id u
                                         | None => false
                                         end) people)).
      { apply filter_In. split; [exact Hin|]. rewrite Hp, Hu. apply Z.eqb_refl. }
      rewrite E in H. destruct H.
  - rewrite <- E, in_map_iff. split.
    + intros (x & [= <- <-] & Hin). apply filter_In in Hin as [Hin H].
      destruct (snd p) as [ar|]; [|discriminate H]. apply Z.eqb_eq in H. eauto.
    + intros (-> & Hin & ar & Hp & Hu). exists u. split; [reflexivity|].
      apply filter_In. split; [exact Hin|]. rewrite Hp, Hu. apply Z.eqb_refl.
Qed.

Lemma in_order_by {X : Type} (leb : X -> X -> bool) (l : list X) x :
  In x (order_by leb l) <-> In x l.
Proof.
  split; apply Permutation_in; [|apply Permutation_sym]; apply order_by_perm.
Qed.

Lemma users_or_empty_some (names : list string) :
  users_or_empty match names with [] => None | s :: l => Some (s :: l) end = names.
Proof. now destruct names. Qed.

Lemma reactions_with_users_full t subject d :
  NoDup (map r_id (reactions d)) ->
  Permutation
    (map (fun row => (ur_kind row, users_or_empty (ur_users row)))
         (reactions_with_users t subject d))
    (map (fun r =>
            (r, order_by String.leb
                  (distinct String.eqb
                     (flat_map (fun x : reaction_kind * option reaction_row * option user_row =>
                                  match snd x with Some u => [u_username u] | None => [] end)
                               (flat_map (user_rows (users d))
                                         (joined_rows subject (assignments t d) r))))))
         (reactions d)).
Proof.
  intros Hnd. unfold reactions_with_users. rewrite order_by_perm.
  unfold left_join.
  fold (joined_rows subject (assignments t d)). fold (user_rows (users d)).
  rewrite flat_map_flat_map.
  rewrite (group_by_flat_map kind_eqb (fun x => fst (fst x))
             (fun r => flat_map (user_rows (users d)) (joined_rows subject (assignments t d) r))).
  - rewrite !map_map. apply Permutation_refl'. apply map_ext. intros r. simpl.
    f_equal. apply users_or_empty_some.
  - apply kind_eqb_spec.
  - intros r x Hx. apply in_flat_map in Hx as (p & Hp & Hx).
    apply user_rows_key in Hx. rewrite Hx. now apply joined_rows_key in Hp.
  - intros r E. pose proof (joined_rows_nonempty subject (assignments t d) r) as Hj.
    destruct (joined_rows subject (assignments t d) r) as [|p l]; [easy|].
    simpl in E. apply app_eq_nil in E as [E _]. now apply user_rows_nonempty in E.
  - now apply NoDup_of_ids.
Qed.

(** X12.  Who reacted: for an existing subject (the catalog having
    distinct ids), the reactions route answers 200 with a list that has one
    entry for each kind of the catalog, in which the [users] array of each
    kind holds no name twice and holds exactly the usernames of the users
    who have a row of that kind on the subject; the store is unchanged. *)
Theorem get_reactions_lists_who_reacted t subject d :
  NoDup (map r_id (reactions d)) ->
  is_subject t d subject ->
  exists views,
    run (get_reactions t subject) d = (res_json (listing views), d)
    /\ Permutation (map uv_kind views) (reactions d)
    /\ forall v, In v views ->
         NoDup (uv_users v)
         /\ forall name,
              In name (uv_users v)
              <-> exists row user,
                    In row (assignments t d) /\ ar_subject row = subject
                    /\ ar_reaction row = r_id (uv_kind v)
                    /\ In user (users d) /\ u_id user = ar_user row
                    /\ u_username user = name.
Proof.
  intros Hnd Hs. rewrite is_subject_filter in Hs.
  unfold get_reactions, try_await. simpl. rewrite rows_length_0.
  destruct (filter _ (subjects t d)); [easy|]. simpl.
  eexists. split; [reflexivity|]. split.
  { rewrite map_map. cbn [uv_kind].
    pose proof (Permutation_map fst (reactions_with_users_full t subject d Hnd)) as Hp.
    rewrite !map_map in Hp. cbn [fst] in Hp. now rewrite map_id in Hp. }
  intros v Hv.
  apply in_map_iff in Hv as (row & <- & Hrow). simpl.
  assert (Hp : In (ur_kind row, users_or_empty (ur_users row))
                  (map (fun row => (ur_kind row, users_or_empty (ur_users row)))
                       (reactions_with_users t subject d))).
  { now apply (in_map (fun row => (ur_kind row, users_or_empty (ur_users row)))). }
  apply (Permutation_in _ (reactions_with_users_full t subject d Hnd)) in Hp.
  apply in_map_iff in Hp as (r & [= -> Hn] & _). rewrite <- Hn.
  split; [apply (Permutation_NoDup (Permutation_sym (order_by_perm _ _))), distinct_NoDup|].
  intros name.
  rewrite (in_order_by String.leb), distinct_In, in_flat_map. split.
  - intros (x & Hx & Hname). destruct x as [[r' oar] [u|]]; simpl in Hname; [|destruct Hname].
    destruct Hname as [<-|[]].
    apply in_flat_map in Hx as (p & Hp & Hx).
    apply user_rows_In in Hx as ([= <-] & Hu & ar & Hsnd & Hid).
    simpl in Hsnd. subst oar.
    apply joined_rows_In in Hp as (_ & Har & Hk & Hsub).
    exists ar, u. repeat split; auto.
  - intros (ar & u & Har & Hsub & Hk & Hu & Hid & <-).
    exists (ur_kind row, Some ar, Some u). split; [|now left].
    apply in_flat_map. exists (ur_kind row, Some ar). split.
    + apply joined_rows_In. auto.
    + apply user_rows_In. split; [reflexivity|]. split; [exact Hu|].
      exists ar. auto.
Qed.

(** ** Pages *)

Lemma valid_limit_bounds limit cap :
  1 <= cap -> 1 <= Z.min (Z.max limit 1) cap <= cap.
Proof. lia. Qed.

Lemma list_page_some {A : Type} fallback cap q (matching : list A) rows pg :
  1 <= cap ->
  list_page fallback cap q matching = Some (rows, pg) ->
  let page := parsed_or (query_page q) 1 in
  let limit := parsed_or (query_limit q) fallback in
  0 <= (page - 1) * limit
  /\ rows = firstn (Z.to_nat (pg_limit pg)) (skipn (Z.to_nat ((page - 1) * limit)) matching)
  /\ pg = mk_pagination page (Z.min (Z.max limit 1) cap) (Z.of_nat (List.length matching))
            (ceil_div (Z.of_nat (List.length matching)) (Z.min (Z.max limit 1) cap))
            (page <? ceil_div (Z.of_nat (List.length matching)) (Z.min (Z.max limit 1) cap))
            (1 <? page).
Proof.
  intros Hcap. unfold list_page, limit_offset. cbv zeta.
  destruct (Z.min _ cap <? 0) eqn:E1; [apply Z.ltb_lt in E1; lia|].
  destruct (_ <? 0) eqn:E2 in |- *; simpl; [discriminate|].
  intros [= <- <-]. simpl. apply Z.ltb_ge in E2. auto.
Qed.

Lemma firstn_nth {A : Type} (c : nat) (l : list A) x :
  In x (firstn c l) -> exists j, (j < c)%nat /\ nth_error l j = Some x.
Proof.
  revert l. induction c as [|c IH]; intros [|a l]; simpl; try easy.
  intros [<-|H].
  - exists 0%nat. split; [lia|reflexivity].
  - destruct (IH l H) as (j & Hj & E). exists (S j). split; [lia|exact E].
Qed.

Lemma slice_nth {A : Type} (c o : nat) (l : list A) x :
  In x (firstn c (skipn o l)) ->
  exists j, (o <= j < o + c)%nat /\ nth_error l j = Some x.
Proof.
  revert l. induction o as [|o IH]; intros l H.
  - destruct (firstn_nth c l x H) as (j & Hj & E). exists j. split; [lia|exact E].
  - destruct l as [|a l]; [now destruct c|].
    destruct (IH l H) as (j & Hj & E). exists (S j). split; [lia|exact E].
Qed.

(** X13.  Whatever [page] and [limit] the query string carries, a list
    that is answered holds at most [cap] rows (50 articles, 100 comments),
    the [limit] it reports lies between 1 and [cap], and its rows are rows
    the query selects. *)
Theorem list_page_is_bounded {A : Type} fallback cap q (matching : list A) rows pg :
  1 <= cap ->
  list_page fallback cap q matching = Some (rows, pg) ->
  1 <= pg_limit pg <= cap
  /\ Z.of_nat (List.length rows) <= pg_limit pg
  /\ incl rows matching
  /\ pg_total pg = Z.of_nat (List.length matching).
Proof.
  intros Hcap H. destruct (list_page_some fallback cap q matching rows pg Hcap H)
    as (_ & Hrows & Hpg).
  assert (Hl : 1 <= pg_limit pg <= cap) by (rewrite Hpg; simpl; lia).
  split; [exact Hl|]. split; [|split].
  - rewrite Hrows. pose proof (firstn_le_length (Z.to_nat (pg_limit pg))
                                 (skipn (Z.to_nat ((parsed_or (query_page q) 1 - 1)
                                                   * parsed_or (query_limit q) fallback))
                                        matching)). lia.
  - rewrite Hrows. intros x Hx. apply slice_nth in Hx as (j & _ & E).
    now apply nth_error_In in E.
  - now rewrite Hpg.
Qed.

Lemma firstn_plus {A : Type} (a b : nat) (l : list A) :
  firstn (a + b) l = firstn a l ++ firstn b (skipn a l).
Proof.
  revert l. induction a as [|a IH]; intros l; [reflexivity|].
  destruct l as [|x l]; simpl; [now rewrite firstn_nil|]. now rewrite IH.
Qed.

Lemma chunks_from {A : Type} (k n s : nat) (l : list A) :
  flat_map (fun p => firstn k (skipn ((p - 1) * k) l)) (seq (S s) n)
  = firstn (n * k) (skipn (s * k) l).
Proof.
  revert s. induction n as [|n IH]; intros s; [reflexivity|].
  cbn [seq flat_map]. rewrite IH. replace (S s - 1)%nat with s by lia.
  replace (S n * k)%nat with (k + n * k)%nat by lia.
  rewrite firstn_plus, skipn_skipn.
  replace (S s * k)%nat with (k + s * k)%nat by lia. reflexivity.
Qed.

Lemma flat_map_same {X Y : Type} (f g : X -> list Y) (l : list X) :
  (forall x, In x l -> f x = g x) -> flat_map f l = flat_map g l.
Proof.
  induction l as [|a l IH]; intros H; simpl; [reflexivity|].
  rewrite (H a (or_introl eq_refl)), IH; [reflexivity|]. intros x Hx. apply H. now right.
Qed.

Lemma ceil_div_spec a b p : 0 < b -> (p < ceil_div a b <-> p * b < a).
Proof.
  intros Hb. unfold ceil_div.
  pose proof (Z.div_mod (- a) b ltac:(lia)) as E.
  pose proof (Z.mod_pos_bound (- a) b Hb) as M. split; intros H; nia.
Qed.

Lemma page_rows_slice {A : Type} fallback cap limit (matching : list A) p :
  1 <= limit <= cap -> (1 <= p)%nat ->
  page_rows fallback cap limit matching p
  = firstn (Z.to_nat limit) (skipn ((p - 1) * Z.to_nat limit) matching).
Proof.
  intros Hl Hp. unfold page_rows, list_page, limit_offset. cbv zeta.
  assert (E1 : parsed_or (Some (Z.of_nat p)) 1 = Z.of_nat p).
  { destruct p as [|p]; [lia|reflexivity]. }
  assert (E2 : parsed_or (Some limit) fallback = limit).
  { destruct limit; try reflexivity; lia. }
  simpl query_page. simpl query_limit. rewrite E1, E2.
  replace (Z.min (Z.max limit 1) cap) with limit by lia.
  destruct (limit <? 0) eqn:F1; [apply Z.ltb_lt in F1; lia|].
  destruct ((Z.of_nat p - 1) * limit <? 0) eqn:F2; [apply Z.ltb_lt in F2; nia|].
  simpl. do 2 f_equal. rewrite Z2Nat.inj_mul by lia. f_equal. lia.
Qed.

(** X14.  When the [limit] asked for lies between 1 and [cap], the pages
    tile the list: pages 1 to [totalPages] put one after the other are the
    rows the query selects, each once and in order, and every later page is
    empty. *)
Theorem pages_tile_the_list {A : Type} fallback cap limit (matching : list A) :
  1 <= limit <= cap ->
  let totalPages := Z.to_nat (ceil_div (Z.of_nat (List.length matching)) limit) in
  flat_map (page_rows fallback cap limit matching) (seq 1 totalPages) = matching
  /\ forall p, (totalPages < p)%nat -> page_rows fallback cap limit matching p = [].
Proof.
  intros Hl totalPages.
  assert (Hcover : (List.length matching <= totalPages * Z.to_nat limit)%nat).
  { assert (H : ~ (Z.of_nat totalPages < ceil_div (Z.of_nat (List.length matching)) limit))
      by (unfold totalPages; lia).
    rewrite ceil_div_spec in H by lia. nia. }
  split.
  - rewrite (flat_map_same _ (fun p => firstn (Z.to_nat limit)
                                  (skipn ((p - 1) * Z.to_nat limit) matching))).
    + rewrite chunks_from. simpl skipn. now apply firstn_all2.
    + intros p Hp. apply in_seq in Hp. apply page_rows_slice; [exact Hl|lia].
  - intros p Hp. rewrite page_rows_slice by (try exact Hl; lia).
    rewrite skipn_all2; [now rewrite firstn_nil|]. nia.
Qed.

(** X15.  What [hasNext], [hasPrev] and [totalPages] tell: in a list that
    is answered, [hasNext] holds exactly when more than [page] times
    [limit] rows match (with the reported, clamped [limit]), [hasPrev]
    exactly when [page] is above 1, and [totalPages] is the least number of
    pages of [limit] rows that hold all matching rows. *)
Theorem hasNext_means_rows_beyond {A : Type} fallback cap q (matching : list A) rows pg :
  1 <= cap ->
  list_page fallback cap q matching = Some (rows, pg) ->
  (pg_hasNext pg = true <-> pg_page pg * pg_limit pg < pg_total pg)
  /\ (pg_hasPrev pg = true <-> 1 < pg_page pg)
  /\ pg_total pg <= pg_totalPages pg * pg_limit pg
  /\ (pg_totalPages pg - 1) * pg_limit pg < pg_total pg.
Proof.
  intros Hcap H. destruct (list_page_some fallback cap q matching rows pg Hcap H)
    as (_ & _ & ->). simpl.
  set (limit := Z.min (Z.max (parsed_or (query_limit q) fallback) 1) cap).
  set (total := Z.of_nat (List.length matching)).
  assert (Hl : 0 < limit) by (unfold limit; lia).
  pose proof (ceil_div_spec total limit (ceil_div total limit) Hl) as H1.
  pose proof (ceil_div_spec total limit (ceil_div total limit - 1) Hl) as H2.
  rewrite Z.ltb_lt, (ceil_div_spec total limit _ Hl), Z.ltb_lt.
  repeat split; try tauto; try lia.
Qed.

(** X16.  The offset is computed from the [limit] asked for, not from the
    clamped one: when the query asks for more than [cap] rows per page, the
    rows at positions [cap] to [limit - 1] of the (duplicate-free) list the
    query selects are on no page, whatever [page] is asked for. *)
Theorem rows_past_the_cap_are_on_no_page {A : Type} fallback cap q (matching : list A)
    limit i x rows pg :
  1 <= cap ->
  query_limit q = Some limit ->
  cap < limit ->
  NoDup matching ->
  nth_error matching i = Some x ->
  cap <= Z.of_nat i < limit ->
  list_page fallback cap q matching = Some (rows, pg) ->
  ~ In x rows.
Proof.
  intros Hcap Hq Hlim Hnd Hx Hi H Hin.
  destruct (list_page_some fallback cap q matching rows pg Hcap H) as (Hoff & Hrows & Hpg).
  rewrite Hq in Hoff, Hrows, Hpg.
  assert (E : parsed_or (Some limit) fallback = limit) by (destruct limit; try reflexivity; lia).
  rewrite E in Hoff, Hrows, Hpg.
  rewrite Hrows in Hin. apply slice_nth in Hin as (j & Hj & Ej).
  assert (Hij : i = j).
  { apply (proj1 (NoDup_nth_error matching) Hnd).
    - apply nth_error_Some. congruence.
    - congruence. }
  subst j. rewrite Hpg in Hj. simpl in Hj.
  replace (Z.min (Z.max limit 1) cap) with cap in Hj by lia.
  set (page := parsed_or (query_page q) 1) in *.
  assert (Hp : page = 1 \/ 2 <= page) by nia.
  destruct Hp as [Hp|Hp].
  - rewrite Hp in Hj. simpl in Hj. lia.
  - assert (limit <= (page - 1) * limit) by nia. lia.
Qed.

(** ** The site: running a route *)

Lemma site_run_next {A R : Type} (p : site_prog (R + A)) (next : A -> site_prog R) s :
  site_run (site_next p next) s =
  match site_run p s with
  | (inl answered, s') => (answered, s')
  | (inr a, s') => site_run (next a) s'
  end.
Proof.
  revert s. induction p as [[answered|a]|q k IH]; intros s; simpl; try reflexivity.
  destruct (site_exec q s) as [x s']. apply IH.
Qed.

(** The statements of the reaction routes leave the users, the articles,
    the comments and the catalog alone. *)
Lemma exec_frame q d :
  users (snd (exec q d)) = users d /\ articles (snd (exec q d)) = articles d
  /\ comments (snd (exec q d)) = comments d /\ reactions (snd (exec q d)) = reactions d.
Proof.
  destruct q as [id|t' id|id|t' s u|t' s u|t' s u k|t' o s|t' s]; simpl; auto.
  - destruct t'; simpl; auto.
  - destruct (existsb _ _); [destruct t'; simpl; auto|].
    destruct (_ && _); destruct t'; simpl; auto.
Qed.

Lemma run_frame {R : Type} (p : prog R) d :
  users (snd (run p d)) = users d /\ articles (snd (run p d)) = articles d
  /\ comments (snd (run p d)) = comments d /\ reactions (snd (run p d)) = reactions d.
Proof.
  revert d. induction p as [r|q k IH]; intros d; simpl; auto.
  destruct (exec_frame q d) as (Eu & Ea & Ec & Er).
  destruct (exec q d) as [x d']. simpl in *.
  destruct (IH x d') as (Eu' & Ea' & Ec' & Er'). repeat split; congruence.
Qed.

Lemma db_of_absorb d s :
  users d = site_users s -> articles d = map a_id (article_rows s) ->
  comments d = map c_id (comment_rows s) -> reactions d = site_kinds s ->
  db_of (absorb d s) = d.
Proof. destruct d; simpl. intros -> -> -> ->. reflexivity. Qed.

Lemma absorb_absorb d d' s : absorb d' (absorb d s) = absorb d' s.
Proof. reflexivity. Qed.

Lemma absorb_db_of s : absorb (db_of s) s = s.
Proof. now destruct s. Qed.

(** A handler of the reaction routes runs on the site as on its view. *)
Lemma site_run_lift {R S : Type} (f : R -> S) (p : prog R) s :
  site_run (lift f p) s = (f (fst (run p (db_of s))), absorb (snd (run p (db_of s))) s)
  /\ db_of (absorb (snd (run p (db_of s))) s) = snd (run p (db_of s)).
Proof.
  split.
  - revert s. induction p as [r|q k IH]; intros s; simpl.
    + now rewrite absorb_db_of.
    + destruct (exec_frame q (db_of s)) as (Eu & Ea & Ec & Er).
      destruct (exec q (db_of s)) as [x d'] eqn:E. simpl in *.
      rewrite IH, (db_of_absorb d' s) by assumption. reflexivity.
  - destruct (run_frame p (db_of s)) as (Eu & Ea & Ec & Er). now apply db_of_absorb.
Qed.

(** [authenticateToken] on the site: the user of the token, or an answer
    401 or 500. *)
Lemma site_authenticate_run {B : Set} (req : site_request B) s :
  (exists user l, site_run (site_authenticate req) s = (inr user, s)
                  /\ sr_authorization req = token_of (u_id user)
                  /\ filter (fun u => u_id u =? u_id user) (site_users s) = user :: l)
  \/ (exists answered, site_run (site_authenticate req) s = (inl answered, s)
                       /\ In (site_status answered) [401; 500]
                       /\ forall userId, sr_authorization req = token_of userId ->
                                         ~ is_user (db_of s) userId).
Proof.
  unfold site_authenticate.
  match goal with |- context [lift ?f ?p] => destruct (site_run_lift f p s) as [-> _] end.
  rewrite authenticateToken_reads, absorb_db_of.
  unfold authenticateToken, try_await. simpl authorization.
  destruct (sr_authorization req) as [| | | |userId] eqn:Ha; simpl;
    try (right; eexists; split; [reflexivity|]; split; [simpl; auto|]; discriminate).
  destruct (filter _ (site_users s)) as [|u l] eqn:E; simpl.
  - right. eexists. split; [reflexivity|]. split; [simpl; auto|].
    intros ? [= <-] Hu. apply is_user_filter in Hu. simpl in Hu. now rewrite E in Hu.
  - left. exists u, l. split; [reflexivity|].
    assert (Hin : In u (filter (fun x => u_id x =? userId) (site_users s)))
      by (rewrite E; now left).
    apply filter_In in Hin as [Hin Hid]. apply Z.eqb_eq in Hid. now subst userId.
Qed.

Lemma found_is_user s (user : user_row) l :
  filter (fun u => u_id u =? u_id user) (site_users s) = user :: l ->
  In user (site_users s) /\ is_user (db_of s) (u_id user)
  /\ existsb (fun u => u_id u =? u_id user) (site_users s) = true.
Proof.
  intros E.
  assert (Hin : In user (filter (fun u => u_id u =? u_id user) (site_users s)))
    by (rewrite E; now left).
  apply filter_In in Hin as [Hin _]. split; [exact Hin|]. split; [now exists user|].
  apply existsb_exists. exists user. split; [exact Hin|apply Z.eqb_refl].
Qed.

Lemma site_authenticate_accepts {B : Set} (req : site_request B) s userId :
  sr_authorization req = token_of userId -> is_user (db_of s) userId ->
  exists user l, site_run (site_authenticate req) s = (inr user, s)
                 /\ u_id user = userId
                 /\ filter (fun u => u_id u =? u_id user) (site_users s) = user :: l.
Proof.
  intros Ha Hu.
  destruct (site_authenticate_run req s) as [(user & l & Hr & Ha' & Hf)|(a & _ & _ & Hno)].
  - exists user, l. rewrite Ha in Ha'. injection Ha' as ->. auto.
  - now destruct (Hno userId Ha).
Qed.

Lemma checkAuthor_run {B : Set} resourceType (req : site_request B) user s :
  site_run (checkAuthor resourceType req user) s =
  (match resource_table resourceType with
   | None => inl (reply 400 "Неверный тип ресурса")
   | Some t =>
       match author_of t s (sr_params_id req) with
       | None => inl (reply 404 "Ресурс не найден")
       | Some author_id =>
           if author_id =? u_id user then inr tt else inl (reply 403 "Нет прав доступа")
       end
   end, s).
Proof.
  unfold checkAuthor, site_try, author_of.
  destruct (resource_table resourceType) as [[|]|]; simpl; try reflexivity.
  - destruct (map _ _) as [|a l]; simpl; [reflexivity|]. now destruct (a =? u_id user).
  - destruct (map _ _) as [|a l]; simpl; [reflexivity|]. now destruct (a =? u_id user).
Qed.

(** The author reaches the rest of the chain, as [req.user]. *)
Lemma guarded_by_author {B : Set} resourceType rest (req : site_request B) s userId :
  by_author resourceType s req userId ->
  exists user l, filter (fun u => u_id u =? u_id user) (site_users s) = user :: l
                 /\ u_id user = userId
                 /\ site_run (guarded resourceType rest req) s = site_run (rest user) s.
Proof.
  intros (Ha & Hu & t & Ht & Hau).
  destruct (site_authenticate_accepts req s userId Ha Hu) as (user & l & Hr & Hid & Hf).
  exists user, l. split; [exact Hf|]. split; [exact Hid|].
  unfold guarded. rewrite site_run_next, Hr, site_run_next, checkAuthor_run, Ht, Hau, Hid.
  now rewrite Z.eqb_refl.
Qed.

Lemma guarded_cases {B : Set} resourceType rest (req : site_request B) s :
  (exists userId, by_author resourceType s req userId)
  \/ exists answered, site_run (guarded resourceType rest req) s = (answered, s)
                      /\ In (site_status answered) [400; 401; 403; 404; 500].
Proof.
  unfold guarded. rewrite site_run_next.
  destruct (site_authenticate_run req s) as [(user & l & -> & Ha & Hf)|(a & -> & Hst & _)].
  - destruct (found_is_user s user l Hf) as (Hin & Hu & _).
    rewrite site_run_next, checkAuthor_run.
    destruct (resource_table resourceType) as [t|] eqn:Ht.
    + destruct (author_of t s (sr_params_id req)) as [author|] eqn:Hau.
      * destruct (author =? u_id user) eqn:E.
        -- left. exists (u_id user). apply Z.eqb_eq in E. subst author.
           split; [exact Ha|]. split; [exact Hu|]. now exists t.
        -- right. eexists. split; [reflexivity|]. simpl. auto.
      * right. eexists. split; [reflexivity|]. simpl. auto.
    + right. eexists. split; [reflexivity|]. simpl. auto.
  - right. exists a. split; [reflexivity|]. simpl in Hst |- *. tauto.
Qed.

(** X17.  Only the author gets past [checkAuthor]: on the routes behind
    [authenticateToken] and [checkAuthor] (PUT and DELETE of an article and
    of a comment), a request that does not bear the token of the registered
    user who is the author of the resource named is answered 400, 401, 403,
    404 or 500 before the handler, and the site is as it was. *)
Theorem only_the_author_gets_past_checkAuthor {B : Set} resourceType rest
    (req : site_request B) s :
  (forall userId, ~ by_author resourceType s req userId) ->
  exists answered,
    site_run (guarded resourceType rest req) s = (answered, s)
    /\ In (site_status answered) [400; 401; 403; 404; 500].
Proof.
  intros Hno. destruct (guarded_cases resourceType rest req s) as [(u & Hu)|H]; [|exact H].
  now destruct (Hno u).
Qed.

(** ** What a request can do to the site *)

Lemma joi_string_sized min short max v x :
  joi_string min short max v = inr (Some x) -> sized min (option_map fst max) x.
Proof.
  unfold joi_string, sized. destruct v as [| |y]; try discriminate.
  destruct (String.length y =? 0)%nat; [discriminate|].
  destruct (String.length y <? min)%nat eqn:Hmin; [discriminate|].
  apply Nat.ltb_ge in Hmin.
  destruct max as [[n long]|]; simpl.
  - destruct (n <? String.length y)%nat eqn:Hmax; [discriminate|].
    apply Nat.ltb_ge in Hmax. now intros [= <-].
  - now intros [= <-].
Qed.

Lemma joi_required_some message r x :
  joi_required message r = inr x -> r = inr (Some x).
Proof. destruct r as [m|[y|]]; simpl; congruence. Qed.

Lemma articleSchemas_create_sized b title content :
  articleSchemas_create b = inr (title, content) ->
  body_title b = text title /\ body_content b = text content
  /\ sized 3 (Some 255%nat) title /\ sized 10 None content.
Proof.
  unfold articleSchemas_create.
  destruct (joi_required _ (title_rules _)) as [m|x] eqn:Ht; [discriminate|].
  destruct (joi_required _ (content_rules _)) as [m|y] eqn:Hc; [discriminate|].
  intros [= <- <-]. apply joi_required_some in Ht, Hc.
  pose proof (joi_string_sized _ _ _ _ _ Ht) as St.
  pose proof (joi_string_sized _ _ _ _ _ Hc) as Sc.
  unfold title_rules, content_rules, joi_string in Ht, Hc.
  destruct (body_title b) as [| |t]; try discriminate.
  destruct (body_content b) as [| |c]; try discriminate.
  assert (t = x).
  { destruct (_ =? 0)%nat; [discriminate|]. destruct (_ <? 3)%nat; [discriminate|].
    destruct (255 <? _)%nat; congruence. }
  assert (c = y).
  { destruct (String.length c =? 0)%nat; [discriminate|].
    destruct (_ <? 10)%nat; congruence. }
  subst. auto.
Qed.

Lemma articleSchemas_update_sized b title content :
  articleSchemas_update b = inr (title, content) ->
  (forall x, title = Some x -> sized 3 (Some 255%nat) x)
  /\ (forall x, content = Some x -> sized 10 None x).
Proof.
  unfold articleSchemas_update.
  destruct (title_rules _) as [m|x] eqn:Ht; [discriminate|].
  destruct (content_rules _) as [m|y] eqn:Hc; [discriminate|].
  intros [= <- <-]. split; intros z ->.
  - exact (joi_string_sized _ _ _ _ _ Ht).
  - exact (joi_string_sized _ _ _ _ _ Hc).
Qed.

Lemma commentSchemas_create_sized v content :
  commentSchemas_create v = inr content ->
  v = text content /\ sized 1 (Some 1000%nat) content.
Proof.
  unfold commentSchemas_create.
  destruct (joi_required _ (comment_rules _)) as [m|x] eqn:Hc; [discriminate|].
  intros [= <-]. apply joi_required_some in Hc.
  pose proof (joi_string_sized _ _ _ _ _ Hc) as Sc. split; [|exact Sc].
  unfold comment_rules, joi_string in Hc. destruct v as [| |c]; try discriminate.
  destruct (_ =? 0)%nat; [discriminate|]. destruct (_ <? 1)%nat; [discriminate|].
  destruct (1000 <? _)%nat; congruence.
Qed.

(** A POST of an article that passes the middleware. *)
Lemma post_article_signed req s user l title content :
  site_run (site_authenticate req) s = (inr user, s) ->
  filter (fun u => u_id u =? u_id user) (site_users s) = user :: l ->
  articleSchemas_create (sr_body req) = inr (title, content) ->
  site_run (post_article req) s =
  (mk_site_response 201
     (article_json "Статья успешно создана"
        (Some (mk_article (articles_id_seq s) title content (u_id user))) (u_username user)),
   set_articles (article_rows s ++ [mk_article (articles_id_seq s) title content (u_id user)])
                (articles_id_seq s + 1) s).
Proof.
  intros Hr Hf Hv. destruct (found_is_user s user l Hf) as (_ & _ & He).
  unfold post_article. rewrite site_run_next, Hr. unfold validate_body. rewrite Hv.
  unfold site_try. cbn [site_run site_exec]. rewrite He. cbn [site_run site_exec].
  cbn [site_users set_articles]. now rewrite Hf.
Qed.

Lemma post_article_effect req s : site_effect s (snd (site_run (post_article req) s)).
Proof.
  destruct (site_authenticate_run req s) as [(user & l & Hr & Ha & Hf)|(a & Hr & _)].
  - destruct (articleSchemas_create (sr_body req)) as [e|[title content]] eqn:Hv.
    + unfold post_article. rewrite site_run_next, Hr. unfold validate_body. rewrite Hv.
      apply nothing_done.
    + rewrite (post_article_signed req s user l title content Hr Hf Hv).
      destruct (articleSchemas_create_sized _ _ _ Hv) as (_ & _ & St & Sc).
      apply article_added; [apply (found_is_user s user l Hf)|exact St|exact Sc].
  - unfold post_article. rewrite site_run_next, Hr. apply nothing_done.
Qed.

(** A PUT of an article by its author, with a body that passes the schema
    and has a member to write. *)
Lemma put_article_by_author req s userId title content :
  by_author "article" s req userId ->
  articleSchemas_update (sr_body req) = inr (title, content) ->
  title <> None \/ content <> None ->
  exists user l,
    filter (fun u => u_id u =? u_id user) (site_users s) = user :: l /\ u_id user = userId
    /\ site_run (put_article req) s =
       (mk_site_response 200
          (article_json "Статья успешно обновлена"
             (hd_error (map (change_article title content)
                            (filter (fun a => a_id a =? sr_params_id req) (article_rows s))))
             (u_username user)),
        set_articles (map (fun a => if a_id a =? sr_params_id req
                                    then change_article title content a else a)
                          (article_rows s))
                     (articles_id_seq s) s).
Proof.
  intros Hby Hv Hsome. unfold put_article.
  destruct (guarded_by_author "article"
              (fun user =>
                 match validate_body articleSchemas_update req with
                 | inl answered => Done answered
                 | inr (None, None) => Done (reply 400 "Нет данных для обновления")
                 | inr (title, content) =>
                     result <-- update_article title content (sr_params_id req)
                                or site_server_error ;;
                     authorResult <-- select_author_data (u_id user) or site_server_error ;;
                     match authorResult with
                     | [] => Done site_server_error
                     | author :: _ =>
                         Done (mk_site_response 200
                                 (article_json "Статья успешно обновлена" (hd_error result)
                                               (u_username author)))
                     end
                 end) req s userId Hby) as (user & l & Hf & Hid & Hr).
  exists user, l. split; [exact Hf|]. split; [exact Hid|].
  etransitivity; [exact Hr|]. unfold validate_body. rewrite Hv.
  destruct title as [t|], content as [c|]; try (destruct Hsome; congruence);
    unfold site_try; cbn [site_run site_exec]; cbn [site_users set_articles];
    now rewrite Hf.
Qed.

Lemma put_article_effect req s : site_effect s (snd (site_run (put_article req) s)).
Proof.
  unfold put_article.
  match goal with |- context [guarded ?rt ?rest req] =>
    destruct (guarded_cases rt rest req s) as [(u & Hby)|(a & Hr & _)] end.
  2: { rewrite Hr. apply nothing_done. }
  destruct (articleSchemas_update (sr_body req)) as [e|[title content]] eqn:Hv.
  - match goal with |- context [guarded ?rt ?rest req] =>
      destruct (guarded_by_author rt rest req s u Hby) as (user & l & _ & _ & ->) end.
    unfold validate_body. rewrite Hv. apply nothing_done.
  - destruct (articleSchemas_update_sized _ _ _ Hv) as [St Sc].
    destruct title as [t|] eqn:Et; [|destruct content as [c|] eqn:Ec].
    + destruct (put_article_by_author req s u (Some t) content Hby Hv) as (? & ? & _ & _ & Hr);
        [left; discriminate|].
      unfold put_article in Hr. rewrite Hr. now apply article_changed.
    + destruct (put_article_by_author req s u None (Some c) Hby Hv) as (? & ? & _ & _ & Hr);
        [right; discriminate|].
      unfold put_article in Hr. rewrite Hr. now apply article_changed.
    + match goal with |- context [guarded ?rt ?rest req] =>
        destruct (guarded_by_author rt rest req s u Hby) as (user & l & _ & _ & ->) end.
      unfold validate_body. rewrite Hv. apply nothing_done.
Qed.

Lemma author_of_article s id userId :
  author_of Article s id = Some userId ->
  exists a rest, filter (fun a => a_id a =? id) (article_rows s) = a :: rest
                 /\ a_author a = userId /\ In a (article_rows s) /\ a_id a = id.
Proof.
  unfold author_of. destruct (filter _ _) as [|a rest] eqn:E; [discriminate|].
  intros [= <-]. exists a, rest.
  assert (Hin : In a (filter (fun a => a_id a =? id) (article_rows s))) by (rewrite E; now left).
  apply filter_In in Hin as [Hin Hid]. apply Z.eqb_eq in Hid. auto.
Qed.

Lemma author_of_comment s id userId :
  author_of Comment s id = Some userId ->
  exists c rest, filter (fun c => c_id c =? id) (comment_rows s) = c :: rest
                 /\ c_author c = userId /\ In c (comment_rows s) /\ c_id c = id.
Proof.
  unfold author_of. destruct (filter _ _) as [|c rest] eqn:E; [discriminate|].
  intros [= <-]. exists c, rest.
  assert (Hin : In c (filter (fun c => c_id c =? id) (comment_rows s))) by (rewrite E; now left).
  apply filter_In in Hin as [Hin Hid]. apply Z.eqb_eq in Hid. auto.
Qed.

Lemma by_author_article {B : Set} (req : site_request B) s userId :
  by_author "article" s req userId -> author_of Article s (sr_params_id req) = Some userId.
Proof. intros (_ & _ & t & [= <-] & H). exact H. Qed.

Lemma by_author_comment {B : Set} (req : site_request B) s userId :
  by_author "comment" s req userId -> author_of Comment s (sr_params_id req) = Some userId.
Proof. intros (_ & _ & t & [= <-] & H). exact H. Qed.

(** A DELETE of an article by its author. *)
Lemma delete_article_by_author {B : Set} (req : site_request B) s userId :
  by_author "article" s req userId ->
  exists a rest,
    filter (fun a => a_id a =? sr_params_id req) (article_rows s) = a :: rest
    /\ a_author a = userId
    /\ site_run (delete_article_route req) s =
       (mk_site_response 200 (deleted_json "Статья успешно удалена" (a_title a)),
        without_article (sr_params_id req) s).
Proof.
  intros Hby.
  destruct (author_of_article s _ _ (by_author_article req s userId Hby))
    as (a & rest & Hf & Hau & _).
  exists a, rest. split; [exact Hf|]. split; [exact Hau|].
  unfold delete_article_route.
  match goal with |- context [guarded ?rt ?rest req] =>
    destruct (guarded_by_author rt rest req s userId Hby) as (user & l & _ & _ & ->) end.
  unfold site_try. cbn [site_run site_exec]. now rewrite Hf.
Qed.

Lemma delete_article_effect {B : Set} (req : site_request B) s :
  site_effect s (snd (site_run (delete_article_route req) s)).
Proof.
  destruct (guarded_cases "article"
              (fun _ =>
                 result <-- delete_article (sr_params_id req) or site_server_error ;;
                 match result with
                 | [] => Done site_server_error
                 | title :: _ =>
                     Done (mk_site_response 200 (deleted_json "Статья успешно удалена" title))
                 end) req s) as [(u & Hby)|(a & Hr & _)].
  - destruct (delete_article_by_author req s u Hby) as (a & rest & _ & _ & ->).
    apply article_removed.
  - unfold delete_article_route. rewrite Hr. apply nothing_done.
Qed.

Lemma existsb_of_ids {X : Type} (key : X -> Z) (l : list X) id :
  existsb (fun x => key x =? id) l = existsb (fun k => k =? id) (map key l).
Proof. induction l as [|x l IH]; simpl; [reflexivity|]. now rewrite IH. Qed.

(** A POST of a comment that passes the middleware. *)
Lemma post_comment_signed req s user l content :
  site_run (site_authenticate req) s = (inr user, s) ->
  filter (fun u => u_id u =? u_id user) (site_users s) = user :: l ->
  commentSchemas_create (sr_body req) = inr content ->
  site_run (post_comment req) s =
  if existsb (fun a => a_id a =? sr_params_id req) (article_rows s) then
    (mk_site_response 201
       (comment_json "Комментарий успешно добавлен"
          (Some (mk_comment (comments_id_seq s) content (sr_params_id req) (u_id user)))
          (u_username user)),
     set_comments (comment_rows s
                   ++ [mk_comment (comments_id_seq s) content (sr_params_id req) (u_id user)])
                  (comments_id_seq s + 1) s)
  else (reply 404 "Статья не найдена", s).
Proof.
  intros Hr Hf Hv. destruct (found_is_user s user l Hf) as (_ & _ & He).
  unfold post_comment. rewrite site_run_next, Hr. unfold validate_body. rewrite Hv.
  unfold site_try. cbn [site_run site_exec exec subjects db_of articles].
  rewrite absorb_db_of, existsb_of_ids, existsb_filter.
  destruct (filter (fun s0 => s0 =? sr_params_id req) (map a_id (article_rows s)))
    as [|x xs] eqn:E; cbn [site_run negb].
  - reflexivity.
  - cbn [site_exec]. rewrite existsb_of_ids, existsb_filter, E, He.
    cbn [negb andb site_run site_exec set_comments site_users]. now rewrite Hf.
Qed.

Lemma post_comment_effect req s : site_effect s (snd (site_run (post_comment req) s)).
Proof.
  destruct (site_authenticate_run req s) as [(user & l & Hr & Ha & Hf)|(a & Hr & _)].
  - destruct (commentSchemas_create (sr_body req)) as [e|content] eqn:Hv.
    + unfold post_comment. rewrite site_run_next, Hr. unfold validate_body. rewrite Hv.
      apply nothing_done.
    + rewrite (post_comment_signed req s user l content Hr Hf Hv).
      destruct (existsb _ (article_rows s)) eqn:E; [|apply nothing_done].
      apply comment_added.
      * rewrite existsb_of_ids in E. apply existsb_exists in E as (x & Hin & Hx).
        apply Z.eqb_eq in Hx. now subst x.
      * apply (found_is_user s user l Hf).
      * apply (commentSchemas_create_sized _ _ Hv).
  - unfold post_comment. rewrite site_run_next, Hr. apply nothing_done.
Qed.

(** A PUT of a comment by its author, with a body that passes the schema. *)
Lemma put_comment_by_author req s userId content :
  by_author "comment" s req userId ->
  commentSchemas_update (sr_body req) = inr content ->
  exists user l,
    filter (fun u => u_id u =? u_id user) (site_users s) = user :: l /\ u_id user = userId
    /\ site_run (put_comment req) s =
       (mk_site_response 200
          (comment_json "Комментарий успешно обновлен"
             (hd_error (map (change_comment content)
                            (filter (fun c => c_id c =? sr_params_id req) (comment_rows s))))
             (u_username user)),
        set_comments (map (fun c => if c_id c =? sr_params_id req
                                    then change_comment content c else c)
                          (comment_rows s))
                     (comments_id_seq s) s).
Proof.
  intros Hby Hv. unfold put_comment.
  match goal with |- context [guarded ?rt ?rest req] =>
    destruct (guarded_by_author rt rest req s userId Hby) as (user & l & Hf & Hid & Hr) end.
  exists user, l. split; [exact Hf|]. split; [exact Hid|].
  etransitivity; [exact Hr|]. unfold validate_body. rewrite Hv.
  unfold site_try; cbn [site_run site_exec]; cbn [site_users set_comments].
  now rewrite Hf.
Qed.

Lemma put_comment_effect req s : site_effect s (snd (site_run (put_comment req) s)).
Proof.
  unfold put_comment.
  match goal with |- context [guarded ?rt ?rest req] =>
    destruct (guarded_cases rt rest req s) as [(u & Hby)|(a & Hr & _)] end.
  2: { rewrite Hr. apply nothing_done. }
  destruct (commentSchemas_update (sr_body req)) as [e|content] eqn:Hv.
  - match goal with |- context [guarded ?rt ?rest req] =>
      destruct (guarded_by_author rt rest req s u Hby) as (user & l & _ & _ & ->) end.
    unfold validate_body. rewrite Hv. apply nothing_done.
  - destruct (put_comment_by_author req s u content Hby Hv) as (? & ? & _ & _ & Hr).
    unfold put_comment in Hr. rewrite Hr.
    apply comment_changed. apply (commentSchemas_create_sized _ _ Hv).
Qed.

(** A DELETE of a comment by its author. *)
Lemma delete_comment_by_author {B : Set} (req : site_request B) s userId :
  by_author "comment" s req userId ->
  exists c rest,
    filter (fun c => c_id c =? sr_params_id req) (comment_rows s) = c :: rest
    /\ c_author c = userId
    /\ site_run (delete_comment_route req) s =
       (mk_site_response 200 (deleted_json "Комментарий успешно удален" (c_content c)),
        without_comment (sr_params_id req) s).
Proof.
  intros Hby.
  destruct (author_of_comment s _ _ (by_author_comment req s userId Hby))
    as (c & rest & Hf & Hau & _).
  exists c, rest. split; [exact Hf|]. split; [exact Hau|].
  unfold delete_comment_route.
  match goal with |- context [guarded ?rt ?rest req] =>
    destruct (guarded_by_author rt rest req s userId Hby) as (user & l & _ & _ & ->) end.
  unfold site_try. cbn [site_run site_exec]. now rewrite Hf.
Qed.

Lemma delete_comment_effect {B : Set} (req : site_request B) s :
  site_effect s (snd (site_run (delete_comment_route req) s)).
Proof.
  destruct (guarded_cases "comment"
              (fun _ =>
                 result <-- delete_comment (sr_params_id req) or site_server_error ;;
                 match result with
                 | [] => Done site_server_error
                 | content :: _ =>
                     Done (mk_site_response 200
                             (deleted_json "Комментарий успешно удален" content))
                 end) req s) as [(u & Hby)|(a & Hr & _)].
  - destruct (delete_comment_by_author req s u Hby) as (c & rest & _ & _ & ->).
    apply comment_removed.
  - unfold delete_comment_route. rewrite Hr. apply nothing_done.
Qed.

Lemma site_handler_effect op s :
  site_effect s (snd (site_run (site_handler_of op) s)).
Proof.
  destruct op as [req|req|req|req|req|req|op]; cbn [site_handler_of].
  - apply post_article_effect.
  - apply put_article_effect.
  - apply delete_article_effect.
  - apply post_comment_effect.
  - apply put_comment_effect.
  - apply delete_comment_effect.
  - destruct (site_run_lift of_response (handler_of op) s) as [-> _]. cbn [snd].
    destruct (handler_effect op (db_of s)) as [->|(u & k & _ & He)].
    + rewrite absorb_db_of. apply nothing_done.
    + exact (reacted s _ _ _ _ He).
Qed.

Lemma site_serve_keeps (P : site -> Prop) :
  (forall s s', site_effect s s' -> P s -> P s') ->
  forall ops s, P s -> P (snd (site_serve ops s)).
Proof.
  intros Hstep ops. induction ops as [|op ops IH]; intros s H; simpl; [exact H|].
  pose proof (Hstep s _ (site_handler_effect op s) H) as H'.
  destruct (site_run (site_handler_of op) s) as [answer s']. simpl in H'.
  specialize (IH s' H'). now destruct (site_serve ops s').
Qed.

(** ** The constraints of the schema, on the whole site *)

Lemma change_article_columns title content id rows :
  map a_id (map (fun a => if a_id a =? id then change_article title content a else a) rows)
  = map a_id rows
  /\ map a_author (map (fun a => if a_id a =? id then change_article title content a else a)
                       rows)
     = map a_author rows.
Proof.
  rewrite !map_map. split; apply map_ext; intros a; now destruct (a_id a =? id).
Qed.

Lemma change_comment_columns content id rows :
  map c_id (map (fun c => if c_id c =? id then change_comment content c else c) rows)
  = map c_id rows
  /\ map (fun c => (c_article c, c_author c))
         (map (fun c => if c_id c =? id then change_comment content c else c) rows)
     = map (fun c => (c_article c, c_author c)) rows.
Proof.
  rewrite !map_map. split; apply map_ext; intros c; now destruct (c_id c =? id).
Qed.

(** The reaction tables keep their constraints when rows are taken out of
    them, as long as the rows that stay still point to a subject. *)
Lemma schema_constraints_fewer_rows d d' :
  (forall t, exists g, assignments t d' = filter g (assignments t d)) ->
  (forall t, id_seq t d' = id_seq t d) -> users d' = users d -> reactions d' = reactions d ->
  (forall t row, In row (assignments t d') -> In (ar_subject row) (subjects t d) ->
                 In (ar_subject row) (subjects t d')) ->
  schema_constraints d -> schema_constraints d'.
Proof.
  intros Ea Es Eu Er Hsub (Hpk & Huq & Hfk). split; [|split].
  - intros t. destruct (Ea t) as [g Eg]. rewrite Eg, Es. destruct (Hpk t) as [Hnd Hlt]. split.
    + now apply NoDup_map_filter.
    + intros row Hin. apply filter_In in Hin as [Hin _]. now apply Hlt.
  - intros t s u k. destruct (Ea t) as [g Eg]. rewrite Eg, filter_comm.
    etransitivity; [apply filter_length_le | apply Huq].
  - intros t row Hin. pose proof Hin as Hin'. destruct (Ea t) as [g Eg]. rewrite Eg in Hin'.
    apply filter_In in Hin' as [Hin' _]. destruct (Hfk t row Hin') as (H1 & H2 & H3).
    unfold is_subject, is_user, is_kind. rewrite Eu, Er. split; [now apply Hsub|auto].
Qed.

Lemma filter_everything {X : Type} (l : list X) : l = filter (fun _ => true) l.
Proof. induction l as [|a l IH]; simpl; congruence. Qed.

Lemma schema_constraints_more_subjects d d' :
  (forall t, assignments t d' = assignments t d) ->
  (forall t, id_seq t d' = id_seq t d) -> users d' = users d -> reactions d' = reactions d ->
  (forall t x, In x (subjects t d) -> In x (subjects t d')) ->
  schema_constraints d -> schema_constraints d'.
Proof.
  intros Ea Es Eu Er Hsub. apply schema_constraints_fewer_rows; auto.
  intros t. exists (fun _ => true). rewrite Ea. apply filter_everything.
Qed.

Lemma keys_with_new_row {X : Type} (key : X -> Z) (rows : list X) (next : Z) (x : X) :
  key x = next ->
  NoDup (map key rows) /\ (forall r, In r rows -> key r < next) ->
  NoDup (map key (rows ++ [x])) /\ (forall r, In r (rows ++ [x]) -> key r < next + 1).
Proof.
  intros Hk [Hnd Hlt]. split.
  - rewrite map_app. simpl. apply NoDup_app; [exact Hnd | repeat constructor; easy |].
    intros id Hin [<-|[]]. apply in_map_iff in Hin as (row & E & Hin).
    apply Hlt in Hin. lia.
  - intros r Hin. apply in_app_or in Hin as [Hin|[<-|[]]]; [apply Hlt in Hin|]; lia.
Qed.

Lemma constraints_article_added s title content author :
  is_user (db_of s) author -> site_constraints s ->
  site_constraints (set_articles
                      (article_rows s ++ [mk_article (articles_id_seq s) title content author])
                      (articles_id_seq s + 1) s).
Proof.
  intros Hu (Ha & Hc & [Hfa Hfc] & Hs). split; [|split; [|split]].
  - now apply keys_with_new_row.
  - exact Hc.
  - split.
    + intros a Hin. cbn [article_rows set_articles] in Hin.
      apply in_app_or in Hin as [Hin|[<-|[]]]; [now apply Hfa|exact Hu].
    + intros c Hin. destruct (Hfc c Hin) as [H1 H2]. split; [|exact H2].
      unfold is_subject in *. cbn [db_of subjects articles article_rows set_articles] in *.
      rewrite map_app. apply in_or_app. now left.
  - revert Hs. apply schema_constraints_more_subjects; try reflexivity; try (now intros [|]).
    intros [|] x Hin; [|exact Hin].
    cbn [db_of subjects articles article_rows set_articles] in *.
    rewrite map_app. apply in_or_app. now left.
Qed.

Lemma constraints_article_changed s title content id :
  site_constraints s ->
  site_constraints (set_articles
                      (map (fun a => if a_id a =? id then change_article title content a else a)
                           (article_rows s))
                      (articles_id_seq s) s).
Proof.
  intros (Ha & Hc & [Hfa Hfc] & Hs).
  destruct (change_article_columns title content id (article_rows s)) as [Eid Eau].
  assert (Ed : db_of (set_articles
                        (map (fun a => if a_id a =? id then change_article title content a
                                       else a) (article_rows s))
                        (articles_id_seq s) s) = db_of s).
  { unfold db_of. cbn [article_rows set_articles site_users comment_rows site_kinds
                       site_article_reactions site_article_reactions_seq
                       site_comment_reactions site_comment_reactions_seq].
    now rewrite Eid. }
  split; [|split; [|split]].
  - destruct Ha as [Hnd Hlt]. split; cbn [article_rows articles_id_seq set_articles].
    + now rewrite Eid.
    + intros a Hin. apply in_map_iff in Hin as (a0 & <- & Hin).
      specialize (Hlt a0 Hin). now destruct (a_id a0 =? id).
  - exact Hc.
  - split.
    + intros a Hin. rewrite Ed. cbn [article_rows set_articles] in Hin.
      apply in_map_iff in Hin as (a0 & <- & Hin).
      specialize (Hfa a0 Hin). now destruct (a_id a0 =? id).
    + intros c Hin. rewrite Ed. now apply Hfc.
  - now rewrite Ed.
Qed.

Lemma constraints_article_removed s id :
  site_constraints s -> site_constraints (without_article id s).
Proof.
  intros (Ha & Hc & [Hfa Hfc] & Hs).
  assert (Hart : forall x, In x (map a_id (article_rows s)) -> x <> id ->
                           In x (map a_id (filter (fun a => negb (a_id a =? id))
                                                  (article_rows s)))).
  { intros x Hin Hne. apply in_map_iff in Hin as (a & <- & Hin). apply in_map.
    apply filter_In. split; [exact Hin|]. apply negb_true_iff. now apply Z.eqb_neq. }
  split; [|split; [|split]].
  - destruct Ha as [Hnd Hlt]. split; cbn [article_rows articles_id_seq without_article].
    + now apply NoDup_map_filter.
    + intros a Hin. apply filter_In in Hin as [Hin _]. now apply Hlt.
  - destruct Hc as [Hnd Hlt]. split; cbn [comment_rows comments_id_seq without_article].
    + now apply NoDup_map_filter.
    + intros c Hin. apply filter_In in Hin as [Hin _]. now apply Hlt.
  - split.
    + intros a Hin. cbn [article_rows without_article] in Hin.
      apply filter_In in Hin as [Hin _]. exact (Hfa a Hin).
    + intros c Hin. cbn [comment_rows without_article] in Hin.
      apply filter_In in Hin as [Hin Hne]. destruct (Hfc c Hin) as [H1 H2].
      split; [|exact H2]. apply Hart; [exact H1|].
      apply negb_true_iff in Hne. now apply Z.eqb_neq.
  - revert Hs. apply schema_constraints_fewer_rows; try reflexivity; try (now intros [|]).
    + intros [|]; eexists; reflexivity.
    + intros [|] row Hin Hsub;
        cbn [db_of assignments subjects article_reactions comment_reactions articles comments
             without_article site_article_reactions site_comment_reactions article_rows
             comment_rows] in *;
        apply filter_In in Hin as [Hin Hne]; apply negb_true_iff in Hne.
      * apply Hart; [exact Hsub|]. now apply Z.eqb_neq.
      * apply in_map_iff in Hsub as (c & Ec & Hc'). rewrite <- Ec. apply in_map.
        apply filter_In. split; [exact Hc'|].
        apply negb_true_iff. destruct (c_article c =? id) eqn:E; [|reflexivity].
        rewrite <- Hne. symmetry. apply existsb_exists. exists c.
        split; [apply filter_In; now split|]. now apply Z.eqb_eq.
Qed.

Lemma constraints_comment_added s content article author :
  is_subject Article (db_of s) article -> is_user (db_of s) author -> site_constraints s ->
  site_constraints (set_comments
                      (comment_rows s ++ [mk_comment (comments_id_seq s) content article author])
                      (comments_id_seq s + 1) s).
Proof.
  intros Hart Hu (Ha & Hc & [Hfa Hfc] & Hs). split; [|split; [|split]].
  - exact Ha.
  - now apply keys_with_new_row.
  - split.
    + exact Hfa.
    + intros c Hin. cbn [comment_rows set_comments] in Hin.
      apply in_app_or in Hin as [Hin|[<-|[]]]; [now apply Hfc|now split].
  - revert Hs. apply schema_constraints_more_subjects; try reflexivity; try (now intros [|]).
    intros [|] x Hin; [exact Hin|].
    cbn [db_of subjects comments comment_rows set_comments] in *.
    rewrite map_app. apply in_or_app. now left.
Qed.

Lemma constraints_comment_changed s content id :
  site_constraints s ->
  site_constraints (set_comments
                      (map (fun c => if c_id c =? id then change_comment content c else c)
                           (comment_rows s))
                      (comments_id_seq s) s).
Proof.
  intros (Ha & Hc & [Hfa Hfc] & Hs).
  destruct (change_comment_columns content id (comment_rows s)) as [Eid _].
  assert (Ed : db_of (set_comments
                        (map (fun c => if c_id c =? id then change_comment content c else c)
                             (comment_rows s))
                        (comments_id_seq s) s) = db_of s).
  { unfold db_of. cbn [article_rows set_comments site_users comment_rows site_kinds
                       site_article_reactions site_article_reactions_seq
                       site_comment_reactions site_comment_reactions_seq].
    now rewrite Eid. }
  split; [|split; [|split]].
  - exact Ha.
  - destruct Hc as [Hnd Hlt]. split; cbn [comment_rows comments_id_seq set_comments].
    + now rewrite Eid.
    + intros c Hin. apply in_map_iff in Hin as (c0 & <- & Hin).
      specialize (Hlt c0 Hin). now destruct (c_id c0 =? id).
  - split.
    + intros a Hin. rewrite Ed. now apply Hfa.
    + intros c Hin. rewrite Ed. cbn [comment_rows set_comments] in Hin.
      apply in_map_iff in Hin as (c0 & <- & Hin).
      specialize (Hfc c0 Hin). now destruct (c_id c0 =? id).
  - now rewrite Ed.
Qed.

Lemma constraints_comment_removed s id :
  site_constraints s -> site_constraints (without_comment id s).
Proof.
  intros (Ha & Hc & [Hfa Hfc] & Hs). split; [|split; [|split]].
  - exact Ha.
  - destruct Hc as [Hnd Hlt]. split; cbn [comment_rows comments_id_seq without_comment].
    + now apply NoDup_map_filter.
    + intros c Hin. apply filter_In in Hin as [Hin _]. now apply Hlt.
  - split.
    + exact Hfa.
    + intros c Hin. cbn [comment_rows without_comment] in Hin.
      apply filter_In in Hin as [Hin _]. exact (Hfc c Hin).
  - revert Hs. apply schema_constraints_fewer_rows; try reflexivity; try (now intros [|]).
    + intros [|]; [exists (fun _ => true); apply filter_everything|eexists; reflexivity].
    + intros [|] row Hin Hsub; [exact Hsub|].
      cbn [db_of assignments subjects comment_reactions comments without_comment
           site_comment_reactions comment_rows] in *.
      apply filter_In in Hin as [Hin Hne]. apply negb_true_iff, Z.eqb_neq in Hne.
      apply in_map_iff in Hsub as (c & Ec & Hc'). rewrite <- Ec. apply in_map.
      apply filter_In. split; [exact Hc'|]. apply negb_true_iff, Z.eqb_neq. congruence.
Qed.

Lemma constraints_reacted s t subject user d :
  effect t subject user (db_of s) d -> site_constraints s -> site_constraints (absorb d s).
Proof.
  intros He (Ha & Hc & Hf & Hs).
  destruct (effect_other_tables _ _ _ _ _ He) as (Eu & Ea & Ec & Er).
  assert (Ed : db_of (absorb d s) = d) by now apply db_of_absorb.
  split; [exact Ha|]. split; [exact Hc|]. split.
  - exact Hf.
  - rewrite Ed. exact (schema_effect _ _ _ _ _ Hs He).
Qed.

Lemma site_effect_constraints s s' :
  site_effect s s' -> site_constraints s -> site_constraints s'.
Proof.
  intros [ |title content author Hu _ _|title content id _ _|id
          |content article author Ha Hu _|content id _|id|t subject user d He].
  - auto.
  - now apply constraints_article_added.
  - apply constraints_article_changed.
  - apply constraints_article_removed.
  - now apply constraints_comment_added.
  - apply constraints_comment_changed.
  - apply constraints_comment_removed.
  - exact (constraints_reacted s t subject user d He).
Qed.

(** X18.  Served one after the other, the requests to the article, comment
    and reaction routes keep the constraints of schema.sql on the whole
    site: the ids of articles, comments and reactions stay distinct and
    below the next value of their sequence, no (subject, user, kind) triple
    occurs twice, and every author, article, comment, user and kind a row
    points to is there, also after an article or a comment is deleted. *)
Theorem site_requests_keep_the_constraints (ops : list site_operation) (s : site) :
  site_constraints s -> site_constraints (snd (site_serve ops s)).
Proof. apply site_serve_keeps. exact site_effect_constraints. Qed.

(** ** One reaction per user, on the whole site *)

Lemma single_assignment_fewer_rows d d' :
  (forall t, exists g, assignments t d' = filter g (assignments t d)) ->
  single_assignment d -> single_assignment d'.
Proof.
  intros Ea H t s u. unfold held. destruct (Ea t) as [g ->]. rewrite filter_comm.
  etransitivity; [apply filter_length_le | apply H].
Qed.

Lemma effect_single_assignment t s u d d' :
  effect t s u d d' -> single_assignment d -> single_assignment d'.
Proof.
  intros [->|[->|(k & _ & _ & _ & [[Hh ->]| ->])]] H.
  - exact H.
  - now apply single_assignment_without_pair.
  - now apply single_assignment_with_new_row.
  - apply single_assignment_with_new_row; [apply held_without_pair|].
    now apply single_assignment_without_pair.
Qed.

Lemma site_effect_single_assignment s s' :
  site_effect s s' -> single_assignment (db_of s) -> single_assignment (db_of s').
Proof.
  intros [ |title content author _ _ _|title content id _ _|id
          |content article author _ _ _|content id _|id|t subject user d He];
    try (intros H; exact H).
  - apply single_assignment_fewer_rows. intros [|]; eexists; reflexivity.
  - apply single_assignment_fewer_rows.
    intros [|]; [exists (fun _ => true); apply filter_everything|eexists; reflexivity].
  - destruct (effect_other_tables _ _ _ _ _ He) as (Eu & Ea & Ec & Er).
    rewrite (db_of_absorb d s) by assumption. exact (effect_single_assignment _ _ _ _ _ He).
Qed.

(** X19.  No route of the site breaks the single assignment: when every
    user holds at most one reaction on each article and comment, that is
    so after any requests to the article, comment and reaction routes,
    served one after the other. *)
Theorem site_requests_keep_single_assignment (ops : list site_operation) (s : site) :
  single_assignment (db_of s) -> single_assignment (db_of (snd (site_serve ops s))).
Proof.
  apply (site_serve_keeps (fun s => single_assignment (db_of s))).
  exact site_effect_single_assignment.
Qed.

(** ** The lengths of the stored texts *)

Lemma site_effect_texts_sized s s' : site_effect s s' -> texts_sized s -> texts_sized s'.
Proof.
  intros [ |title content author _ St Sc|title content id St Sc|id
          |content article author _ _ Sc|content id Sc|id|t subject user d He] [Ha Hc];
    try (split; assumption).
  - split; [|exact Hc]. intros a Hin. cbn [article_rows set_articles] in Hin.
    apply in_app_or in Hin as [Hin|[<-|[]]]; [now apply Ha|now split].
  - split; [|exact Hc]. intros a Hin. cbn [article_rows set_articles] in Hin.
    apply in_map_iff in Hin as (a0 & <- & Hin). destruct (Ha a0 Hin) as [H1 H2].
    destruct (a_id a0 =? id); [|now split]. unfold change_article. cbn [a_title a_content].
    split; [destruct title as [x|]|destruct content as [x|]]; auto.
  - split.
    + intros a Hin. cbn [article_rows without_article] in Hin.
      apply filter_In in Hin as [Hin _]. now apply Ha.
    + intros c Hin. cbn [comment_rows without_article] in Hin.
      apply filter_In in Hin as [Hin _]. now apply Hc.
  - split; [exact Ha|]. intros c Hin. cbn [comment_rows set_comments] in Hin.
    apply in_app_or in Hin as [Hin|[<-|[]]]; [now apply Hc|exact Sc].
  - split; [exact Ha|]. intros c Hin. cbn [comment_rows set_comments] in Hin.
    apply in_map_iff in Hin as (c0 & <- & Hin). specialize (Hc c0 Hin).
    destruct (c_id c0 =? id); [exact Sc|exact Hc].
  - split; [exact Ha|]. intros c Hin. cbn [comment_rows without_comment] in Hin.
    apply filter_In in Hin as [Hin _]. now apply Hc.
Qed.

(** X20.  What the routes store has the lengths of the schemas of
    middleware/validation.js: when every title has 3 to 255 characters,
    every content of an article at least 10 and every comment 1 to 1000,
    that is so after any requests, served one after the other; a title
    always fits the VARCHAR(255) column. *)
Theorem stored_texts_keep_the_lengths_of_the_schemas (ops : list site_operation) (s : site) :
  texts_sized s -> texts_sized (snd (site_serve ops s)).
Proof. apply site_serve_keeps. exact site_effect_texts_sized. Qed.

(** ** Deleting an article *)

(** X21.  A DELETE of an article by its author is answered 200 with the
    title and takes with the article what hangs on it, and nothing else:
    the rows of the article, its comments, the reactions to it and the
    reactions to its comments are gone, every other article, comment and
    reaction is still there, and so is every user. *)
Theorem delete_article_takes_what_hangs_on_it {B : Set} (req : site_request B) s userId :
  by_author "article" s req userId ->
  let id := sr_params_id req in
  let s' := snd (site_run (delete_article_route req) s) in
  (exists a, hd_error (filter (fun a => a_id a =? id) (article_rows s)) = Some a
             /\ a_author a = userId
             /\ fst (site_run (delete_article_route req) s)
                = mk_site_response 200 (deleted_json "Статья успешно удалена" (a_title a)))
  /\ (forall a, In a (article_rows s') <-> In a (article_rows s) /\ a_id a <> id)
  /\ (forall c, In c (comment_rows s') <-> In c (comment_rows s) /\ c_article c <> id)
  /\ (forall r, In r (site_article_reactions s')
                <-> In r (site_article_reactions s) /\ ar_subject r <> id)
  /\ (forall r, In r (site_comment_reactions s')
                <-> In r (site_comment_reactions s)
                    /\ forall c, In c (comment_rows s) -> c_id c = ar_subject r ->
                                 c_article c <> id)
  /\ site_users s' = site_users s.
Proof.
  intros Hby id s'. subst s'.
  destruct (delete_article_by_author req s userId Hby) as (a & rest & Hf & Hau & Hr).
  rewrite Hr. cbn [fst snd]. fold id in Hf |- *. split; [|split; [|split; [|split; [|split]]]].
  - exists a. rewrite Hf. auto.
  - intros a'. cbn [article_rows without_article]. rewrite filter_In, negb_true_iff, Z.eqb_neq.
    reflexivity.
  - intros c. cbn [comment_rows without_article]. rewrite filter_In, negb_true_iff, Z.eqb_neq.
    reflexivity.
  - intros r. cbn [site_article_reactions without_article].
    rewrite filter_In, negb_true_iff, Z.eqb_neq. reflexivity.
  - intros r. cbn [site_comment_reactions without_article]. rewrite filter_In, negb_true_iff.
    split; intros [Hin Hno]; (split; [exact Hin|]).
    + intros c Hc Hid Hart. rewrite <- not_true_iff_false in Hno. apply Hno.
      apply existsb_exists. exists c. split; [|now apply Z.eqb_eq].
      apply filter_In. split; [exact Hc|now apply Z.eqb_eq].
    + apply not_true_iff_false. intros He. apply existsb_exists in He as (c & Hc & Hid).
      apply filter_In in Hc as [Hc Hart]. apply Z.eqb_eq in Hid, Hart.
      exact (Hno c Hc Hid Hart).
  - reflexivity.
Qed.

Lemma react_no_subject op s :
  (exists u k, accepted (db_of s) (op_request op) u k) ->
  ~ is_subject (op_type op) (db_of s) (params_id (op_request op)) ->
  site_run (site_handler_of (react op)) s
  = (of_response (res_status 404 (msg (subject_not_found (op_type op)))), s).
Proof.
  intros (u & k & Hacc) Hno. cbn [site_handler_of].
  destruct (site_run_lift of_response (handler_of op) s) as [-> _].
  assert (E : run (handler_of op) (db_of s)
              = (res_status 404 (msg (subject_not_found (op_type op))), db_of s)).
  { destruct op as [[] req|[] req]; cbn [handler_of op_type op_request] in *;
      unfold post_article_reaction, post_comment_reaction, delete_article_reaction,
             delete_comment_reaction;
      match goal with |- context [route _ ?h req] =>
        destruct (route_accepted h req (db_of s) u k Hacc) as [-> _] end;
      first [apply post_reaction_no_subject | apply delete_reaction_no_subject]; exact Hno. }
  rewrite E. cbn [fst snd]. now rewrite absorb_db_of.
Qed.

(** X22.  A deleted article takes no reactions any more: after the DELETE
    of an article by its author, a POST or a DELETE of a reaction to it
    that passes the middleware is answered 404 with the message of the
    reaction route, and so is one to any comment the article had (the ids
    of comments being a primary key); the site stays as the deletion left
    it. *)
Theorem deleted_article_takes_no_reactions {B : Set} (req : site_request B) s userId op :
  by_author "article" s req userId -> comment_keys s ->
  let s' := snd (site_run (delete_article_route req) s) in
  (exists u k, accepted (db_of s') (op_request op) u k) ->
  match op_type op with
  | Article => params_id (op_request op) = sr_params_id req
  | Comment => exists c, In c (comment_rows s) /\ c_article c = sr_params_id req
                         /\ c_id c = params_id (op_request op)
  end ->
  site_run (site_handler_of (react op)) s'
  = (of_response (res_status 404 (msg (subject_not_found (op_type op)))), s').
Proof.
  intros Hby [Hnd _] s' Hacc Hsub. apply react_no_subject; [exact Hacc|].
  subst s'. destruct (delete_article_by_author req s userId Hby) as (a & rest & _ & _ & Hr).
  rewrite Hr in *. cbn [snd] in *. unfold is_subject.
  destruct (op_type op); cbn [subjects db_of articles comments article_rows comment_rows
                              without_article].
  - rewrite Hsub. intros Hin. apply in_map_iff in Hin as (x & Hx & Hin).
    apply filter_In in Hin as [_ Hne]. apply negb_true_iff, Z.eqb_neq in Hne. contradiction.
  - destruct Hsub as (c & Hc & Hart & Hid). rewrite <- Hid.
    intros Hin. apply in_map_iff in Hin as (c' & Hid' & Hin).
    apply filter_In in Hin as [Hin Hne]. apply negb_true_iff, Z.eqb_neq in Hne.
    assert (c' = c); [|congruence].
    clear - Hnd Hc Hin Hid'. induction (comment_rows s) as [|x l IH]; [destruct Hc|].
    simpl in Hnd. inversion Hnd as [|? ? Hnot Hnd']; subst.
    destruct Hc as [->|Hc], Hin as [->|Hin]; auto.
    + destruct Hnot. rewrite <- Hid'. now apply in_map.
    + destruct Hnot. rewrite Hid'. now apply in_map.
Qed.

(** ** Writing an article *)

Lemma put_article_outcome req s :
  site_run (put_article req) s = (fst (site_run (put_article req) s), s)
  \/ exists userId title content,
       by_author "article" s req userId
       /\ articleSchemas_update (sr_body req) = inr (title, content)
       /\ (title <> None \/ content <> None)
       /\ snd (site_run (put_article req) s)
          = set_articles (map (fun a => if a_id a =? sr_params_id req
                                        then change_article title content a else a)
                              (article_rows s))
                         (articles_id_seq s) s.
Proof.
  destruct (guarded_cases "article"
              (fun user =>
                 match validate_body articleSchemas_update req with
                 | inl answered => Done answered
                 | inr (None, None) => Done (reply 400 "Нет данных для обновления")
                 | inr (title, content) =>
                     result <-- update_article title content (sr_params_id req)
                                or site_server_error ;;
                     authorResult <-- select_author_data (u_id user) or site_server_error ;;
                     match authorResult with
                     | [] => Done site_server_error
                     | author :: _ =>
                         Done (mk_site_response 200
                                 (article_json "Статья успешно обновлена" (hd_error result)
                                               (u_username author)))
                     end
                 end) req s) as [(u & Hby)|(a & Hr & _)].
  2: { left. unfold put_article. now rewrite Hr. }
  destruct (articleSchemas_update (sr_body req)) as [e|[title content]] eqn:Hv.
  - left. unfold put_article.
    match goal with |- context [guarded ?rt ?rest req] =>
      destruct (guarded_by_author rt rest req s u Hby) as (user & l & _ & _ & ->) end.
    unfold validate_body. now rewrite Hv.
  - destruct title as [t|] eqn:Et; [|destruct content as [c|] eqn:Ec].
    + right. exists u, (Some t), content.
      destruct (put_article_by_author req s u (Some t) content Hby Hv) as (? & ? & _ & _ & Hr);
        [left; discriminate|].
      rewrite Hr. split; [exact Hby|]. split; [reflexivity|]. split; [left; discriminate|].
      reflexivity.
    + right. exists u, None, (Some c).
      destruct (put_article_by_author req s u None (Some c) Hby Hv) as (? & ? & _ & _ & Hr);
        [right; discriminate|].
      rewrite Hr. split; [exact Hby|]. split; [reflexivity|]. split; [right; discriminate|].
      reflexivity.
    + left. unfold put_article.
      match goal with |- context [guarded ?rt ?rest req] =>
        destruct (guarded_by_author rt rest req s u Hby) as (user & l & _ & _ & ->) end.
      unfold validate_body. now rewrite Hv.
Qed.

Lemma change_article_others title content id rows :
  filter (fun a => negb (a_id a =? id))
         (map (fun a => if a_id a =? id then change_article title content a else a) rows)
  = filter (fun a => negb (a_id a =? id)) rows.
Proof.
  induction rows as [|a l IH]; [reflexivity|]. cbn [map].
  destruct (a_id a =? id) eqn:E.
  - cbn [filter change_article a_id]. rewrite E. exact IH.
  - cbn [filter]. rewrite E. cbn [negb]. now rewrite IH.
Qed.

(** X23.  Whatever the request, a PUT of an article touches nothing but
    title and content of the rows with the id of the route: the ids and
    the authors of the articles, every row with another id, the comments,
    the users, the reactions and the sequences are as before. *)
Theorem put_article_touches_only_the_text req s :
  let s' := snd (site_run (put_article req) s) in
  map a_id (article_rows s') = map a_id (article_rows s)
  /\ map a_author (article_rows s') = map a_author (article_rows s)
  /\ filter (fun a => negb (a_id a =? sr_params_id req)) (article_rows s')
     = filter (fun a => negb (a_id a =? sr_params_id req)) (article_rows s)
  /\ articles_id_seq s' = articles_id_seq s
  /\ comment_rows s' = comment_rows s /\ comments_id_seq s' = comments_id_seq s
  /\ db_of s' = db_of s.
Proof.
  intros s'. subst s'.
  destruct (put_article_outcome req s) as [->|(u & title & content & _ & _ & _ & ->)].
  - cbn [snd]. repeat split.
  - destruct (change_article_columns title content (sr_params_id req) (article_rows s))
      as [Eid Eau].
    cbn [article_rows articles_id_seq comment_rows comments_id_seq set_articles].
    split; [exact Eid|]. split; [exact Eau|]. split; [|repeat split].
    + apply change_article_others.
    + unfold db_of. cbn [article_rows set_articles site_users comment_rows site_kinds
                         site_article_reactions site_article_reactions_seq
                         site_comment_reactions site_comment_reactions_seq].
      now rewrite Eid.
Qed.

Lemma one_row_of_key {X : Type} (key : X -> Z) (rows : list X) id x rest :
  NoDup (map key rows) -> filter (fun r => key r =? id) rows = x :: rest -> rest = [].
Proof.
  induction rows as [|r rows IH]; simpl; [discriminate|]. intros Hnd.
  inversion Hnd as [|? ? Hnot Hnd']; subst.
  destruct (key r =? id) eqn:E; [|now apply IH].
  intros [= -> <-]. apply Z.eqb_eq in E. apply filter_nil_iff. intros y Hy.
  apply Z.eqb_neq. intros Ey. apply Hnot. rewrite E, <- Ey. now apply in_map.
Qed.

(** A PUT of an article by its author, with a body the schema lets
    through, where every statement is taken. *)
Lemma put_article_by_author_run req s userId title content :
  by_author "article" s req userId -> article_keys s ->
  articleSchemas_update (sr_body req) = inr (title, content) ->
  match title, content with
  | None, None =>
      site_run (put_article req) s = (reply 400 "Нет данных для обновления", s)
  | _, _ =>
      exists a user,
        hd_error (filter (fun a => a_id a =? sr_params_id req) (article_rows s)) = Some a
        /\ In user (site_users s) /\ u_id user = userId
        /\ fst (site_run (put_article req) s)
           = mk_site_response 200
               (article_json "Статья успешно обновлена"
                             (Some (change_article title content a)) (u_username user))
        /\ forall a', In a' (article_rows (snd (site_run (put_article req) s)))
                      <-> a' = change_article title content a
                          \/ (In a' (article_rows s) /\ a_id a' <> sr_params_id req)
  end.
Proof.
  intros Hby [Hnd _] Hv.
  assert (Hsome : title <> None \/ content <> None ->
    exists a user,
        hd_error (filter (fun a => a_id a =? sr_params_id req) (article_rows s)) = Some a
        /\ In user (site_users s) /\ u_id user = userId
        /\ fst (site_run (put_article req) s)
           = mk_site_response 200
               (article_json "Статья успешно обновлена"
                             (Some (change_article title content a)) (u_username user))
        /\ forall a', In a' (article_rows (snd (site_run (put_article req) s)))
                      <-> a' = change_article title content a
                          \/ (In a' (article_rows s) /\ a_id a' <> sr_params_id req)).
  { intros Hs.
    destruct (put_article_by_author req s userId title content Hby Hv Hs)
      as (user & l & Hf & Hid & Hr).
    destruct (author_of_article s _ _ (by_author_article req s userId Hby))
      as (a & rest & Ha & _ & Hin & Haid).
    pose proof (one_row_of_key a_id _ _ _ _ Hnd Ha) as ->.
    exists a, user. rewrite Hr, Ha. cbn [fst snd hd_error map article_rows set_articles].
    split; [reflexivity|]. split; [apply (found_is_user s user l Hf)|].
    split; [exact Hid|]. split; [reflexivity|].
    intros a'. rewrite in_map_iff. split.
    - intros (a0 & <- & Hin0). destruct (a_id a0 =? sr_params_id req) eqn:E.
      + left. f_equal.
        assert (H0 : In a0 (filter (fun a => a_id a =? sr_params_id req) (article_rows s)))
          by (apply filter_In; now split).
        rewrite Ha in H0. now destruct H0.
      + right. split; [exact Hin0|]. now apply Z.eqb_neq.
    - intros [->|[Hin' Hne]].
      + exists a. split; [|exact Hin]. apply Z.eqb_eq in Haid. now rewrite Haid.
      + exists a'. split; [|exact Hin']. apply Z.eqb_neq in Hne. now rewrite Hne. }
  destruct title as [t|], content as [c|];
    try (apply Hsome; (left; discriminate) || (right; discriminate)).
  unfold put_article.
  match goal with |- context [guarded ?rt ?rest req] =>
    destruct (guarded_by_author rt rest req s userId Hby) as (user & l & _ & _ & ->) end.
  unfold validate_body. now rewrite Hv.
Qed.

(** A POST of an article that passes the middleware, where every statement
    is taken. *)
Lemma post_article_signed_run req s userId title content :
  sr_authorization req = token_of userId -> is_user (db_of s) userId ->
  articleSchemas_create (sr_body req) = inr (title, content) ->
  article_keys s ->
  let row := mk_article (articles_id_seq s) title content userId in
  let s' := snd (site_run (post_article req) s) in
  (exists user, In user (site_users s) /\ u_id user = userId
                /\ fst (site_run (post_article req) s)
                   = mk_site_response 201
                       (article_json "Статья успешно создана" (Some row) (u_username user)))
  /\ s' = set_articles (article_rows s ++ [row]) (articles_id_seq s + 1) s
  /\ body_title (sr_body req) = text title /\ body_content (sr_body req) = text content
  /\ author_of Article s' (articles_id_seq s) = Some userId.
Proof.
  intros Ha Hu Hv [_ Hlt] row s'. subst row s'.
  destruct (site_authenticate_accepts req s userId Ha Hu) as (user & l & Hr & Hid & Hf).
  rewrite (post_article_signed req s user l title content Hr Hf Hv), Hid. cbn [fst snd].
  destruct (articleSchemas_create_sized _ _ _ Hv) as (Et & Ec & _).
  split; [|split; [reflexivity|split; [exact Et|split; [exact Ec|]]]].
  - exists user. split; [apply (found_is_user s user l Hf)|]. split; [exact Hid|reflexivity].
  - unfold author_of. cbn [article_rows set_articles]. rewrite filter_app.
    replace (filter _ (article_rows s)) with (@nil article_row).
    + cbn [filter a_id app]. now rewrite Z.eqb_refl.
    + symmetry. apply filter_nil_iff. intros a Hin. apply Z.eqb_neq.
      specialize (Hlt a Hin). lia.
Qed.

(** ** Commenting *)


(** X27.  A DELETE of a comment by its author is answered 200 with the
    content and takes with the comment the reactions to it, and nothing
    else: every other comment and every other reaction to a comment is
    still there, and the articles, the reactions to articles and the users
    are as before. *)
Theorem delete_comment_takes_its_reactions {B : Set} (req : site_request B) s userId :
  by_author "comment" s req userId ->
  let id := sr_params_id req in
  let s' := snd (site_run (delete_comment_route req) s) in
  (exists c, hd_error (filter (fun c => c_id c =? id) (comment_rows s)) = Some c
             /\ c_author c = userId
             /\ fst (site_run (delete_comment_route req) s)
                = mk_site_response 200
                    (deleted_json "Комментарий успешно удален" (c_content c)))
  /\ (forall c, In c (comment_rows s') <-> In c (comment_rows s) /\ c_id c <> id)
  /\ (forall r, In r (site_comment_reactions s')
                <-> In r (site_comment_reactions s) /\ ar_subject r <> id)
  /\ article_rows s' = article_rows s
  /\ site_article_reactions s' = site_article_reactions s
  /\ site_users s' = site_users s.
Proof.
  intros Hby id s'. subst s'.
  destruct (delete_comment_by_author req s userId Hby) as (c & rest & Hf & Hau & Hr).
  rewrite Hr. cbn [fst snd]. fold id in Hf |- *. split; [|split; [|split; [|repeat split]]].
  - exists c. rewrite Hf. auto.
  - intros c'. cbn [comment_rows without_comment]. rewrite filter_In, negb_true_iff, Z.eqb_neq.
    reflexivity.
  - intros r. cbn [site_comment_reactions without_comment].
    rewrite filter_In, negb_true_iff, Z.eqb_neq. reflexivity.
Qed.

(** ** The earlier revision of the reaction routes *)

Lemma earlier_route_accepted h req s userId reaction_id :
  accepted (db_of s) req userId reaction_id ->
  site_run (earlier_route h req) s = site_run (h (params_id req) reaction_id userId) s.
Proof.
  intros (Ha & Hu & Hb & Hpos).
  destruct (authenticateToken_accepts req (db_of s) userId Ha Hu) as (user & Hid & Hrun & _).
  unfold earlier_route. rewrite site_run_next.
  destruct (site_run_lift (fun r => r) (authenticateToken req) s) as [-> _].
  rewrite Hrun. cbn [fst snd]. rewrite absorb_db_of.
  unfold validate, reactionSchemas_create. rewrite Hb, Hid.
  apply Z.ltb_lt in Hpos. now rewrite Hpos.
Qed.

Lemma db_of_set_assignments t rows s :
  db_of (absorb (set_assignments t rows (db_of s)) s) = set_assignments t rows (db_of s).
Proof. now destruct t. Qed.


Lemma exec_insert_new_triple t s u k d :
  is_subject t d s -> is_user d u -> is_kind d k ->
  existsb (same_triple s u k) (assignments t d) = false ->
  exec (insert_assignment t s u k) d = (inr [id_seq t d], with_new_row t s u k d).
Proof.
  intros Hs Hu Hk Hno. simpl. rewrite Hno, !existsb_filter.
  apply is_subject_filter in Hs. apply is_user_filter in Hu. apply is_kind_filter in Hk.
  destruct (filter _ (subjects t d)); [easy|].
  destruct (filter _ (users d)); [easy|].
  destruct (filter _ (reactions d)); [easy|]. reflexivity.
Qed.

(** The POST of the earlier revision, case by case. *)
Lemma earlier_post_reaction_run t subject k u s :
  is_user (db_of s) u ->
  site_run (earlier_post_reaction t subject k u) s =
  match filter (fun x => x =? subject) (subjects t (db_of s)) with
  | [] => (res_status 404 (msg (subject_not_found t)), s)
  | _ :: _ =>
      match filter (fun r => r_id r =? k) (reactions (db_of s)) with
      | [] => (res_status 404 (msg "Реакция не найдена"), s)
      | reaction :: _ =>
          if existsb (same_triple subject u k) (assignments t (db_of s)) then
            (res_status 400 (msg "Вы уже поставили эту реакцию"), s)
          else
            (res_status 201 (saved "Реакция успешно добавлена" (id_seq t (db_of s)) subject u k
                                   (r_emoji reaction) (r_name reaction)),
             absorb (with_new_row t subject u k (db_of s)) s)
      end
  end.
Proof.
  intros Hu. unfold earlier_post_reaction, site_try.
  cbn [site_run site_exec]. cbn [exec]. rewrite absorb_db_of, rows_length_0.
  destruct (filter _ (subjects t (db_of s))) as [|x xs] eqn:Es; [reflexivity|].
  cbn [site_run site_exec]. cbn [exec]. rewrite absorb_db_of, rows_length_0.
  destruct (filter _ (reactions (db_of s))) as [|reaction kinds] eqn:Ek; [reflexivity|].
  cbn [site_run site_exec]. rewrite rows_length_pos, existsb_filter.
  destruct (filter (same_triple subject u k) _) as [|row rows] eqn:Et; [|reflexivity].
  cbn [map]. cbn [site_run site_exec].
  rewrite (exec_insert_new_triple t subject u k (db_of s)); [reflexivity| | | |].
  - apply is_subject_filter. now rewrite Es.
  - exact Hu.
  - apply is_kind_filter. now rewrite Ek.
  - now rewrite existsb_filter, Et.
Qed.

(** The DELETE of the earlier revision, case by case. *)
Lemma earlier_delete_reaction_run t subject k u s :
  site_run (earlier_delete_reaction t subject k u) s =
  match filter (fun x => x =? subject) (subjects t (db_of s)) with
  | [] => (res_status 404 (msg (subject_not_found t)), s)
  | _ :: _ =>
      (if existsb (same_triple subject u k) (assignments t (db_of s))
       then res_json (msg "Реакция успешно удалена")
       else res_status 404 (msg "Реакция не найдена"),
       absorb (without_triple t subject u k (db_of s)) s)
  end.
Proof.
  unfold earlier_delete_reaction, site_try.
  cbn [site_run site_exec]. cbn [exec]. rewrite absorb_db_of, rows_length_0.
  destruct (filter _ (subjects t (db_of s))) as [|x xs] eqn:Es; [reflexivity|].
  cbn [site_run site_exec]. rewrite rows_length_0, existsb_filter.
  now destruct (filter (same_triple subject u k) _).
Qed.

Lemma held_without_triple t s u k d :
  held t s u (without_triple t s u k d)
  = filter (fun row => negb (ar_reaction row =? k)) (held t s u d).
Proof.
  unfold held, without_triple. rewrite assignments_set, filter_comm.
  induction (assignments t d) as [|row l IH]; [reflexivity|]. cbn [filter].
  destruct (of_pair s u row) eqn:E; [|exact IH]. cbn [filter]. rewrite IH.
  unfold same_triple. unfold of_pair in E. apply andb_true_iff in E as [-> ->].
  reflexivity.
Qed.


(** The DELETE of the earlier revision for a request that passed the
    middleware, where every statement is taken. *)
Lemma earlier_delete_run t req s userId reaction_id :
  accepted (db_of s) req userId reaction_id ->
  is_subject t (db_of s) (params_id req) ->
  let out := site_run (earlier_route (earlier_delete_reaction t) req) s in
  fst out = (if existsb (same_triple (params_id req) userId reaction_id)
                        (assignments t (db_of s))
             then res_json (msg "Реакция успешно удалена")
             else res_status 404 (msg "Реакция не найдена"))
  /\ db_of (snd out) = without_triple t (params_id req) userId reaction_id (db_of s)
  /\ held t (params_id req) userId (db_of (snd out))
     = filter (fun row => negb (ar_reaction row =? reaction_id))
              (held t (params_id req) userId (db_of s)).
Proof.
  intros Hacc Hs out. subst out.
  rewrite (earlier_route_accepted _ req s userId reaction_id Hacc).
  rewrite earlier_delete_reaction_run.
  apply is_subject_filter in Hs.
  destruct (filter _ (subjects t (db_of s))); [easy|]. cbn [fst snd].
  split; [reflexivity|]. unfold without_triple at 1 2. rewrite db_of_set_assignments.
  split; [reflexivity|]. apply held_without_triple.
Qed.

Lemma existsb_same_in {X : Type} (f g : X -> bool) (l : list X) :
  (forall x, In x l -> f x = g x) -> existsb f l = existsb g l.
Proof.
  induction l as [|a l IH]; intros H; [reflexivity|]. cbn [existsb].
  rewrite (H a (or_introl eq_refl)), IH; [reflexivity|].
  intros x Hx. apply H. now right.
Qed.

Lemma triple_of_held t s u k d :
  (forall row, In row (held t s u d) -> ar_reaction row = k) ->
  forall row, In row (assignments t d) -> same_triple s u k row = of_pair s u row.
Proof.
  intros Hk row Hin. unfold same_triple. fold (of_pair s u row).
  destruct (of_pair s u row) eqn:E; [|reflexivity].
  assert (Hh : In row (held t s u d)) by (apply filter_In; now split).
  apply Hk in Hh. subst k. cbn [andb]. apply Z.eqb_refl.
Qed.

(** The two revisions where every statement is taken. *)
Lemma revisions_agree_run t req s userId reaction_id :
  accepted (db_of s) req userId reaction_id ->
  (forall row, In row (held t (params_id req) userId (db_of s)) ->
               ar_reaction row = reaction_id) ->
  site_run (earlier_route (earlier_post_reaction t) req) s
  = site_run (lift (fun r => r) (route reactionSchemas_create (post_reaction t) req)) s
  /\ site_run (earlier_route (earlier_delete_reaction t) req) s
     = site_run (lift (fun r => r) (route reactionSchemas_create (delete_reaction t) req)) s.
Proof.
  intros Hacc Hall. pose proof Hacc as (_ & Hu & _).
  pose proof (triple_of_held t _ _ _ _ Hall) as Hsame.
  assert (He : existsb (same_triple (params_id req) userId reaction_id)
                       (assignments t (db_of s))
               = match held t (params_id req) userId (db_of s) with
                 | [] => false | _ :: _ => true end).
  { rewrite (existsb_same_in _ _ _ Hsame), existsb_filter. reflexivity. }
  split.
  - rewrite (earlier_route_accepted _ req s userId reaction_id Hacc).
    destruct (site_run_lift (fun r => r)
                (route reactionSchemas_create (post_reaction t) req) s) as [-> _].
    destruct (route_accepted (post_reaction t) req (db_of s) userId reaction_id Hacc)
      as (-> & _).
    rewrite (earlier_post_reaction_run t _ _ _ s Hu), He.
    destruct (is_subject_dec t (db_of s) (params_id req)) as [Hs|Hs].
    2:{ destruct (post_reaction_no_subject t (params_id req) reaction_id userId (db_of s) Hs)
          as [-> _].
        rewrite is_subject_filter in Hs. cbn [fst snd]. rewrite absorb_db_of.
        destruct (filter _ (subjects t (db_of s))); [reflexivity|]. now destruct Hs. }
    destruct (is_kind_dec (db_of s) reaction_id) as [Hk|Hk].
    2:{ destruct (post_reaction_no_kind t (params_id req) reaction_id userId (db_of s) Hs Hk)
          as [-> _].
        rewrite is_subject_filter in Hs. rewrite is_kind_filter in Hk.
        cbn [fst snd]. rewrite absorb_db_of.
        destruct (filter _ (subjects t (db_of s))); [easy|].
        destruct (filter _ (reactions (db_of s))); [reflexivity|]. now destruct Hk. }
    destruct (held t (params_id req) userId (db_of s)) as [|row rest] eqn:Hh.
    + destruct (post_reaction_insert t _ reaction_id userId (db_of s) Hs Hk Hu Hh)
        as (-> & _).
      unfold kind_row. rewrite is_subject_filter in Hs. rewrite is_kind_filter in Hk.
      destruct (filter _ (subjects t (db_of s))); [easy|].
      destruct (filter _ (reactions (db_of s))); [easy|]. reflexivity.
    + destruct (post_reaction_same_kind t _ reaction_id userId (db_of s) row rest Hs Hk Hh
                  (Hall row (or_introl eq_refl))) as (-> & _).
      rewrite is_subject_filter in Hs. rewrite is_kind_filter in Hk.
      cbn [fst snd]. rewrite absorb_db_of.
      destruct (filter _ (subjects t (db_of s))); [easy|].
      destruct (filter _ (reactions (db_of s))); [easy|]. reflexivity.
  - rewrite (earlier_route_accepted _ req s userId reaction_id Hacc).
    destruct (site_run_lift (fun r => r)
                (route reactionSchemas_create (delete_reaction t) req) s) as [-> _].
    destruct (route_accepted (delete_reaction t) req (db_of s) userId reaction_id Hacc)
      as (-> & _).
    rewrite earlier_delete_reaction_run, He.
    destruct (is_subject_dec t (db_of s) (params_id req)) as [Hs|Hs].
    2:{ rewrite (delete_reaction_no_subject t (params_id req) reaction_id userId (db_of s) Hs).
        rewrite is_subject_filter in Hs. cbn [fst snd]. rewrite absorb_db_of.
        destruct (filter _ (subjects t (db_of s))); [reflexivity|]. now destruct Hs. }
    destruct (delete_reaction_subject t (params_id req) reaction_id userId (db_of s) Hs)
      as [-> _].
    rewrite is_subject_filter in Hs.
    destruct (filter _ (subjects t (db_of s))); [easy|]. cbn [fst snd].
    replace (without_triple t (params_id req) userId reaction_id (db_of s))
      with (without_pair t (params_id req) userId (db_of s)).
    + now destruct (held t (params_id req) userId (db_of s)).
    + unfold without_pair, without_triple. f_equal. apply filter_ext_in.
      intros row Hin. now rewrite (Hsame row Hin).
Qed.

(** ** Statements PostgreSQL refuses, on the site *)

Lemma site_pg_run_run {R : Type} (p : site_prog R) s :
  site_unrefused p s -> site_pg_run p s = site_run p s.
Proof.
  revert s. induction p as [r|q k IH]; intros s; simpl; [auto|].
  intros [Hr Hu]. unfold site_pg_exec. rewrite Hr. destruct (site_exec q s) as [x s'].
  simpl in Hu. now apply IH.
Qed.

Lemma site_refused_on_db q s : site_refused (on_db q) s = refused q (db_of s).
Proof.
  unfold site_refused, refused. cbn [site_texts forallb negb site_parameters].
  destruct (forallb is_integer (parameters q)); [|reflexivity]. cbn [negb].
  destruct q; reflexivity.
Qed.

Lemma site_unrefused_next {A R : Type} (p : site_prog (R + A)) (next : A -> site_prog R) s :
  site_unrefused p s ->
  (forall a s', site_run p s = (inr a, s') -> site_unrefused (next a) s') ->
  site_unrefused (site_next p next) s.
Proof.
  revert s. induction p as [[answered|a]|q k IH]; intros s; simpl.
  - auto.
  - intros _ H. now apply H.
  - intros [Hr Hu] H. split; [exact Hr|]. destruct (site_exec q s) as [x s'].
    simpl in Hu |- *. now apply IH.
Qed.

Lemma site_unrefused_lift {R S : Type} (f : R -> S) (p : prog R) s :
  unrefused p (db_of s) -> site_unrefused (lift f p) s.
Proof.
  revert s. induction p as [r|q k IH]; intros s; simpl; [auto|].
  intros [Hr Hu]. split; [now rewrite site_refused_on_db|].
  destruct (exec_frame q (db_of s)) as (Eu & Ea & Ec & Er).
  destruct (exec q (db_of s)) as [x d']. simpl in *.
  apply IH. now rewrite (db_of_absorb d' s).
Qed.

Lemma site_authenticate_unrefused {B : Set} (req : site_request B) s userId :
  sr_authorization req = token_of userId -> in_integer userId ->
  site_unrefused (site_authenticate req) s.
Proof.
  intros Ha Hu. unfold site_authenticate. apply site_unrefused_lift.
  now apply (authenticateToken_unrefused _ _ userId).
Qed.

Lemma site_refused_none q s :
  forallb no_nul (site_texts q) = true ->
  forallb is_integer (site_parameters q) = true ->
  value_left q s = true ->
  site_refused q s = None.
Proof. unfold site_refused. now intros -> -> ->. Qed.

Lemma checkAuthor_unrefused {B : Set} resourceType (req : site_request B) user s :
  in_integer (sr_params_id req) -> site_unrefused (checkAuthor resourceType req user) s.
Proof.
  intros Hid. unfold checkAuthor, site_try.
  destruct (resource_table resourceType) as [t|]; [|exact I].
  apply is_integer_spec in Hid. cbn [site_unrefused]. split.
  - apply site_refused_none; cbn [site_texts site_parameters forallb value_left];
      rewrite ?Hid; reflexivity.
  - destruct (site_exec (select_author t (sr_params_id req)) s) as [[e|[|a l]] s'];
      cbn [fst snd]; try exact I. now destruct (a =? u_id user).
Qed.

(** Behind the guard, for the author: nothing is refused when the ids are
    INTEGERs and the rest of the chain is not refused either. *)
Lemma guarded_unrefused {B : Set} resourceType rest (req : site_request B) s userId :
  by_author resourceType s req userId ->
  in_integer userId -> in_integer (sr_params_id req) ->
  (forall user, u_id user = userId -> site_unrefused (rest user) s) ->
  site_unrefused (guarded resourceType rest req) s.
Proof.
  intros Hby Hu Hid Hrest. pose proof Hby as (Ha & Hin & _).
  destruct (site_authenticate_accepts req s userId Ha Hin) as (user & l & Hr & Huid & _).
  unfold guarded. apply site_unrefused_next.
  - now apply (site_authenticate_unrefused req s userId).
  - intros user' s'. rewrite Hr. intros [= <- <-].
    apply site_unrefused_next; [now apply checkAuthor_unrefused|].
    intros [] s'. rewrite checkAuthor_run. intros [= _ <-]. now apply Hrest.
Qed.

(** The tail of the article and comment handlers: the lookup of the
    author's name. *)
Lemma author_data_unrefused (user : user_row) s (answer : list user_row -> site_response) :
  in_integer (u_id user) ->
  site_unrefused
    (authorResult <-- select_author_data (u_id user) or site_server_error ;;
     match authorResult with
     | [] => Done site_server_error
     | author :: _ => Done (answer authorResult)
     end) s.
Proof.
  intros Hu. apply is_integer_spec in Hu. unfold site_try. cbn [site_unrefused]. split.
  - apply site_refused_none; cbn [site_texts site_parameters forallb value_left];
      rewrite ?Hu; reflexivity.
  - now destruct (site_exec (select_author_data (u_id user)) s) as [[e|[|a l]] s'].
Qed.

Ltac taken :=
  apply site_refused_none; cbn [site_texts site_parameters parameters forallb value_left app];
  repeat match goal with
         | H : is_integer _ = true |- _ => rewrite H
         | H : no_nul _ = true |- _ => rewrite H
         end;
  reflexivity.

Lemma put_article_unrefused req s userId title content :
  by_author "article" s req userId ->
  articleSchemas_update (sr_body req) = inr (title, content) ->
  in_integer userId -> in_integer (sr_params_id req) ->
  (forall x, title = Some x \/ content = Some x -> no_nul x = true) ->
  site_unrefused (put_article req) s.
Proof.
  intros Hby Hv Hu Hid Htext. unfold put_article.
  apply (guarded_unrefused "article" _ req s userId Hby Hu Hid).
  intros user Huid. unfold validate_body. rewrite Hv.
  apply is_integer_spec in Hid. rewrite <- Huid in Hu. apply is_integer_spec in Hu.
  destruct title as [t|], content as [c|]; try exact I;
    try (pose proof (Htext t (or_introl eq_refl)) as Ht);
    try (pose proof (Htext c (or_intror eq_refl)) as Hc);
    unfold site_try; cbn [site_unrefused]; (split; [taken|]);
    match goal with
    | |- context [site_exec ?q ?s0] => destruct (site_exec q s0) as [[e|rows] s']
    end; cbn [fst snd]; try exact I; cbn [site_unrefused]; (split; [taken|]);
    match goal with
    | |- context [site_exec ?q ?s0] => destruct (site_exec q s0) as [[e|[|a l]] s'']
    end; exact I.
Qed.

(** X24.  A PUT of an article by its author, with a body the schema lets
    through, the ids of the user and of the article being INTEGERs and
    the texts of the body free of the character of code 0: with neither
    title nor content in the body the answer is 400 and nothing is
    written; else the answer is 200 with the row as it now is, which has
    the title and the content of the body, where there, and the old ones
    else, and (the id being a primary key) it is the one row written: the
    rows of the table are the new row and the rows with another id. *)
Theorem put_article_writes_what_was_sent req s userId title content :
  by_author "article" s req userId -> article_keys s ->
  articleSchemas_update (sr_body req) = inr (title, content) ->
  in_integer userId -> in_integer (sr_params_id req) ->
  (forall x, title = Some x \/ content = Some x -> no_nul x = true) ->
  match title, content with
  | None, None =>
      site_pg_run (put_article req) s = (reply 400 "Нет данных для обновления", s)
  | _, _ =>
      exists a user,
        hd_error (filter (fun a => a_id a =? sr_params_id req) (article_rows s)) = Some a
        /\ In user (site_users s) /\ u_id user = userId
        /\ fst (site_pg_run (put_article req) s)
           = mk_site_response 200
               (article_json "Статья успешно обновлена"
                             (Some (change_article title content a)) (u_username user))
        /\ forall a', In a' (article_rows (snd (site_pg_run (put_article req) s)))
                      <-> a' = change_article title content a
                          \/ (In a' (article_rows s) /\ a_id a' <> sr_params_id req)
  end.
Proof.
  intros Hby Hkeys Hv Hu Hid Htext.
  rewrite (site_pg_run_run _ s (put_article_unrefused req s userId title content
                                  Hby Hv Hu Hid Htext)).
  exact (put_article_by_author_run req s userId title content Hby Hkeys Hv).
Qed.

Lemma post_article_unrefused req s userId title content :
  sr_authorization req = token_of userId -> is_user (db_of s) userId ->
  articleSchemas_create (sr_body req) = inr (title, content) ->
  in_integer userId -> no_nul title = true -> no_nul content = true ->
  in_integer (articles_id_seq s) ->
  site_unrefused (post_article req) s.
Proof.
  intros Ha Hin Hv Hu Ht Hc Hq.
  destruct (site_authenticate_accepts req s userId Ha Hin) as (user & l & Hr & Huid & _).
  unfold post_article. apply site_unrefused_next.
  - now apply (site_authenticate_unrefused req s userId).
  - intros user' s'. rewrite Hr. intros [= <- <-].
    unfold validate_body. rewrite Hv.
    rewrite <- Huid in Hu. apply is_integer_spec in Hu, Hq.
    unfold site_try; cbn [site_unrefused]; (split; [taken|]).
    match goal with
    | |- context [site_exec ?q ?s0] => destruct (site_exec q s0) as [[e|rows] s']
    end; cbn [fst snd]; try exact I; cbn [site_unrefused]; (split; [taken|]).
    match goal with
    | |- context [site_exec ?q ?s0] => destruct (site_exec q s0) as [[e|[|a l']] s'']
    end; exact I.
Qed.

(** X25.  A new article belongs to the one who posted it: a POST with the
    token of a registered user whose id is an INTEGER and a body the schema
    lets through, its texts free of the character of code 0, the sequence
    of the table having a value left, is answered 201 with a row that has
    the next id of the sequence, the title and the content of the body and
    the user as author; that row is added to the table and nothing else
    changes; and, the ids being below the sequence, [checkAuthor] then
    finds that user as the author of the new id. *)
Theorem new_article_belongs_to_its_poster req s userId title content :
  sr_authorization req = token_of userId -> is_user (db_of s) userId ->
  articleSchemas_create (sr_body req) = inr (title, content) ->
  article_keys s ->
  in_integer userId -> no_nul title = true -> no_nul content = true ->
  in_integer (articles_id_seq s) ->
  let row := mk_article (articles_id_seq s) title content userId in
  let s' := snd (site_pg_run (post_article req) s) in
  (exists user, In user (site_users s) /\ u_id user = userId
                /\ fst (site_pg_run (post_article req) s)
                   = mk_site_response 201
                       (article_json "Статья успешно создана" (Some row) (u_username user)))
  /\ s' = set_articles (article_rows s ++ [row]) (articles_id_seq s + 1) s
  /\ body_title (sr_body req) = text title /\ body_content (sr_body req) = text content
  /\ author_of Article s' (articles_id_seq s) = Some userId.
Proof.
  intros Ha Hin Hv Hkeys Hu Ht Hc Hq.
  rewrite (site_pg_run_run _ s (post_article_unrefused req s userId title content
                                  Ha Hin Hv Hu Ht Hc Hq)).
  exact (post_article_signed_run req s userId title content Ha Hin Hv Hkeys).
Qed.



Lemma unrefused_and_then {A R : Type} (p : prog (R + A)) (next : A -> prog R) d :
  unrefused p d ->
  (forall a d', run p d = (inr a, d') -> unrefused (next a) d') ->
  unrefused (and_then p next) d.
Proof.
  revert d. induction p as [[answered|a]|q k IH]; intros d; simpl.
  - auto.
  - intros _ H. now apply H.
  - intros [Hr Hu] H. split; [exact Hr|]. destruct (exec q d) as [x d'].
    simpl in Hu |- *. now apply IH.
Qed.

Lemma route_unrefused (h : Z -> Z -> Z -> prog response) req d userId reaction_id :
  accepted d req userId reaction_id -> in_integer userId ->
  unrefused (h (params_id req) reaction_id userId) d ->
  unrefused (route reactionSchemas_create h req) d.
Proof.
  intros (Ha & Hin & Hb & Hpos) Hu Hh.
  destruct (authenticateToken_accepts req d userId Ha Hin) as (user & Hid & Hrun & _).
  unfold route. apply unrefused_and_then.
  - now apply (authenticateToken_unrefused req d userId).
  - intros user' d'. rewrite Hrun. intros [= <- <-].
    unfold validate, reactionSchemas_create. rewrite Hb, Hid.
    apply Z.ltb_lt in Hpos. now rewrite Hpos.
Qed.

Lemma earlier_route_unrefused h req s userId reaction_id :
  accepted (db_of s) req userId reaction_id -> in_integer userId ->
  site_unrefused (h (params_id req) reaction_id userId) s ->
  site_unrefused (earlier_route h req) s.
Proof.
  intros (Ha & Hin & Hb & Hpos) Hu Hh.
  destruct (authenticateToken_accepts req (db_of s) userId Ha Hin) as (user & Hid & Hrun & _).
  unfold earlier_route. apply site_unrefused_next.
  - apply site_unrefused_lift. now apply (authenticateToken_unrefused req _ userId).
  - intros user' s'.
    destruct (site_run_lift (fun r => r) (authenticateToken req) s) as [-> _].
    rewrite Hrun. cbn [fst snd]. rewrite absorb_db_of. intros [= <- <-].
    unfold validate, reactionSchemas_create. rewrite Hb, Hid.
    apply Z.ltb_lt in Hpos. now rewrite Hpos.
Qed.

Lemma earlier_post_unrefused t subject k u s :
  in_integer subject -> in_integer k -> in_integer u ->
  in_integer (id_seq t (db_of s)) ->
  site_unrefused (earlier_post_reaction t subject k u) s.
Proof.
  intros Hs Hk Hu Hq. apply is_integer_spec in Hs, Hk, Hu, Hq.
  unfold earlier_post_reaction, site_try. cbn [site_unrefused].
  split; [taken|]. cbn [site_exec exec fst snd]. rewrite absorb_db_of.
  destruct (rows_length _ =? 0); [exact I|]. cbn [site_unrefused].
  split; [taken|]. cbn [site_exec exec fst snd]. rewrite absorb_db_of.
  destruct (rows_length _ =? 0); [exact I|]. cbn [site_unrefused].
  split; [taken|]. cbn [site_exec fst snd].
  destruct (0 <? _); [exact I|]. cbn [site_unrefused].
  split; [taken|].
  destruct (site_exec (on_db (insert_assignment t subject u k)) s) as [[e|[|id ids]] s'];
    cbn [fst snd]; try exact I. now destruct (filter _ (reactions (db_of s))).
Qed.

Lemma earlier_delete_unrefused t subject k u s :
  in_integer subject -> in_integer k -> in_integer u ->
  site_unrefused (earlier_delete_reaction t subject k u) s.
Proof.
  intros Hs Hk Hu. apply is_integer_spec in Hs, Hk, Hu.
  unfold earlier_delete_reaction, site_try. cbn [site_unrefused].
  split; [taken|]. cbn [site_exec exec fst snd]. rewrite absorb_db_of.
  destruct (rows_length _ =? 0); [exact I|]. cbn [site_unrefused].
  split; [taken|]. cbn [site_exec fst snd]. now destruct (rows_length _ =? 0).
Qed.

(** X29.  In the earlier revision a DELETE takes the kind of the body and
    no other: for a request that passes the middleware, the ids of the
    user, the subject and the kind being INTEGERs, on a subject that is
    there, the answer is 200 when the user holds that kind on the subject
    and 404 when not, and the user then holds on the subject the rows of
    the other kinds, as before. *)
Theorem earlier_delete_takes_one_kind t req s userId reaction_id :
  accepted (db_of s) req userId reaction_id ->
  in_integer userId -> in_integer (params_id req) -> in_integer reaction_id ->
  is_subject t (db_of s) (params_id req) ->
  let out := site_pg_run (earlier_route (earlier_delete_reaction t) req) s in
  fst out = (if existsb (same_triple (params_id req) userId reaction_id)
                        (assignments t (db_of s))
             then res_json (msg "Реакция успешно удалена")
             else res_status 404 (msg "Реакция не найдена"))
  /\ db_of (snd out) = without_triple t (params_id req) userId reaction_id (db_of s)
  /\ held t (params_id req) userId (db_of (snd out))
     = filter (fun row => negb (ar_reaction row =? reaction_id))
              (held t (params_id req) userId (db_of s)).
Proof.
  intros Hacc Hu Hs Hk Hsub out. subst out.
  rewrite (site_pg_run_run _ s
             (earlier_route_unrefused _ req s userId reaction_id Hacc Hu
                (earlier_delete_unrefused t _ _ _ s Hs Hk Hu))).
  exact (earlier_delete_run t req s userId reaction_id Hacc Hsub).
Qed.

(** X30.  The two revisions of the reaction routes part only on a user
    who holds another kind: for a request that passes the middleware, its
    ids being INTEGERs and the sequence of the table having a value left,
    when every row the user holds on the subject is of the kind of the
    body (as when the user holds none), the POST and the DELETE of the
    earlier revision answer what those of the later revision answer and
    leave the site in the same state. *)
Theorem revisions_agree_on_one_kind t req s userId reaction_id :
  accepted (db_of s) req userId reaction_id ->
  in_range t (db_of s) req userId reaction_id ->
  (forall row, In row (held t (params_id req) userId (db_of s)) ->
               ar_reaction row = reaction_id) ->
  site_pg_run (earlier_route (earlier_post_reaction t) req) s
  = site_pg_run (lift (fun r => r) (route reactionSchemas_create (post_reaction t) req)) s
  /\ site_pg_run (earlier_route (earlier_delete_reaction t) req) s
     = site_pg_run (lift (fun r => r) (route reactionSchemas_create (delete_reaction t) req)) s.
Proof.
  intros Hacc (Iu & Is & Ik & Iq) Hall.
  rewrite (site_pg_run_run _ s
             (earlier_route_unrefused _ req s userId reaction_id Hacc Iu
                (earlier_post_unrefused t _ _ _ s Is Ik Iu Iq))).
  rewrite (site_pg_run_run _ s
             (earlier_route_unrefused _ req s userId reaction_id Hacc Iu
                (earlier_delete_unrefused t _ _ _ s Is Ik Iu))).
  rewrite (site_pg_run_run _ s
             (site_unrefused_lift _ _ s
                (route_unrefused _ req (db_of s) userId reaction_id Hacc Iu
                   (post_reaction_unrefused t _ _ _ (db_of s) Is Ik Iu (fun _ _ => Iq))))).
  rewrite (site_pg_run_run _ s
             (site_unrefused_lift _ _ s
                (route_unrefused _ req (db_of s) userId reaction_id Hacc Iu
                   (delete_reaction_unrefused t _ reaction_id _ (db_of s) Is Iu)))).
  exact (revisions_agree_run t req s userId reaction_id Hacc Hall).
Qed.

(** ** The theorems at work on the small store *)

Ltac known :=
  lazymatch goal with
  | |- accepted _ _ _ _ =>
      split; [reflexivity | split; [apply is_user_filter; vm_compute; discriminate
                                   | split; reflexivity]]
  | |- is_user _ _ => apply is_user_filter; vm_compute; discriminate
  | |- is_subject _ _ _ => apply is_subject_filter; vm_compute; discriminate
  | |- is_kind _ _ => apply is_kind_filter; vm_compute; discriminate
  | |- ~ is_subject _ _ _ => rewrite is_subject_filter; vm_compute; tauto
  | |- ~ is_kind _ _ => rewrite is_kind_filter; vm_compute; tauto
  | |- single_assignment _ => apply single_assignmentb_spec; vm_compute; reflexivity
  | |- in_integer _ => unfold in_integer; vm_compute; intuition discriminate
  | |- in_range _ _ _ _ _ => unfold in_range, in_integer; vm_compute; intuition discriminate
  end.

Lemma reaction_operations_keep_single_assignment_witness :
  single_assignment ann_likes
  /\ single_assignment
       (snd (serve [assignReaction Article (as_user 1 10 2);
                    removeReaction Article (as_user 2 10 2);
                    assignReaction Comment (as_user 2 20 3);
                    removeReaction Article (as_user 1 10 7)] ann_likes)).
Proof.
  split; [known|]. apply reaction_operations_keep_single_assignment. known.
Defined.





Lemma remove_reaction_ignores_kind_witness :
  accepted ann_likes (as_user 1 10 1) 1 1
  /\ accepted ann_likes (as_user 1 10 6) 1 6
  /\ run (delete_article_reaction (as_user 1 10 1)) ann_likes
     = run (delete_article_reaction (as_user 1 10 6)) ann_likes.
Proof.
  assert (H1 : accepted ann_likes (as_user 1 10 1) 1 1) by known.
  assert (H6 : accepted ann_likes (as_user 1 10 6) 1 6) by known.
  repeat (split; [assumption|]).
  exact (proj1 (remove_reaction_ignores_kind Article (as_user 1 10 1) (as_user 1 10 6)
                  1 1 6 ann_likes H1 H6 eq_refl)).
Defined.



Lemma reaction_summary_counts_witness :
  NoDup (map r_id (reactions three_reactions))
  /\ exists views,
       run (subject_reactions Article (Some (mk_user 2 "bob")) 10) three_reactions
       = (Some views, three_reactions)
       /\ Permutation views
            (map (expected_view Article (Some (mk_user 2 "bob")) 10 three_reactions)
                 (reactions three_reactions)).
Proof.
  assert (Hr : NoDup (map r_id (reactions three_reactions))).
  { vm_compute. repeat (constructor; [simpl; intuition discriminate|]). constructor. }
  split; [exact Hr|].
  destruct (proj1 (reaction_summary_counts Article (Some (mk_user 2 "bob")) 10
                     three_reactions Hr)) as (views & Hrun & Hperm & _).
  exists views. split; assumption.
Defined.

(** ** The further theorems at work *)

Lemma single_assignment_unique_triples d : single_assignment d -> unique_triples d.
Proof.
  intros H t s u k. specialize (H t s u). unfold held in H.
  rewrite <- (filter_filter_other (same_triple s u k) (of_pair s u))
    by apply same_triple_of_pair.
  etransitivity; [apply filter_length_le | exact H].
Qed.

Lemma three_reactions_schema : schema_constraints three_reactions.
Proof.
  split; [|split].
  - intros [|]; split; vm_compute.
    + repeat (constructor; [simpl; intuition discriminate|]). constructor.
    + intros row [<-|[<-|[<-|[]]]]; reflexivity.
    + constructor.
    + intros row [].
  - apply single_assignment_unique_triples. known.
  - intros [|] row Hin; vm_compute in Hin; [|destruct Hin].
    destruct Hin as [<-|[<-|[<-|[]]]]; repeat split; known.
Qed.

Lemma refused_request_never_reaches_handler_witness :
  (forall userId reaction_id,
      ~ accepted ann_likes (mk_request (token_of 1) 10 (integer 0)) userId reaction_id)
  /\ run (post_article_reaction (mk_request (token_of 1) 10 (integer 0))) ann_likes
     = (res_status 400 (invalid "Ошибка валидации данных"
                          [("reaction_id", "ID реакции должно быть положительным числом")]),
        ann_likes)
  /\ snd (run (route reactionSchemas_create (post_reaction Article)
                 (mk_request (token_of 1) 10 (integer 0))) ann_likes) = ann_likes.
Proof.
  assert (H : forall userId reaction_id,
             ~ accepted ann_likes (mk_request (token_of 1) 10 (integer 0)) userId reaction_id).
  { intros u k (_ & _ & Hb & Hp). simpl in Hb. injection Hb as <-. lia. }
  split; [exact H|]. split; [reflexivity|].
  exact (proj1 (refused_request_never_reaches_handler (post_reaction Article)
                  (mk_request (token_of 1) 10 (integer 0)) ann_likes H)).
Defined.


Lemma request_touches_only_its_pair_witness :
  ~ (Article = Article /\ 10 = 10 /\ token_of 1 = token_of 2)
  /\ held Article 10 2 (snd (run (post_article_reaction (as_user 1 10 4)) three_reactions))
     = held Article 10 2 three_reactions.
Proof.
  assert (H : ~ (Article = op_type (assignReaction Article (as_user 1 10 4))
                 /\ 10 = params_id (op_request (assignReaction Article (as_user 1 10 4)))
                 /\ authorization (op_request (assignReaction Article (as_user 1 10 4)))
                    = token_of 2)).
  { intros (_ & _ & E). discriminate E. }
  split; [exact H|].
  exact (proj1 (request_touches_only_its_pair (assignReaction Article (as_user 1 10 4))
                  three_reactions Article 10 2 H)).
Defined.

Lemma requests_keep_schema_constraints_witness :
  schema_constraints three_reactions
  /\ schema_constraints
       (snd (serve [assignReaction Article (as_user 1 10 2);
                    removeReaction Article (as_user 3 10 1);
                    assignReaction Comment (as_user 2 20 7)] three_reactions)).
Proof.
  split; [exact three_reactions_schema|].
  apply requests_keep_schema_constraints. exact three_reactions_schema.
Defined.


Lemma remove_twice_is_remove_once_witness :
  accepted ann_likes (as_user 1 10 3) 1 3
  /\ is_subject Article ann_likes 10
  /\ run (delete_article_reaction (as_user 1 10 3))
         (snd (run (delete_article_reaction (as_user 1 10 3)) ann_likes))
     = (res_status 404 (msg "Реакция не найдена"),
        snd (run (delete_article_reaction (as_user 1 10 3)) ann_likes)).
Proof.
  assert (Ha : accepted ann_likes (as_user 1 10 3) 1 3) by known.
  assert (Hs : is_subject Article ann_likes 10) by known.
  repeat (split; [assumption|]).
  exact (remove_twice_is_remove_once Article (as_user 1 10 3) 1 3 ann_likes Ha Hs).
Defined.

Lemma get_does_not_disturb_a_writer_witness :
  interleave read_in_between (post_article_reaction (as_user 1 10 2))
             (get_reactions Article 10) ann_likes
  = (Ret (fst (run (post_article_reaction (as_user 1 10 2)) ann_likes)),
     Ret (fst (run (get_reactions Article 10) (without_pair Article 10 1 ann_likes))),
     snd (run (post_article_reaction (as_user 1 10 2)) ann_likes))
  /\ run (post_article_reaction (as_user 1 10 2)) ann_likes
     = (res_status 201 (saved "Реакция успешно изменена" 2 10 1 2 "👎" "dislike"),
        snd (run (post_article_reaction (as_user 1 10 2)) ann_likes)).
Proof.
  assert (E : interleave read_in_between (post_article_reaction (as_user 1 10 2))
                         (get_reactions Article 10) ann_likes
              = (Ret (fst (run (post_article_reaction (as_user 1 10 2)) ann_likes)),
                 Ret (fst (run (get_reactions Article 10)
                               (without_pair Article 10 1 ann_likes))),
                 snd (run (post_article_reaction (as_user 1 10 2)) ann_likes)))
    by (vm_compute; reflexivity).
  split; [exact E|].
  exact (proj1 (get_does_not_disturb_a_writer _ Article 10 read_in_between _ _ ann_likes _ E)).
Defined.

Lemma insert_is_atomic_witness :
  accepted demo (as_user 1 10 1) 1 1
  /\ is_subject Article demo 10
  /\ is_kind demo 1
  /\ held Article 10 1 demo = []
  /\ atomic_for (post_article_reaction (as_user 1 10 1)) (get_reactions Article 10) demo.
Proof.
  assert (Ha : accepted demo (as_user 1 10 1) 1 1) by known.
  assert (Hs : is_subject Article demo 10) by known.
  assert (Hk : is_kind demo 1) by known.
  assert (Hh : held Article 10 1 demo = []) by reflexivity.
  repeat (split; [assumption|]).
  exact (insert_is_atomic Article (as_user 1 10 1) 1 1 demo 10 Ha Hs Hk Hh).
Defined.

Lemma seed_ids_distinct d : reactions d = seed -> NoDup (map r_id (reactions d)).
Proof.
  intros ->. simpl. repeat (constructor; [simpl; intuition discriminate|]). constructor.
Qed.

Lemma summary_counts_add_up_witness :
  NoDup (map r_id (reactions three_reactions))
  /\ (forall row, In row (assignments Article three_reactions) ->
                  is_kind three_reactions (ar_reaction row))
  /\ fst (run (subject_reactions Article None 10) three_reactions)
     = Some (map (fun r => mk_count_view r (if r_id r <=? 3 then 1 else 0) false) seed)
  /\ fold_right Z.add 0
       (map cv_count (map (fun r => mk_count_view r (if r_id r <=? 3 then 1 else 0) false) seed))
     = 3.
Proof.
  assert (Hnd : NoDup (map r_id (reactions three_reactions))) by now apply seed_ids_distinct.
  assert (Hfk : forall row, In row (assignments Article three_reactions) ->
                            is_kind three_reactions (ar_reaction row)).
  { intros row Hin. vm_compute in Hin. destruct Hin as [<-|[<-|[<-|[]]]]; known. }
  assert (Hrun : fst (run (subject_reactions Article None 10) three_reactions)
                 = Some (map (fun r => mk_count_view r (if r_id r <=? 3 then 1 else 0) false)
                             seed)) by (vm_compute; reflexivity).
  repeat (split; [assumption|]).
  exact (summary_counts_add_up Article None 10 three_reactions _ Hnd Hfk Hrun).
Defined.

Lemma summary_after_assign_flags_the_kind_witness :
  accepted three_reactions (as_user 2 10 5) 2 5
  /\ NoDup (map r_id (reactions three_reactions))
  /\ status (fst (run (post_article_reaction (as_user 2 10 5)) three_reactions)) = 201
  /\ exists v,
       In v (map (fun r => mk_count_view r (if (r_id r =? 1) || (r_id r =? 3) || (r_id r =? 5)
                                            then 1 else 0) (r_id r =? 5)) seed)
       /\ r_id (cv_kind v) = 5 /\ cv_user_reacted v = true /\ 1 <= cv_count v.
Proof.
  assert (Ha : accepted three_reactions (as_user 2 10 5) (u_id (mk_user 2 "bob")) 5) by known.
  assert (Hnd : NoDup (map r_id (reactions three_reactions))) by now apply seed_ids_distinct.
  assert (H201 : status (fst (run (handler_of (assignReaction Article (as_user 2 10 5)))
                                  three_reactions)) = 201) by reflexivity.
  split; [exact Ha|]. split; [exact Hnd|]. split; [exact H201|].
  refine (proj1 (proj2 (summary_after_assign_flags_the_kind Article (as_user 2 10 5)
                          (mk_user 2 "bob") 5 three_reactions _ Ha Hnd H201 _))).
  vm_compute. reflexivity.
Defined.

Lemma get_reactions_lists_who_reacted_witness :
  NoDup (map r_id (reactions three_reactions))
  /\ is_subject Article three_reactions 10
  /\ exists views,
       run (get_reactions Article 10) three_reactions
       = (res_json (listing views), three_reactions)
       /\ Permutation (map uv_kind views) seed
       /\ forall v, In v views -> NoDup (uv_users v).
Proof.
  assert (Hnd : NoDup (map r_id (reactions three_reactions))) by now apply seed_ids_distinct.
  assert (Hs : is_subject Article three_reactions 10) by known.
  split; [exact Hnd|]. split; [exact Hs|].
  destruct (get_reactions_lists_who_reacted Article 10 three_reactions Hnd Hs)
    as (views & Hrun & Hkinds & Hv).
  exists views. split; [exact Hrun|]. split; [exact Hkinds|].
  intros v Hin. exact (proj1 (Hv v Hin)).
Defined.

Lemma list_page_is_bounded_witness :
  1 <= 50
  /\ list_page 10 50 (mk_page_query (Some 2) (Some 1000)) (seq 1 2000)
     = Some (firstn 50 (skipn 1000 (seq 1 2000)),
             mk_pagination 2 50 2000 40 true true)
  /\ 1 <= 50 <= 50
  /\ Z.of_nat (List.length (firstn 50 (skipn 1000 (seq 1 2000)))) <= 50.
Proof.
  assert (Hc : 1 <= 50) by lia.
  assert (E : list_page 10 50 (mk_page_query (Some 2) (Some 1000)) (seq 1 2000)
              = Some (firstn 50 (skipn 1000 (seq 1 2000)),
                      mk_pagination 2 50 2000 40 true true)) by (vm_compute; reflexivity).
  split; [exact Hc|]. split; [exact E|].
  destruct (list_page_is_bounded 10 50 _ _ _ _ Hc E) as (H1 & H2 & _).
  split; [exact H1 | exact H2].
Defined.

Lemma pages_tile_the_list_witness :
  1 <= 3 <= 50
  /\ flat_map (page_rows 10 50 3 (seq 1 10)) (seq 1 4) = seq 1 10.
Proof.
  assert (Hl : 1 <= 3 <= 50) by lia.
  split; [exact Hl|].
  exact (proj1 (pages_tile_the_list 10 50 3 (seq 1 10) Hl)).
Defined.

Lemma hasNext_means_rows_beyond_witness :
  1 <= 100
  /\ list_page 20 100 (mk_page_query (Some 2) None) (seq 1 45)
     = Some (seq 21 20, mk_pagination 2 20 45 3 true true)
  /\ (true = true <-> 2 * 20 < 45).
Proof.
  assert (Hc : 1 <= 100) by lia.
  assert (E : list_page 20 100 (mk_page_query (Some 2) None) (seq 1 45)
              = Some (seq 21 20, mk_pagination 2 20 45 3 true true))
    by (vm_compute; reflexivity).
  split; [exact Hc|]. split; [exact E|].
  exact (proj1 (hasNext_means_rows_beyond 20 100 _ _ _ _ Hc E)).
Defined.

Lemma rows_past_the_cap_are_on_no_page_witness :
  1 <= 50
  /\ 50 < 60
  /\ NoDup (seq 1 200)
  /\ nth_error (seq 1 200) 55 = Some 56%nat
  /\ list_page 10 50 (mk_page_query (Some 2) (Some 60)) (seq 1 200)
     = Some (seq 61 50, mk_pagination 2 50 200 4 true true)
  /\ ~ In 56%nat (seq 61 50).
Proof.
  assert (Hc : 1 <= 50) by lia.
  assert (Hl : 50 < 60) by lia.
  assert (Hnd : NoDup (seq 1 200)) by apply seq_NoDup.
  assert (Hx : nth_error (seq 1 200) 55 = Some 56%nat) by reflexivity.
  assert (Hi : 50 <= Z.of_nat 55 < 60) by lia.
  assert (E : list_page 10 50 (mk_page_query (Some 2) (Some 60)) (seq 1 200)
              = Some (seq 61 50, mk_pagination 2 50 200 4 true true))
    by (vm_compute; reflexivity).
  repeat (split; [assumption|]).
  exact (rows_past_the_cap_are_on_no_page 10 50 (mk_page_query (Some 2) (Some 60))
           (seq 1 200) 60 55 56%nat _ _ Hc eq_refl Hl Hnd Hx Hi E).
Defined.

(** ** The theorems on articles and comments at work *)

Ltac authored :=
  split; [reflexivity|]; split; [known|]; eexists; split; reflexivity.

Lemma blog_article_keys : article_keys blog.
Proof.
  split; vm_compute.
  - repeat (constructor; [simpl; intuition discriminate|]). constructor.
  - intros a [<-|[<-|[]]]; reflexivity.
Qed.

Lemma blog_comment_keys : comment_keys blog.
Proof.
  split; vm_compute.
  - repeat (constructor; [simpl; intuition discriminate|]). constructor.
  - intros c [<-|[<-|[<-|[]]]]; reflexivity.
Qed.

Lemma blog_constraints : site_constraints blog.
Proof.
  split; [exact blog_article_keys|]. split; [exact blog_comment_keys|]. split; [split|].
  - intros a [<-|[<-|[]]]; known.
  - intros c [<-|[<-|[<-|[]]]]; split; known.
  - split; [|split].
    + intros [|]; split; vm_compute.
      * repeat (constructor; [simpl; intuition discriminate|]). constructor.
      * intros row [<-|[]]; reflexivity.
      * repeat (constructor; [simpl; intuition discriminate|]). constructor.
      * intros row [<-|[<-|[]]]; reflexivity.
    + apply single_assignment_unique_triples. known.
    + intros [|] row Hin; vm_compute in Hin.
      * destruct Hin as [<-|[]]; repeat split; known.
      * destruct Hin as [<-|[<-|[]]]; repeat split; known.
Qed.

Lemma blog_texts_sized : texts_sized blog.
Proof.
  split.
  - intros a [<-|[<-|[]]]; unfold sized; simpl; lia.
  - intros c [<-|[<-|[<-|[]]]]; unfold sized; simpl; lia.
Qed.

(** Bob asks to retitle ann's article. *)
Lemma only_the_author_gets_past_checkAuthor_witness :
  (forall userId,
      ~ by_author "article" blog (signed 2 10 (mk_article_body (text "Mine now") missing))
                  userId)
  /\ exists answered,
       site_run (put_article (signed 2 10 (mk_article_body (text "Mine now") missing))) blog
       = (answered, blog)
       /\ In (site_status answered) [400; 401; 403; 404; 500].
Proof.
  assert (H : forall userId,
             ~ by_author "article" blog
                         (signed 2 10 (mk_article_body (text "Mine now") missing)) userId).
  { intros u (Ha & _ & t & Ht & Hau). injection Ha as <-.
    vm_compute in Ht. injection Ht as <-. vm_compute in Hau. discriminate Hau. }
  split; [exact H|]. unfold put_article.
  apply (only_the_author_gets_past_checkAuthor "article" _
           (signed 2 10 (mk_article_body (text "Mine now") missing)) blog H).
Defined.

(** Eve posts an article, ann deletes hers, bob edits his comment and eve
    reacts to bob's article. *)
Lemma site_requests_keep_the_constraints_witness :
  site_constraints blog
  /\ site_constraints
       (snd (site_serve
               [createArticle (signed 3 0 (mk_article_body (text "On trees")
                                             (text "Trees branch where lists do not.")));
                deleteArticle (signed 1 10 tt);
                updateComment (signed 2 20 (text "Well put indeed."));
                react (assignReaction Article (as_user 3 11 3))] blog)).
Proof.
  split; [exact blog_constraints|].
  apply site_requests_keep_the_constraints. exact blog_constraints.
Defined.

Lemma site_requests_keep_single_assignment_witness :
  single_assignment (db_of blog)
  /\ single_assignment
       (db_of (snd (site_serve
                      [react (assignReaction Article (as_user 2 10 2));
                       deleteComment (signed 2 20 tt);
                       react (assignReaction Comment (as_user 3 22 1));
                       deleteArticle (signed 2 11 tt)] blog))).
Proof.
  assert (H : single_assignment (db_of blog)) by known.
  split; [exact H|]. apply site_requests_keep_single_assignment. exact H.
Defined.

Lemma stored_texts_keep_the_lengths_of_the_schemas_witness :
  texts_sized blog
  /\ texts_sized
       (snd (site_serve
               [updateArticle (signed 1 10 (mk_article_body (text "On") missing));
                updateArticle (signed 1 10 (mk_article_body (text "On linked lists") missing));
                createComment (signed 3 11 (text "A fine map."))] blog)).
Proof.
  split; [exact blog_texts_sized|].
  apply stored_texts_keep_the_lengths_of_the_schemas. exact blog_texts_sized.
Defined.

(** Ann deletes her article 10: the comments 20 and 21, bob's like and ann's
    love for comment 20 go with it. *)
Lemma delete_article_takes_what_hangs_on_it_witness :
  by_author "article" blog (signed 1 10 tt) 1
  /\ (forall c, In c (comment_rows (snd (site_run (delete_article_route (signed 1 10 tt)) blog)))
                <-> In c (comment_rows blog) /\ c_article c <> 10)
  /\ site_run (delete_article_route (signed 1 10 tt)) blog
     = (mk_site_response 200 (deleted_json "Статья успешно удалена" "On lists"),
        mk_site (site_users blog) seed
                [mk_article 11 "On maps" "Maps send keys to their values." 2] 12
                [mk_comment 22 "Thanks." 11 1] 23
                [] 2
                [mk_row 2 22 3 4] 3).
Proof.
  assert (H : by_author "article" blog (signed 1 10 tt) 1) by authored.
  split; [exact H|]. split; [|reflexivity].
  exact (proj1 (proj2 (proj2 (delete_article_takes_what_hangs_on_it (signed 1 10 tt) blog 1 H)))).
Defined.

(** After that, eve's like for comment 20 finds no comment. *)
Lemma deleted_article_takes_no_reactions_witness :
  by_author "article" blog (signed 1 10 tt) 1
  /\ comment_keys blog
  /\ site_run (site_handler_of (react (assignReaction Comment (as_user 3 20 1))))
              (snd (site_run (delete_article_route (signed 1 10 tt)) blog))
     = (of_response (res_status 404 (msg "Комментарий не найден")),
        snd (site_run (delete_article_route (signed 1 10 tt)) blog)).
Proof.
  assert (H : by_author "article" blog (signed 1 10 tt) 1) by authored.
  split; [exact H|]. split; [exact blog_comment_keys|].
  apply (deleted_article_takes_no_reactions (signed 1 10 tt) blog 1
           (assignReaction Comment (as_user 3 20 1)) H blog_comment_keys).
  - exists 3, 1. known.
  - exists (mk_comment 20 "Well put." 10 2). simpl. auto.
Defined.

(** Ann retitles her article. *)
Lemma put_article_writes_what_was_sent_witness :
  by_author "article" blog
            (signed 1 10 (mk_article_body (text "On linked lists") missing)) 1
  /\ article_keys blog
  /\ in_integer 1 /\ in_integer 10
  /\ no_nul "On linked lists" = true
  /\ exists a user,
       hd_error (filter (fun a => a_id a =? 10) (article_rows blog)) = Some a
       /\ In user (site_users blog) /\ u_id user = 1
       /\ fst (site_pg_run (put_article
                              (signed 1 10 (mk_article_body (text "On linked lists") missing)))
                           blog)
          = mk_site_response 200
              (article_json "Статья успешно обновлена"
                            (Some (change_article (Some "On linked lists") None a))
                            (u_username user))
       /\ forall a',
            In a' (article_rows
                     (snd (site_pg_run (put_article
                                          (signed 1 10 (mk_article_body
                                                          (text "On linked lists") missing)))
                                       blog)))
            <-> a' = change_article (Some "On linked lists") None a
                \/ (In a' (article_rows blog) /\ a_id a' <> 10).
Proof.
  assert (H : by_author "article" blog
                        (signed 1 10 (mk_article_body (text "On linked lists") missing)) 1)
    by authored.
  assert (I1 : in_integer 1) by known.
  assert (I10 : in_integer 10) by known.
  assert (Ht : forall x, Some "On linked lists" = Some x \/ None = Some x -> no_nul x = true).
  { intros x [[= <-]|[=]]. reflexivity. }
  split; [exact H|]. split; [exact blog_article_keys|].
  split; [exact I1|]. split; [exact I10|]. split; [reflexivity|].
  exact (put_article_writes_what_was_sent
           (signed 1 10 (mk_article_body (text "On linked lists") missing)) blog 1
           (Some "On linked lists") None H blog_article_keys eq_refl I1 I10 Ht).
Defined.

(** Eve posts her first article. *)
Lemma new_article_belongs_to_its_poster_witness :
  is_user (db_of blog) 3
  /\ article_keys blog
  /\ in_integer 3 /\ in_integer (articles_id_seq blog)
  /\ no_nul "On trees" = true /\ no_nul "Trees branch where lists do not." = true
  /\ author_of Article
       (snd (site_pg_run (post_article
                            (signed 3 0 (mk_article_body (text "On trees")
                                           (text "Trees branch where lists do not."))))
                         blog)) 12
     = Some 3.
Proof.
  assert (H : is_user (db_of blog) 3) by known.
  assert (I3 : in_integer 3) by known.
  assert (Iq : in_integer (articles_id_seq blog)) by known.
  split; [exact H|]. split; [exact blog_article_keys|].
  split; [exact I3|]. split; [exact Iq|]. split; [reflexivity|]. split; [reflexivity|].
  exact (proj2 (proj2 (proj2 (proj2
           (new_article_belongs_to_its_poster
              (signed 3 0 (mk_article_body (text "On trees")
                             (text "Trees branch where lists do not."))) blog 3
              "On trees" "Trees branch where lists do not."
              eq_refl H eq_refl blog_article_keys I3 eq_refl eq_refl Iq))))).
Defined.


(** Bob deletes his comment 20, which ann loves. *)
Lemma delete_comment_takes_its_reactions_witness :
  by_author "comment" blog (signed 2 20 tt) 2
  /\ (forall r, In r (site_comment_reactions
                       (snd (site_run (delete_comment_route (signed 2 20 tt)) blog)))
                <-> In r (site_comment_reactions blog) /\ ar_subject r <> 20)
  /\ site_run (delete_comment_route (signed 2 20 tt)) blog
     = (mk_site_response 200 (deleted_json "Комментарий успешно удален" "Well put."),
        mk_site (site_users blog) seed (article_rows blog) 12
                [mk_comment 21 "What about trees?" 10 3; mk_comment 22 "Thanks." 11 1] 23
                [mk_row 1 10 2 1] 2
                [mk_row 2 22 3 4] 3).
Proof.
  assert (H : by_author "comment" blog (signed 2 20 tt) 2) by authored.
  split; [exact H|]. split; [|reflexivity].
  exact (proj1 (proj2 (proj2 (delete_comment_takes_its_reactions (signed 2 20 tt) blog 2 H)))).
Defined.


(** Holding both, he takes the like back. *)
Lemma earlier_delete_takes_one_kind_witness :
  accepted (db_of two_kinds) (as_user 2 10 1) 2 1
  /\ in_integer 2 /\ in_integer 10 /\ in_integer 1
  /\ fst (site_pg_run (earlier_route (earlier_delete_reaction Article) (as_user 2 10 1))
                      two_kinds)
     = res_json (msg "Реакция успешно удалена")
  /\ held Article 10 2
          (db_of (snd (site_pg_run (earlier_route (earlier_delete_reaction Article)
                                                  (as_user 2 10 1)) two_kinds)))
     = [mk_row 2 10 2 3].
Proof.
  assert (Ha : accepted (db_of two_kinds) (as_user 2 10 1) 2 1) by known.
  assert (Hs : is_subject Article (db_of two_kinds) (params_id (as_user 2 10 1))) by known.
  assert (I2 : in_integer 2) by known.
  assert (I10 : in_integer 10) by known.
  assert (I1 : in_integer 1) by known.
  split; [exact Ha|]. split; [exact I2|]. split; [exact I10|]. split; [exact I1|].
  pose proof (earlier_delete_takes_one_kind Article (as_user 2 10 1) two_kinds 2 1
                Ha I2 I10 I1 Hs) as (H1 & _ & H3).
  split; [exact H1|exact H3].
Defined.

(** Bob posts the like he already holds, and takes it back. *)
Lemma revisions_agree_on_one_kind_witness :
  accepted (db_of blog) (as_user 2 10 1) 2 1
  /\ in_range Article (db_of blog) (as_user 2 10 1) 2 1
  /\ site_pg_run (earlier_route (earlier_post_reaction Article) (as_user 2 10 1)) blog
     = site_pg_run (lift (fun r => r) (post_article_reaction (as_user 2 10 1))) blog
  /\ site_pg_run (earlier_route (earlier_delete_reaction Article) (as_user 2 10 1)) blog
     = site_pg_run (lift (fun r => r) (delete_article_reaction (as_user 2 10 1))) blog.
Proof.
  assert (Ha : accepted (db_of blog) (as_user 2 10 1) 2 1) by known.
  assert (Hr : in_range Article (db_of blog) (as_user 2 10 1) 2 1) by known.
  split; [exact Ha|]. split; [exact Hr|].
  apply (revisions_agree_on_one_kind Article (as_user 2 10 1) blog 2 1 Ha Hr).
  intros row Hin. vm_compute in Hin. destruct Hin as [<-|[]]. reflexivity.
Defined.

(** ** Refusals at work *)

(** A title that passes the schema and holds the character of code 0:
    eve's POST and ann's PUT are answered 500 and nothing is written. *)
Lemma nul_in_a_title_is_refused :
  let title := String Ascii.zero "abc" in
  articleSchemas_create (mk_article_body (text title)
                                         (text "Trees branch where lists do not."))
  = inr (title, "Trees branch where lists do not.")
  /\ site_pg_run (post_article (signed 3 0 (mk_article_body (text title)
                                              (text "Trees branch where lists do not."))))
                 blog
     = (site_server_error, blog)
  /\ site_pg_run (put_article (signed 1 10 (mk_article_body (text title) missing))) blog
     = (site_server_error, blog).
Proof. repeat split. Qed.

(** A comment for the article 2147483648: the SELECT of the article is
    refused and the answer is 500, not 404. *)
Lemma comment_on_article_out_of_range :
  site_pg_run (post_comment (signed 3 2147483648 (text "A fine map."))) blog
  = (site_server_error, blog).
Proof. reflexivity. Qed.

(** Where the revisions part on a request the middleware lets through: bob,
    who holds no reaction on article 11, asks to take the kind 2147483648
    back.  The earlier revision sends the kind to PostgreSQL and answers
    500; the later one does not read it and answers 404. *)
Lemma revisions_part_on_a_kind_out_of_range :
  accepted (db_of blog) (as_user 2 11 2147483648) 2 2147483648
  /\ fst (site_pg_run (earlier_route (earlier_delete_reaction Article)
                                     (as_user 2 11 2147483648)) blog)
     = res_status 500 (msg "Ошибка сервера")
  /\ fst (site_pg_run (lift (fun r => r) (delete_article_reaction (as_user 2 11 2147483648)))
                      blog)
     = res_status 404 (msg "Реакция не найдена").
Proof.
  split; [|split; reflexivity].
  split; [reflexivity|]. split; [known|split; reflexivity].
Qed.
